(** * go-selfupdate: the updater ([selfupdate.go]) and the release builder
    ([CreateUpdate]) as a shallow embedding.

    Go code that touches the clock, the random source, the file system, the
    requester or the log is written in a state monad over a [World]; a Go
    panic and [os.Exit] are outcomes of a computation.  Functions of the Go
    standard library and of third-party packages that the program calls but
    does not define are either written out (paths, query escaping, 64-bit
    arithmetic, the file system) or collected in the class [Extern]. *)

From Stdlib Require Import ZArith Lia Strings.Byte Strings.Ascii DecimalString.
From Stdlib Require DecimalZ DecimalPos.
From stdpp Require Import base gmap strings list sorting.

#[local] Open Scope Z_scope.

(** ** Go values *)

Abbreviation bytes := (list byte).

#[global] Instance byte_eq_decision : EqDecision byte := byte_eq_dec.

(** [[]byte(s)] and [string(p)]. *)
Definition bytes_of_string (s : string) : bytes := String.list_byte_of_string s.
Definition string_of_bytes (p : bytes) : string := String.string_of_list_byte p.

(** [bytes.Equal]. *)
Definition bytes_Equal (a b : bytes) : bool := bool_decide (a = b).

(** Go's [int] on a 64-bit target, [int64] and [time.Duration]: a [Z] kept in
    the signed 64-bit range by [wrap64] after every arithmetic operation. *)
Definition MaxInt64 : Z := 9223372036854775807.
Definition MinInt64 : Z := -9223372036854775808.
Definition wrap64 (z : Z) : Z := (z + 2 ^ 63) mod 2 ^ 64 - 2 ^ 63.
Definition int64_add (a b : Z) : Z := wrap64 (a + b).
Definition int64_mul (a b : Z) : Z := wrap64 (a * b).

(** [time.Time] is an instant, counted in nanoseconds from the zero value
    [time.Time{}]; [time.Duration] is a 64-bit count of nanoseconds. *)
Definition Time := Z.
Definition Duration := Z.
Definition time_Zero : Time := 0.
Definition time_Hour : Duration := 3600000000000.
Definition Time_Add (t : Time) (d : Duration) : Time := t + d.
Definition Time_After (t u : Time) : bool := u <? t.

(** ** Errors *)

Inductive Errno := ENOENT | ENOTDIR | EISDIR | EACCES | EEXIST.

Inductive error :=
| ErrHashMismatch
| ErrSignatureMismatch
| errors_New (text : string)
| PathError (op path : string) (e : Errno)
| fmt_Errorf (format : string) (args : list fmt_arg)
with fmt_arg :=
| ArgInt (n : Z)
| ArgErr (e : option error).

(** [err == ErrHashMismatch]: identity with the package-level value. *)
Definition is_ErrHashMismatch (e : error) : bool :=
  match e with ErrHashMismatch => true | _ => false end.

(** [os.IsNotExist]. *)
Definition os_IsNotExist (err : option error) : bool :=
  match err with
  | Some (PathError _ _ ENOENT) => true
  | _ => false
  end.

(** ** Paths ([path/filepath] on Unix) *)

Definition is_sep (c : Ascii.ascii) : bool := Ascii.eqb c "/"%char.

Fixpoint has_sep (s : string) : bool :=
  match s with
  | EmptyString => false
  | String c r => is_sep c || has_sep r
  end.

(** [strings.Split(s, "/")] *)
Fixpoint split_sep (s : string) : list string :=
  match s with
  | EmptyString => [EmptyString]
  | String c r =>
      if is_sep c then EmptyString :: split_sep r
      else match split_sep r with
           | x :: xs => String c x :: xs
           | [] => [String c EmptyString]
           end
  end.

Definition is_rooted (s : string) : bool :=
  match s with
  | String c _ => is_sep c
  | EmptyString => false
  end.

(** The elements that survive [Clean]: empty and [.] elements go, [..]
    removes the element before it, or is dropped at the root, or stays at the
    head of a relative path.  [stack] holds the kept elements, last first. *)
Fixpoint clean_elems (rooted : bool) (stack elems : list string) : list string :=
  match elems with
  | [] => rev stack
  | e :: es =>
      if bool_decide (e = "" ∨ e = ".") then clean_elems rooted stack es
      else if bool_decide (e = "..") then
        match stack with
        | top :: below =>
            if bool_decide (top = "..") then clean_elems rooted (e :: stack) es
            else clean_elems rooted below es
        | [] => if rooted then clean_elems rooted [] es
                else clean_elems rooted [e] es
        end
      else clean_elems rooted (e :: stack) es
  end.

Definition path_elems (s : string) : list string :=
  clean_elems (is_rooted s) [] (split_sep s).

Definition render (rooted : bool) (es : list string) : string :=
  if rooted then "/" +:+ String.concat "/" es
  else match es with [] => "." | _ => String.concat "/" es end.

Definition filepath_Clean (s : string) : string :=
  render (is_rooted s) (path_elems s).

(** [filepath.Join]: the elements from the first non-empty one on, joined by
    the separator and cleaned; the empty string when there is none. *)
Fixpoint filepath_Join (elem : list string) : string :=
  match elem with
  | [] => ""
  | e :: es =>
      if bool_decide (e = "") then filepath_Join es
      else filepath_Clean (String.concat "/" elem)
  end.

Fixpoint up_to_last_sep (s : string) : string :=
  match s with
  | EmptyString => EmptyString
  | String c r =>
      if has_sep r then String c (up_to_last_sep r)
      else if is_sep c then String c EmptyString
      else EmptyString
  end.

(** [filepath.Dir]: all but the last element, cleaned. *)
Definition filepath_Dir (path : string) : string :=
  filepath_Clean (up_to_last_sep path).

(** [filepath.Base] of a cleaned path. *)
Definition path_base (s : string) : string :=
  match path_elems s with
  | [] => filepath_Clean s
  | e :: es => List.last es e
  end.

Fixpoint inits {A} (l : list A) : list (list A) :=
  match l with
  | [] => [[]]
  | x :: xs => [] :: map (cons x) (inits xs)
  end.

(** The directories a path lookup walks through, the root or the working
    directory first; the cleaned path itself is not among them. *)
Definition walked_dirs (s : string) : list string :=
  map (render (is_rooted s)) (removelast (inits (path_elems s))).

(** ** The world: files, clock, random source, executable path, trace *)

(** An [io.Reader], by what reading it to the end delivers: all its bytes,
    or the error its [Read] reports. *)
Inductive Reader :=
| ReaderOf (data : bytes)
| ReaderFailing (e : error).

Definition io_ReadAll (r : Reader) : bytes + error :=
  match r with
  | ReaderOf data => inl data
  | ReaderFailing e => inr e
  end.

(** A file-system node with its permission bits; the process is the owner,
    so bits 8, 7 and 6 (0400, 0200, 0100) decide reading, writing and
    searching. *)
Inductive Node :=
| Regular (data : bytes) (mode : Z)
| Directory (mode : Z).

Definition may_read (mode : Z) : bool := Z.testbit mode 8.
Definition may_write (mode : Z) : bool := Z.testbit mode 7.
Definition may_search (mode : Z) : bool := Z.testbit mode 6.

Inductive Event :=
| Fetched (url : string)
| Logged (text : string) (err : option error)
| Printed (text : string) (err : option error).

Record World := mkWorld {
  fs : gmap string Node;          (* nodes by cleaned path *)
  clock : nat -> Time;            (* successive readings of [time.Now()] *)
  clock_reads : nat;
  rand_src : nat -> Z;            (* successive raw values of [math/rand] *)
  rand_draws : nat;
  executable : string + error;    (* what [osext.Executable()] returns *)
  trace : list Event              (* fetches and log lines, oldest first *)
}.

Definition set_fs (f : gmap string Node) (w : World) : World :=
  mkWorld f (clock w) (clock_reads w) (rand_src w) (rand_draws w)
          (executable w) (trace w).
Definition tick (w : World) : World :=
  mkWorld (fs w) (clock w) (S (clock_reads w)) (rand_src w) (rand_draws w)
          (executable w) (trace w).
Definition drawn (w : World) : World :=
  mkWorld (fs w) (clock w) (clock_reads w) (rand_src w) (S (rand_draws w))
          (executable w) (trace w).
Definition record (e : Event) (w : World) : World :=
  mkWorld (fs w) (clock w) (clock_reads w) (rand_src w) (rand_draws w)
          (executable w) (trace w ++ [e]).

(** *** File-system calls on the node map *)

Fixpoint walk (f : gmap string Node) (dirs : list string) : option Errno :=
  match dirs with
  | [] => None
  | d :: ds =>
      match f !! d with
      | Some (Directory m) => if may_search m then walk f ds else Some EACCES
      | Some (Regular _ _) => Some ENOTDIR
      | None => Some ENOENT
      end
  end.

Definition fs_stat (f : gmap string Node) (path : string) : Node + Errno :=
  if bool_decide (path = "") then inr ENOENT else
  match walk f (walked_dirs path) with
  | Some e => inr e
  | None =>
      match f !! filepath_Clean path with
      | Some n => inl n
      | None => inr ENOENT
      end
  end.

Definition fs_read (f : gmap string Node) (path : string) : bytes + Errno :=
  match fs_stat f path with
  | inl (Regular data m) => if may_read m then inl data else inr EACCES
  | inl (Directory _) => inr EISDIR
  | inr e => inr e
  end.

(** A new entry needs its parent, the last directory walked, to be writable. *)
Definition fs_create (f : gmap string Node) (path : string) (n : Node)
  : gmap string Node * option Errno :=
  match f !! List.last (walked_dirs path) "" with
  | Some (Directory m) =>
      if may_write m then (<[filepath_Clean path := n]> f, None)
      else (f, Some EACCES)
  | _ => (f, Some ENOENT)
  end.

(** [O_WRONLY|O_CREATE|O_TRUNC]: an existing file keeps its mode. *)
Definition fs_write (f : gmap string Node) (path : string) (data : bytes)
    (perm : Z) : gmap string Node * option Errno :=
  match fs_stat f path with
  | inl (Regular _ m) =>
      if may_write m then (<[filepath_Clean path := Regular data m]> f, None)
      else (f, Some EACCES)
  | inl (Directory _) => (f, Some EISDIR)
  | inr e =>
      match walk f (walked_dirs path) with
      | Some e' => (f, Some e')
      | None =>
          if bool_decide (path = "") then (f, Some ENOENT)
          else fs_create f path (Regular data perm)
      end
  end.

Definition fs_mkdir (f : gmap string Node) (path : string) (perm : Z)
  : gmap string Node * option Errno :=
  if bool_decide (path = "") then (f, Some ENOENT) else
  match walk f (walked_dirs path) with
  | Some e => (f, Some e)
  | None =>
      match f !! filepath_Clean path with
      | Some _ => (f, Some EEXIST)
      | None => fs_create f path (Directory perm)
      end
  end.

(** [os.MkdirAll]: every directory on the way is kept when it exists and
    made when it is missing; a file on the way is an error. *)
Fixpoint mkdir_each (f : gmap string Node) (dirs : list string) (perm : Z)
  : gmap string Node * option Errno :=
  match dirs with
  | [] => (f, None)
  | d :: ds =>
      match f !! d with
      | Some (Directory _) => mkdir_each f ds perm
      | Some (Regular _ _) => (f, Some ENOTDIR)
      | None =>
          match fs_mkdir f d perm with
          | (f', None) => mkdir_each f' ds perm
          | (f', Some e) => (f', Some e)
          end
      end
  end.

Definition fs_mkdirall (f : gmap string Node) (path : string) (perm : Z)
  : gmap string Node * option Errno :=
  if bool_decide (path = "") then (f, Some ENOENT)
  else mkdir_each f (walked_dirs path ++ [filepath_Clean path]) perm.

(** [os.FileInfo], as far as the program looks at it. *)
Record FileInfo := mkFileInfo { Name : string; IsDir : bool }.

Definition node_is_dir (n : Node) : bool :=
  match n with Directory _ => true | Regular _ _ => false end.

Definition by_name (a b : FileInfo) : Prop := String.le (Name a) (Name b).

#[global] Instance by_name_dec : RelDecision by_name :=
  fun a b => decide (String.le (Name a) (Name b)).

Definition dir_entries (f : gmap string Node) (dir : string) : list FileInfo :=
  merge_sort by_name
    (omap (fun kn : string * Node =>
             if bool_decide (kn.1 <> dir /\ filepath_Dir kn.1 = dir)
             then Some (mkFileInfo (path_base kn.1) (node_is_dir kn.2))
             else None)
          (map_to_list f)).

Definition fs_readdir (f : gmap string Node) (path : string)
  : list FileInfo + Errno :=
  match fs_stat f path with
  | inl (Directory m) =>
      if may_read m then inl (dir_entries f (filepath_Clean path))
      else inr EACCES
  | inl (Regular _ _) => inr ENOTDIR
  | inr e => inr e
  end.

(** [os.Remove]: the parent directory must be writable, and a directory
    goes only when it is empty. *)
Definition fs_remove (f : gmap string Node) (path : string)
  : gmap string Node * option Errno :=
  match fs_stat f path with
  | inr e => (f, Some e)
  | inl n =>
      match f !! List.last (walked_dirs path) "" with
      | Some (Directory m) =>
          if may_write m then
            match n with
            | Regular _ _ => (delete (filepath_Clean path) f, None)
            | Directory _ =>
                match dir_entries f (filepath_Clean path) with
                | [] => (delete (filepath_Clean path) f, None)
                | _ :: _ => (f, Some EEXIST)
                end
            end
          else (f, Some EACCES)
      | _ => (f, Some EACCES)
      end
  end.

(** ** Go computations *)

Inductive Outcome (A : Type) :=
| Ret (a : A)
| Panic (v : error)
| Exit (code : Z).
Arguments Ret {A} a.
Arguments Panic {A} v.
Arguments Exit {A} code.

Definition Go (A : Type) : Type := World -> Outcome A * World.

#[global] Instance Go_ret : MRet Go := fun A a w => (Ret a, w).

#[global] Instance Go_bind : MBind Go := fun A B k m w =>
  match m w with
  | (Ret a, w') => k a w'
  | (Panic v, w') => (Panic v, w')
  | (Exit c, w') => (Exit c, w')
  end.

Definition panic {A} (v : error) : Go A := fun w => (Panic v, w).
Definition os_Exit {A} (code : Z) : Go A := fun w => (Exit code, w).

(** A method call on a nil interface value. *)
Definition nil_dereference : error :=
  errors_New "runtime error: invalid memory address or nil pointer dereference".

Definition deref {A} (r : option A) : Go A :=
  match r with
  | Some x => mret x
  | None => panic nil_dereference
  end.

Definition time_Now : Go Time :=
  fun w => (Ret (clock w (clock_reads w)), tick w).

(** [rand.Intn(n)]: a value in [[0,n)], and a panic unless [0 < n]. *)
Definition rand_Intn (n : Z) : Go Z := fun w =>
  if n <=? 0 then (Panic (errors_New "invalid argument to Intn"), w)
  else (Ret (rand_src w (rand_draws w) mod n), drawn w).

Definition osext_Executable : Go (string + error) :=
  fun w => (Ret (executable w), w).

Definition log_Println (text : string) (err : option error) : Go unit :=
  fun w => (Ret tt, record (Logged text err) w).

Definition fmt_Println (text : string) (err : option error) : Go unit :=
  fun w => (Ret tt, record (Printed text err) w).

Definition fmt_Fprintf_Stderr (format : string) (err : option error) : Go unit :=
  fun w => (Ret tt, record (Printed format err) w).

Definition ioutil_ReadFile (path : string) : Go (bytes + error) := fun w =>
  match fs_read (fs w) path with
  | inl data => (Ret (inl data), w)
  | inr e => (Ret (inr (PathError "open" path e)), w)
  end.

Definition ioutil_WriteFile (path : string) (data : bytes) (perm : Z)
  : Go (option error) := fun w =>
  match fs_write (fs w) path data perm with
  | (f, None) => (Ret None, set_fs f w)
  | (f, Some e) => (Ret (Some (PathError "open" path e)), set_fs f w)
  end.

Definition os_MkdirAll (path : string) (perm : Z) : Go (option error) :=
  fun w =>
  match fs_mkdirall (fs w) path perm with
  | (f, None) => (Ret None, set_fs f w)
  | (f, Some e) => (Ret (Some (PathError "mkdir" path e)), set_fs f w)
  end.

Definition os_Mkdir (path : string) (perm : Z) : Go (option error) :=
  fun w =>
  match fs_mkdir (fs w) path perm with
  | (f, None) => (Ret None, set_fs f w)
  | (f, Some e) => (Ret (Some (PathError "mkdir" path e)), set_fs f w)
  end.

Definition os_Remove (path : string) : Go (option error) := fun w =>
  match fs_remove (fs w) path with
  | (f, None) => (Ret None, set_fs f w)
  | (f, Some e) => (Ret (Some (PathError "remove" path e)), set_fs f w)
  end.

Definition ioutil_ReadDir (path : string) : Go (list FileInfo + error) :=
  fun w =>
  match fs_readdir (fs w) path with
  | inl l => (Ret (inl l), w)
  | inr e => (Ret (inr (PathError "open" path e)), w)
  end.

(** [os.Open]: a readable file gives a reader of its bytes; a directory opens
    too, and reading it fails. *)
Definition os_Open (path : string) : Go (Reader + error) := fun w =>
  match fs_stat (fs w) path with
  | inl (Regular data m) =>
      if may_read m then (Ret (inl (ReaderOf data)), w)
      else (Ret (inr (PathError "open" path EACCES)), w)
  | inl (Directory m) =>
      if may_read m
      then (Ret (inl (ReaderFailing (PathError "read" path EISDIR))), w)
      else (Ret (inr (PathError "open" path EACCES)), w)
  | inr e => (Ret (inr (PathError "open" path e)), w)
  end.

(** ** [url.QueryEscape] *)

Definition in_range (lo hi c : Ascii.ascii) : bool :=
  (N_of_ascii lo <=? N_of_ascii c)%N && (N_of_ascii c <=? N_of_ascii hi)%N.

(** [shouldEscape(c, encodeQueryComponent)]: letters, digits and the marks
    [-], [_], [.], [~] stay, everything else is escaped. *)
Definition shouldEscape (c : Ascii.ascii) : bool :=
  if in_range "a" "z" c || in_range "A" "Z" c || in_range "0" "9" c then false
  else if bool_decide (c ∈ ["-"; "_"; "."; "~"]%char) then false
  else true.

Definition upperhex (n : N) : Ascii.ascii :=
  nth (N.to_nat n)
      ["0"; "1"; "2"; "3"; "4"; "5"; "6"; "7";
       "8"; "9"; "A"; "B"; "C"; "D"; "E"; "F"]%char "0"%char.

Fixpoint url_QueryEscape (s : string) : string :=
  match s with
  | EmptyString => EmptyString
  | String c r =>
      if shouldEscape c then
        if Ascii.eqb c " " then String "+" (url_QueryEscape r)
        else String "%" (String (upperhex (N.shiftr (N_of_ascii c) 4))
                        (String (upperhex (N.land (N_of_ascii c) 15))
                                (url_QueryEscape r)))
      else String c (url_QueryEscape r)
  end.

(** Permission bits as the source writes them. *)
Notation "0o444" := 292 (only parsing).
Notation "0o644" := 420 (only parsing).
Notation "0o755" := 493 (only parsing).
Notation "0o777" := 511 (only parsing).

(** ** The manifest, the configuration and the packages used *)

Definition upcktimePath : string := "cktime".
Definition sha256_Size : Z := 32.

(** [Sha256] is only measured and compared, so a nil and an empty slice are
    one value; [Signature] is tested against nil, so it has both. *)
Record Info := mkInfo {
  Version : string;
  Sha256 : bytes;
  Signature : option bytes
}.

Definition Info_zero : Info := mkInfo "" [] None.

Definition slice_bytes (s : option bytes) : bytes := default [] s.

(** [rsa.PublicKey] with its fields N and E, [rsa.PrivateKey] with D. *)
Record rsa_PublicKey := mkPublicKey { key_N : Z; key_E : Z }.
Record rsa_PrivateKey := mkPrivateKey { key_Public : rsa_PublicKey; key_D : Z }.

(** The one method of the [Requester] interface: the reader and the error
    returned for a URL, which may depend on what happened before. *)
Definition Fetch : Type :=
  list Event -> string -> option Reader * option error.

Record Updater := mkUpdater {
  CurrentVersion : string;
  ApiURL : string;
  CmdName : string;
  BinURL : string;
  DiffURL : string;
  Dir : string;
  ForceCheck : bool;
  CheckTime : Z;
  RandomizeTime : Z;
  Requester : option Fetch;
  PublicKey : option rsa_PublicKey;
  Target : string
}.

(** What the program takes from other packages: the platform constant, the
    hash and signature primitives, the JSON, gzip and binary-delta codecs,
    the RFC 3339 layout of [time], the default HTTP requester and the update
    engine [up] of go-update. *)
Class Extern := {
  plat : string;
  sha256_Sum : bytes -> bytes;
  rsa_VerifyPKCS1v15 : rsa_PublicKey -> bytes -> bytes -> option error;
  rsa_SignPKCS1v15 : rsa_PrivateKey -> bytes -> bytes + error;
  json_Decode : Reader -> Info + error;
  json_MarshalIndent : Info -> bytes * option error;
  gzip_NewReader : Reader -> Reader + error;
  gzip_Write : bytes -> bytes;
  binarydist_Patch : Reader -> Reader -> bytes * option error;
  binarydist_Diff : Reader -> Reader -> bytes + error;
  Format_RFC3339 : Time -> string;
  Parse_RFC3339 : string -> Time + error;
  defaultHTTPRequester : Fetch;
  up_CanUpdate_on : World -> option error;
  up_FromStream_on :
    bytes -> World -> gmap string Node * (option error * option error)
}.

(** The update engine looks at the world and changes nothing but files. *)
Definition up_CanUpdate {ext : Extern} : Go (option error) :=
  fun w => (Ret (up_CanUpdate_on w), w).

Definition up_FromStream {ext : Extern} (bin : bytes)
  : Go (option error * option error) :=
  fun w => let '(f, errs) := up_FromStream_on bin w in (Ret errs, set_fs f w).

(** ** selfupdate.go *)

Section Selfupdate.
Context {ext : Extern}.

Definition getTargetAbsoluteDir (u : Updater) : Go string :=
  if bool_decide (Target u = "") then
    r ← osext_Executable;
    match r with
    | inr err => panic err
    | inl filename => mret filename
    end
  else mret (Target u).

Definition getExecRelativeDir (u : Updater) (dir : string) : Go string :=
  filename ← getTargetAbsoluteDir u;
  mret (filepath_Join [filepath_Dir filename; dir]).

Definition readTime (path : string) : Go Time :=
  r ← ioutil_ReadFile path;
  match r with
  | inr err =>
      if os_IsNotExist (Some err) then mret time_Zero
      else now ← time_Now; mret (Time_Add now (int64_mul 1000 time_Hour))
  | inl p =>
      match Parse_RFC3339 (string_of_bytes p) with
      | inr _ => now ← time_Now; mret (Time_Add now (int64_mul 1000 time_Hour))
      | inl t => mret t
      end
  end.

Definition writeTime (path : string) (t : Time) : Go bool :=
  err ← ioutil_WriteFile path (bytes_of_string (Format_RFC3339 t)) 0o644;
  mret (bool_decide (err = None)).

Definition NextUpdate (u : Updater) : Go Time :=
  path ← getExecRelativeDir u (Dir u +:+ upcktimePath);
  readTime path.

(** The condition of the [if]: [||] and [&&] evaluate their right operand
    only when the left one does not decide. *)
Definition WantUpdate (u : Updater) : Go bool :=
  c ← (if bool_decide (CurrentVersion u = "dev") then mret true
       else if negb (ForceCheck u) then
         next ← NextUpdate u;
         now ← time_Now;
         mret (Time_After next now)
       else mret false);
  if c : bool then mret false else mret true.

Definition SetUpdateTime (u : Updater) : Go bool :=
  path ← getExecRelativeDir u (Dir u +:+ upcktimePath);
  let wait := int64_mul (CheckTime u) time_Hour in
  n ← rand_Intn (int64_add (RandomizeTime u) 1);
  let waitrand := int64_mul n time_Hour in
  now ← time_Now;
  writeTime path (Time_Add now (int64_add wait waitrand)).

Definition ClearUpdateState (u : Updater) : Go unit :=
  path ← getExecRelativeDir u (Dir u +:+ upcktimePath);
  _ ← os_Remove path;
  mret tt.

Definition call_Fetch (rq : Fetch) (url : string)
  : Go (option Reader * option error) :=
  fun w => (Ret (rq (trace w) url), record (Fetched url) w).

Definition fetch (u : Updater) (url : string)
  : Go (option Reader * option error) :=
  match Requester u with
  | None => call_Fetch defaultHTTPRequester url
  | Some rq =>
      '(readCloser, err) ← call_Fetch rq url;
      match err with
      | Some e => mret (None, Some e)
      | None =>
          match readCloser with
          | None =>
              mret (None, Some (fmt_Errorf
                "Fetch was expected to return non-nil ReadCloser" []))
          | Some r => mret (Some r, None)
          end
      end
  end.

Definition verifySha (bin sha : bytes) : bool :=
  bytes_Equal (sha256_Sum bin) sha.

Definition verifySignature (pk : option rsa_PublicKey) (bin : bytes)
    (sig : option bytes) : bool :=
  match pk with
  | None => true
  | Some k =>
      match rsa_VerifyPKCS1v15 k (sha256_Sum bin) (slice_bytes sig) with
      | Some _ => false
      | None => true
      end
  end.

Definition manifest_url (u : Updater) : string :=
  ApiURL u +:+ url_QueryEscape (CmdName u) +:+ "/" +:+ url_QueryEscape plat
    +:+ ".json".

Definition patch_url (u : Updater) (info : Info) : string :=
  DiffURL u +:+ url_QueryEscape (CmdName u) +:+ "/"
    +:+ url_QueryEscape (CurrentVersion u) +:+ "/"
    +:+ url_QueryEscape (Version info) +:+ "/" +:+ url_QueryEscape plat.

Definition bin_url (u : Updater) (info : Info) : string :=
  BinURL u +:+ url_QueryEscape (CmdName u) +:+ "/"
    +:+ url_QueryEscape (Version info) +:+ "/" +:+ url_QueryEscape plat
    +:+ ".gz".

Definition fetchInfo (u : Updater) : Go (Info * option error) :=
  '(r, err) ← fetch u (manifest_url u);
  match err with
  | Some e => mret (Info_zero, Some e)
  | None =>
      r ← deref r;
      match json_Decode r with
      | inr e => mret (Info_zero, Some e)
      | inl info =>
          if bool_decide (Version info <> "")
             && bool_decide (Z.of_nat (length (Sha256 info)) <> sha256_Size)
          then mret (Info_zero, Some (fmt_Errorf
                 "bad cmd hash in info. Expected %v got %v"
                 [ArgInt sha256_Size;
                  ArgInt (Z.of_nat (length (Sha256 info)))]))
          else mret (info, None)
      end
  end.

Definition fetchAndApplyPatch (u : Updater) (info : Info) (old : Reader)
  : Go (bytes * option error) :=
  '(r, err) ← fetch u (patch_url u info);
  match err with
  | Some e => mret ([], Some e)
  | None =>
      r ← deref r;
      mret (binarydist_Patch old r)
  end.

Definition fetchAndVerifyPatch (u : Updater) (info : Info) (old : Reader)
  : Go (bytes * option error) :=
  '(bin, err) ← fetchAndApplyPatch u info old;
  match err with
  | Some e => mret ([], Some e)
  | None =>
      if negb (verifySha bin (Sha256 info)) then
        mret ([], Some ErrHashMismatch)
      else if negb (verifySignature (PublicKey u) bin (Signature info)) then
        mret ([], Some ErrSignatureMismatch)
      else mret (bin, None)
  end.

Definition fetchBin (u : Updater) (info : Info) : Go (bytes * option error) :=
  '(r, err) ← fetch u (bin_url u info);
  match err with
  | Some e => mret ([], Some e)
  | None =>
      r ← deref r;
      match gzip_NewReader r with
      | inr e => mret ([], Some e)
      | inl gz =>
          match io_ReadAll gz with
          | inr e => mret ([], Some e)
          | inl buf => mret (buf, None)
          end
      end
  end.

Definition fetchAndVerifyFullBin (u : Updater) (info : Info)
  : Go (bytes * option error) :=
  '(bin, err) ← fetchBin u info;
  match err with
  | Some e => mret ([], Some e)
  | None =>
      if negb (verifySha bin (Sha256 info)) then
        mret ([], Some ErrHashMismatch)
      else if negb (verifySignature (PublicKey u) bin (Signature info)) then
        mret ([], Some ErrSignatureMismatch)
      else mret (bin, None)
  end.

(** The end of [Update], from [up.FromStream] on, reached with the verified
    bytes of the new binary. *)
Definition Update_install (info : Info) (bin : bytes)
  : Go (Info * option error) :=
  '(err, errRecover) ← up_FromStream bin;
  match errRecover with
  | Some _ =>
      mret (Info_zero, Some (fmt_Errorf "update and recovery errors: %q %q"
                               [ArgErr err; ArgErr errRecover]))
  | None =>
      match err with
      | Some e => mret (Info_zero, Some e)
      | None => mret (info, None)
      end
  end.

(** The full download that [Update] turns to when the patch stage returned
    an error. *)
Definition Update_full (u : Updater) (info : Info)
  : Go (Info * option error) :=
  '(bin, err) ← fetchAndVerifyFullBin u info;
  match err with
  | Some e =>
      (if is_ErrHashMismatch e
       then log_Println "update: hash mismatch from full binary" None
       else log_Println "update: error fetching full binary," (Some e));;
      mret (Info_zero, Some e)
  | None => Update_install info bin
  end.

(** What the full download leaves in the log. *)
Definition full_stage_log (ev : list Event) : Prop :=
  ev = [] \/ ev = [Logged "update: hash mismatch from full binary" None] \/
  exists e, ev = [Logged "update: error fetching full binary," (Some e)].

Definition Update (u : Updater) : Go (Info * option error) :=
  path ← getTargetAbsoluteDir u;
  o ← os_Open path;
  match o with
  | inr err => mret (Info_zero, Some err)
  | inl old =>
      '(info, err) ← fetchInfo u;
      match err with
      | Some e => mret (Info_zero, Some e)
      | None =>
          if bool_decide (Version info = "") then mret (Info_zero, None)
          else if bool_decide (Version info = CurrentVersion u)
          then mret (Info_zero, None)
          else if bool_decide (PublicKey u <> None /\ Signature info = None)
          then mret (Info_zero, Some (fmt_Errorf
                 "update: configured with public key but version info had no signature"
                 []))
          else
            '(bin, err) ← fetchAndVerifyPatch u info old;
            match err with
            | Some e =>
                (if is_ErrHashMismatch e
                 then log_Println "update: hash mismatch from patched binary"
                                  None
                 else if bool_decide (DiffURL u <> "")
                 then log_Println "update: error patching binary," (Some e)
                 else mret tt);;
                Update_full u info
            | None => Update_install info bin
            end
      end
  end.

Definition UpdateAvailable (u : Updater) : Go (string * option error) :=
  path ← getTargetAbsoluteDir u;
  o ← os_Open path;
  match o with
  | inr err => mret ("", Some err)
  | inl old =>
      '(info, err) ← fetchInfo u;
      match err with
      | Some e => mret ("", Some e)
      | None =>
          if bool_decide (Version info = CurrentVersion u) then mret ("", None)
          else mret (Version info, None)
      end
  end.

Definition BackgroundRun (u : Updater) : Go (Info * option error) :=
  dir ← getExecRelativeDir u (Dir u);
  err ← os_MkdirAll dir 0o777;
  match err with
  | Some e => mret (Info_zero, Some e)
  | None =>
      want ← WantUpdate u;
      if want : bool then
        err ← up_CanUpdate;
        match err with
        | Some e => mret (Info_zero, Some e)
        | None =>
            _ ← SetUpdateTime u;
            Update u
        end
      else mret (Info_zero, None)
  end.

End Selfupdate.

(** ** The release builder *)

Section Builder.
Context {ext : Extern}.

Definition newGzReader (r : Reader) : Go Reader :=
  match gzip_NewReader r with
  | inr err => panic err
  | inl g => mret g
  end.

Definition GenerateSha256 (path : string) : Go bytes :=
  r ← ioutil_ReadFile path;
  match r with
  | inr err => fmt_Println "" (Some err);; mret (sha256_Sum [])
  | inl b => mret (sha256_Sum b)
  end.

(** The body of the [for _, file := range files] loop of [CreateUpdate]. *)
Fixpoint CreateUpdate_range (version : Info) (platform genDir : string)
    (files : list FileInfo) : Go unit :=
  match files with
  | [] => mret tt
  | file :: rest =>
      if negb (IsDir file) then CreateUpdate_range version platform genDir rest
      else if bool_decide (Name file = Version version)
      then CreateUpdate_range version platform genDir rest
      else
        _ ← os_Mkdir (filepath_Join [genDir; Name file; Version version]) 0o755;
        o ← os_Open (filepath_Join [genDir; Name file; platform +:+ ".gz"]);
        match o with
        | inr _ => CreateUpdate_range version platform genDir rest
        | inl old =>
            o ← os_Open
                  (filepath_Join [genDir; Version version; platform +:+ ".gz"]);
            match o with
            | inr err =>
                fmt_Fprintf_Stderr "Can't open %s: error: %s" (Some err);;
                os_Exit 1
            | inl newF =>
                ar ← newGzReader old;
                br ← newGzReader newF;
                match binarydist_Diff ar br with
                | inr err => panic err
                | inl patch =>
                    _ ← ioutil_WriteFile
                          (filepath_Join
                             [genDir; Name file; Version version; platform])
                          patch 0o755;
                    CreateUpdate_range version platform genDir rest
                end
            end
        end
  end.

Definition CreateUpdate (version : Info) (path platform genDir : string)
    (pk : option rsa_PrivateKey) : Go unit :=
  sha ← GenerateSha256 path;
  c ← match pk with
      | Some k =>
          match rsa_SignPKCS1v15 k sha with
          | inr err => panic err
          | inl sig => mret (mkInfo (Version version) sha (Some sig))
          end
      | None => mret (mkInfo (Version version) sha None)
      end;
  let '(b, err) := json_MarshalIndent c in
  (if err is Some e then fmt_Println "error:" (Some e) else mret tt);;
  err ← ioutil_WriteFile (filepath_Join [genDir; platform +:+ ".json"]) b 0o755;
  match err with
  | Some e => panic e
  | None =>
      _ ← os_MkdirAll (filepath_Join [genDir; Version version]) 0o755;
      r ← ioutil_ReadFile path;
      match r with
      | inr e => panic e
      | inl f =>
          _ ← ioutil_WriteFile
                (filepath_Join [genDir; Version version; platform +:+ ".gz"])
                (gzip_Write f) 0o755;
          r ← ioutil_ReadDir genDir;
          files ← match r with
                  | inr e => fmt_Println "" (Some e);; mret []
                  | inl l => mret l
                  end;
          CreateUpdate_range version platform genDir files
      end
  end.

End Builder.

(** ** Stand-ins for the packages, to run the program on concrete inputs

    None of these is the real primitive; each has the shape the program
    relies on: a 32-byte digest, a signature check that accepts one
    signature per digest, a manifest decoder given by the table of bodies it
    understands, a gzip and a delta format with a header, a timestamp text
    with whole seconds, an HTTP requester without network, and an update
    engine that writes the new bytes over the executable. *)

Module Standin.

Definition digest (b : bytes) : bytes := take 32 (b ++ replicate 32 x00).

Definition signed (h : bytes) : bytes := bytes_of_string "signed:" ++ h.

Definition verify (k : rsa_PublicKey) (h sig : bytes) : option error :=
  if bool_decide (sig = signed h) then None
  else Some (errors_New "crypto/rsa: verification error").

Fixpoint assoc (b : bytes) (table : list (bytes * Info)) : option Info :=
  match table with
  | [] => None
  | (k, i) :: rest => if bool_decide (k = b) then Some i else assoc b rest
  end.

Definition decode (table : list (bytes * Info)) (r : Reader) : Info + error :=
  match r with
  | ReaderFailing e => inr e
  | ReaderOf b =>
      if bool_decide (b = bytes_of_string "{}") then inl Info_zero
      else match assoc b table with
           | Some i => inl i
           | None => inr (errors_New "invalid character")
           end
  end.

Definition marshal (i : Info) : bytes * option error :=
  (bytes_of_string ("manifest " +:+ Version i), None).

Definition gz_magic : bytes := [x1f; x8b].

Definition gunzip (r : Reader) : Reader + error :=
  match r with
  | ReaderFailing e => inr e
  | ReaderOf b =>
      if bool_decide (take 2 b = gz_magic) then inl (ReaderOf (drop 2 b))
      else inr (errors_New "gzip: invalid header")
  end.

Definition gzip (b : bytes) : bytes := gz_magic ++ b.

Definition delta_magic : bytes := bytes_of_string "BSDIFF40".

Definition patch (old p : Reader) : bytes * option error :=
  match old, p with
  | ReaderFailing e, _ => ([], Some e)
  | _, ReaderFailing e => ([], Some e)
  | ReaderOf _, ReaderOf d =>
      if bool_decide (take 8 d = delta_magic) then (drop 8 d, None)
      else ([], Some (errors_New "corrupt patch"))
  end.

Definition diff (old new : Reader) : bytes + error :=
  match old, new with
  | ReaderFailing e, _ => inr e
  | _, ReaderFailing e => inr e
  | ReaderOf _, ReaderOf n => inl (delta_magic ++ n)
  end.

Definition second : Z := 1000000000.

Definition format (t : Time) : string :=
  NilZero.string_of_int (Z.to_int (t / second)).

Definition parse (s : string) : Time + error :=
  match NilZero.int_of_string s with
  | Some i => inl (Z.of_int i * second)
  | None => inr (errors_New "parsing time: cannot parse")
  end.

Definition no_network : Fetch :=
  fun _ url => (None, Some (errors_New "Get: no network")).

Definition from_stream (bin : bytes) (w : World)
  : gmap string Node * (option error * option error) :=
  match executable w with
  | inl path =>
      match fs_write (fs w) path bin 0o755 with
      | (f, None) => (f, (None, None))
      | (f, Some e) => (f, (Some (PathError "rename" path e), None))
      end
  | inr e => (fs w, (Some e, None))
  end.

Definition extern (table : list (bytes * Info)) : Extern := {|
  plat := "linux-amd64";
  sha256_Sum := digest;
  rsa_VerifyPKCS1v15 := verify;
  rsa_SignPKCS1v15 := fun _ h => inl (signed h);
  json_Decode := decode table;
  json_MarshalIndent := marshal;
  gzip_NewReader := gunzip;
  gzip_Write := gzip;
  binarydist_Patch := patch;
  binarydist_Diff := diff;
  Format_RFC3339 := format;
  Parse_RFC3339 := parse;
  defaultHTTPRequester := no_network;
  up_CanUpdate_on := fun _ => None;
  up_FromStream_on := from_stream
|}.

(** An installation under [/opt/app]; the clock starts at [t0] and advances
    one nanosecond per reading, up to the fifth; every raw random value is
    [raw]. *)
Definition t0 : Time := 63900000000 * second.

Definition readings : list Time := [t0; t0 + 1; t0 + 2; t0 + 3].

Definition old_binary : bytes := bytes_of_string "old binary".
Definition new_binary : bytes := bytes_of_string "new binary".

Definition installed : gmap string Node :=
  list_to_map
    [("/", Directory 0o755); ("/opt", Directory 0o755);
     ("/opt/app", Directory 0o755);
     ("/opt/app/hello", Regular old_binary 0o755)].

Definition world (f : gmap string Node) (raw : Z) : World :=
  mkWorld f (fun n => List.nth n readings (t0 + 4)) 0 (fun _ => raw) 0
          (inl "/opt/app/hello") [].

(** The same installation with its state directory, and with [cktime] in
    that directory when a node is given. *)
Definition with_state (cktime : option Node) : gmap string Node :=
  let f := <["/opt/app/update" := Directory 0o755]> installed in
  match cktime with
  | Some n => <["/opt/app/update/cktime" := n]> f
  | None => f
  end.

Definition stamp_file (t : Time) (mode : Z) : Node :=
  Regular (bytes_of_string (format t)) mode.

(** [createUpdater] and [createUpdaterWithEscapedCharacters] of the test
    file. *)
Definition createUpdater (mr : option Fetch) : Updater := {|
  CurrentVersion := "1.2";
  ApiURL := "http://api.updates.yourdomain.com/";
  CmdName := "myapp";
  BinURL := "http://bin.updates.yourdownmain.com/";
  DiffURL := "http://diff.updates.yourdomain.com/";
  Dir := "update/";
  ForceCheck := false;
  CheckTime := 0;
  RandomizeTime := 0;
  Requester := mr;
  PublicKey := None;
  Target := ""
|}.

Definition createUpdaterWithEscapedCharacters (mr : option Fetch) : Updater := {|
  CurrentVersion := "1.2+foobar";
  ApiURL := "http://api.updates.yourdomain.com/";
  CmdName := "myapp+foo";
  BinURL := "http://bin.updates.yourdownmain.com/";
  DiffURL := "http://diff.updates.yourdomain.com/";
  Dir := "update/";
  ForceCheck := false;
  CheckTime := 0;
  RandomizeTime := 0;
  Requester := mr;
  PublicKey := None;
  Target := ""
|}.

Definition with_times (c r : Z) (u : Updater) : Updater :=
  mkUpdater (CurrentVersion u) (ApiURL u) (CmdName u) (BinURL u) (DiffURL u)
            (Dir u) (ForceCheck u) c r (Requester u) (PublicKey u) (Target u).

Definition with_CurrentVersion (v : string) (u : Updater) : Updater :=
  mkUpdater v (ApiURL u) (CmdName u) (BinURL u) (DiffURL u) (Dir u)
            (ForceCheck u) (CheckTime u) (RandomizeTime u) (Requester u)
            (PublicKey u) (Target u).

Definition with_ForceCheck (b : bool) (u : Updater) : Updater :=
  mkUpdater (CurrentVersion u) (ApiURL u) (CmdName u) (BinURL u) (DiffURL u)
            (Dir u) b (CheckTime u) (RandomizeTime u) (Requester u)
            (PublicKey u) (Target u).

Definition with_DiffURL (d : string) (u : Updater) : Updater :=
  mkUpdater (CurrentVersion u) (ApiURL u) (CmdName u) (BinURL u) d (Dir u)
            (ForceCheck u) (CheckTime u) (RandomizeTime u) (Requester u)
            (PublicKey u) (Target u).

Definition with_PublicKey (k : rsa_PublicKey) (u : Updater) : Updater :=
  mkUpdater (CurrentVersion u) (ApiURL u) (CmdName u) (BinURL u) (DiffURL u)
            (Dir u) (ForceCheck u) (CheckTime u) (RandomizeTime u)
            (Requester u) (Some k) (Target u).

(** A requester that serves what [routes] lists and answers 404 elsewhere. *)
Fixpoint serve (routes : list (string * bytes)) (url : string)
  : option Reader * option error :=
  match routes with
  | [] => (None, Some (errors_New "Bad status code: 404"))
  | (k, body) :: rest =>
      if bool_decide (k = url) then (Some (ReaderOf body), None)
      else serve rest url
  end.

Definition server (routes : list (string * bytes)) : Fetch :=
  fun _ url => serve routes url.

(** The manifests the example servers publish: version 1.3 unsigned, the
    same with a signature that is not the one of its hash, a manifest
    without version and with a three-byte hash, and version 1.3 with a
    three-byte hash. *)
Definition info13 : Info := mkInfo "1.3" (digest new_binary) None.
Definition forged13 : Info :=
  mkInfo "1.3" (digest new_binary) (Some (bytes_of_string "forged")).
Definition odd : Info := mkInfo "" [x01; x02; x03] None.
Definition short13 : Info := mkInfo "1.3" [x01; x02; x03] None.

Definition table : list (bytes * Info) :=
  [(bytes_of_string "manifest 1.3", info13);
   (bytes_of_string "manifest 1.3 forged", forged13);
   (bytes_of_string "manifest odd", odd);
   (bytes_of_string "manifest short", short13)].

Definition packages : Extern := extern table.

Definition key : rsa_PublicKey := mkPublicKey 3233 17.

Definition api_json : string :=
  "http://api.updates.yourdomain.com/myapp/linux-amd64.json".
Definition diff_13 : string :=
  "http://diff.updates.yourdomain.com/myapp/1.2/1.3/linux-amd64".
Definition bin_13 : string :=
  "http://bin.updates.yourdownmain.com/myapp/1.3/linux-amd64.gz".

(** The server of the forged manifest delivers the patch and has no full
    binary; [forged_full] has the full binary too. *)
Definition forged_patch_only : Updater :=
  with_PublicKey key (createUpdater (Some (server
    [(api_json, bytes_of_string "manifest 1.3 forged");
     (diff_13, delta_magic ++ new_binary)]))).

Definition forged_full : Updater :=
  with_PublicKey key (createUpdater (Some (server
    [(api_json, bytes_of_string "manifest 1.3 forged");
     (diff_13, delta_magic ++ new_binary);
     (bin_13, gzip new_binary)]))).

(** No [DiffURL]; the requester knows the patch under its relative URL. *)
Definition no_diff_url : Updater :=
  with_DiffURL "" (createUpdater (Some (server
    [(api_json, bytes_of_string "manifest 1.3");
     ("myapp/1.2/1.3/linux-amd64", delta_magic ++ new_binary)]))).

Definition no_diff_url_404 : Updater :=
  with_DiffURL "" (createUpdater (Some (server
    [(api_json, bytes_of_string "manifest 1.3")]))).

(** The builder's working directory: the binary [hello], and an output
    directory [public] in which the name [1.0] is taken by a file. *)
Definition builder_world (f : gmap string Node) : World :=
  mkWorld f (fun _ => t0) 0 (fun _ => 0) 0 (inl "/usr/bin/go-selfupdate") [].

Definition version_name_taken : gmap string Node :=
  list_to_map
    [(".", Directory 0o755); ("hello", Regular new_binary 0o755);
     ("public", Directory 0o755); ("public/1.0", Regular [] 0o644)].

(** An output directory with release 0.9, in which the name [1.0] is taken
    by a file. *)
Definition patch_dir_taken : gmap string Node :=
  list_to_map
    [(".", Directory 0o755); ("hello", Regular new_binary 0o755);
     ("public", Directory 0o755); ("public/0.9", Directory 0o755);
     ("public/0.9/linux-amd64.gz", Regular (gzip old_binary) 0o755);
     ("public/0.9/1.0", Regular [] 0o644)].

(** Worlds of the updater examples: a first run without state directory;
    a state directory without cooldown file; [cktime] a directory; [cktime]
    with text that is no timestamp; a cooldown of one hour from now; a
    read-only [cktime] whose cooldown ended five seconds ago; and a world
    whose random source yields 37. *)
Definition first_run : World := world installed 0.
Definition fresh : World := world (with_state None) 0.
Definition cktime_is_dir : World :=
  world (with_state (Some (Directory 0o755))) 0.
Definition cktime_garbled : World :=
  world (with_state (Some (Regular (bytes_of_string "soon") 0o644))) 0.
Definition cooling : World :=
  world (with_state (Some (stamp_file (t0 + 3600 * second) 0o644))) 0.
Definition cktime_read_only : World :=
  world (with_state (Some (stamp_file (t0 - 5 * second) 0o444))) 0.
Definition draw_37 : World := world (with_state None) 37.

(** The installation with the name of the state directory taken by a file,
    so that no [cktime] can be there. *)
Definition state_dir_is_file : World :=
  world (<["/opt/app/update" := Regular [] 0o644]> installed) 0.

(** [CheckTime] one hour beyond what a 64-bit duration holds. *)
Definition far_check : Updater := with_times 2562048 0 (createUpdater None).

End Standin.

(** ** More of selfupdate.go *)

Section SelfupdateMore.
Context {ext : Extern}.

Definition GetNextVersion (u : Updater) : Go (Info * option error) :=
  fetchInfo u.

End SelfupdateMore.

(** The URLs asked of the requester, oldest first. *)
Definition fetched (evs : list Event) : list string :=
  omap (fun ev => match ev with Fetched url => Some url | _ => None end) evs.

(** Between two states of the file system: every node is as it was, or is a
    directory with permissions [perm] where there was nothing. *)
Definition only_new_dirs (f f' : gmap string Node) (perm : Z) : Prop :=
  forall k, f' !! k = f !! k \/
            (f !! k = None /\ f' !! k = Some (Directory perm)).

(** The same without a word on the permissions, which the umask of the
    process takes part in. *)
Definition only_dirs_added (f f' : gmap string Node) : Prop :=
  forall k, f' !! k = f !! k \/
            (f !! k = None /\ exists mode, f' !! k = Some (Directory mode)).


(** ** Names in paths *)

(** A path element proper: it holds no separator and is neither empty nor
    [.] nor [..]. *)
Definition is_name (e : string) : Prop :=
  has_sep e = false /\ e <> "" /\ e <> "." /\ e <> "..".

(** A string that stops right after a separator, or is empty. *)
Definition ends_dir (a : string) : Prop :=
  a = "" \/ exists a0, a = a0 +:+ "/".

(** A computation that leaves the node [n] at the key [k] where it finds it,
    however it ends. *)
Definition keeps {A} (k : string) (n : Node) (m : Go A) : Prop :=
  forall w, fs w !! k = Some n -> fs (m w).2 !! k = Some n.

Section BuilderMore.
Context {ext : Extern}.

(** The manifest entry [CreateUpdate] builds for a hash: signed when a key
    is given, and the signing error otherwise. *)
Definition signed_Info (version : Info) (sha : bytes)
    (pk : option rsa_PrivateKey) : Info + error :=
  match pk with
  | Some k =>
      match rsa_SignPKCS1v15 k sha with
      | inr err => inr err
      | inl sig => inl (mkInfo (Version version) sha (Some sig))
      end
  | None => inl (mkInfo (Version version) sha None)
  end.

End BuilderMore.

(** ** The command-line tools *)

(** [encoding/pem], [crypto/x509] and [runtime], as far as the tools use
    them: the bytes of the first PEM block, the PKCS#1 key in them, and the
    platform of the running program. *)
Class ExternKeys := {
  pem_Decode : bytes -> option bytes;
  x509_ParsePKCS1PrivateKey : bytes -> rsa_PrivateKey + error;
  runtime_GOOS : string;
  runtime_GOARCH : string
}.

(** [os.Getenv] on the environment of the process. *)
Definition os_Getenv (env : gmap string string) (key : string) : string :=
  default "" (env !! key).

Definition os_Stat (path : string) : Go (FileInfo + error) := fun w =>
  match fs_stat (fs w) path with
  | inl n => (Ret (inl (mkFileInfo (path_base path) (node_is_dir n))), w)
  | inr e => (Ret (inr (PathError "stat" path e)), w)
  end.

(** *** [go-selfupdate] with cobra *)

Module Cobra.
Section Cobra.
Context {ext : Extern} {keys : ExternKeys}.

(** The flags [--key], [--output] and [--platform] after parsing. *)
Record Flags := mkFlags {
  keyFile : string;
  outputDir : string;
  platform : string
}.

Definition defaultPlatform (env : gmap string string) : string :=
  let goos := os_Getenv env "GOOS" in
  let goarch := os_Getenv env "GOARCH" in
  if bool_decide (goos <> "") && bool_decide (goarch <> "")
  then goos +:+ "-" +:+ goarch
  else runtime_GOOS +:+ "-" +:+ runtime_GOARCH.

(** [init]: the values of the flags when none is given. *)
Definition init (env : gmap string string) : Flags :=
  mkFlags "" "public" (defaultPlatform env).

Definition parseRsaPrivateKeyFromPemStr (privPEM : bytes)
  : option rsa_PrivateKey * option error :=
  match pem_Decode privPEM with
  | None =>
      (None, Some (errors_New "failed to parse PEM block containing the key"))
  | Some block =>
      match x509_ParsePKCS1PrivateKey block with
      | inr err => (None, Some err)
      | inl priv => (Some priv, None)
      end
  end.

Definition validatePrivateKey (fl : Flags)
  : Go (option rsa_PrivateKey * option error) :=
  if bool_decide (keyFile fl = "") then mret (None, None) else
  r ← ioutil_ReadFile (keyFile fl);
  match r with
  | inr err => mret (None, Some err)
  | inl content =>
      match parseRsaPrivateKeyFromPemStr content with
      | (_, Some err) =>
          mret (None, Some (fmt_Errorf
            ("failed to parse private key " +:+ keyFile fl +:+ ": %w")
            [ArgErr (Some err)]))
      | (key, None) => mret (key, None)
      end
  end.

Definition createBuildDir (fl : Flags) : Go (option error) :=
  os_MkdirAll (outputDir fl) 0o755.

(** [PreRunE]: the key it leaves in [privateKey], and the error it returns.
    The error of [validatePrivateKey] is assigned over by the one of
    [createBuildDir]. *)
Definition PreRunE (fl : Flags) : Go (option rsa_PrivateKey * option error) :=
  '(privateKey, _) ← validatePrivateKey fl;
  err ← createBuildDir fl;
  match err with
  | Some e =>
      mret (privateKey,
            Some (fmt_Errorf "failed to create output dir: %w"
                    [ArgErr (Some e)]))
  | None => mret (privateKey, None)
  end.

(** The loop over the files of a directory of binaries. *)
Fixpoint RunE_range (version : Info) (appPath outputDir : string)
    (privateKey : option rsa_PrivateKey) (files : list FileInfo) : Go unit :=
  match files with
  | [] => mret tt
  | file :: rest =>
      CreateUpdate version (filepath_Join [appPath; Name file]) (Name file)
        outputDir privateKey;;
      RunE_range version appPath outputDir privateKey rest
  end.

Definition RunE (fl : Flags) (appPath appVersion : string)
    (privateKey : option rsa_PrivateKey) : Go (option error) :=
  let version := mkInfo appVersion [] None in
  st ← os_Stat appPath;
  match st with
  | inr err =>
      mret (Some (fmt_Errorf "failed to open binary location: %w"
                    [ArgErr (Some err)]))
  | inl fileInfo =>
      if IsDir fileInfo then
        r ← ioutil_ReadDir appPath;
        match r with
        | inl files =>
            RunE_range version appPath (outputDir fl) privateKey files;;
            mret None
        | inr _ => mret None
        end
      else
        CreateUpdate version appPath (platform fl) (outputDir fl) privateKey;;
        mret None
  end.

(** What cobra does with an error of the command: it reports it on standard
    error and hands it to the caller of [Execute]. *)
Definition cobra_fail (e : error) : Go (option error) :=
  fmt_Fprintf_Stderr "Error:" (Some e);; mret (Some e).

(** [rootCmd.Execute()] on parsed flags and the positional arguments:
    [cobra.ExactArgs(2)], then [PreRunE], then [RunE]. *)
Definition rootCmd_Execute (fl : Flags) (args : list string)
  : Go (option error) :=
  match args with
  | [appPath; appVersion] =>
      '(privateKey, err) ← PreRunE fl;
      match err with
      | Some e => cobra_fail e
      | None =>
          err ← RunE fl appPath appVersion privateKey;
          match err with
          | Some e => cobra_fail e
          | None => mret None
          end
      end
  | _ =>
      cobra_fail (fmt_Errorf "accepts %d arg(s), received %d"
                    [ArgInt 2; ArgInt (Z.of_nat (length args))])
  end.

Definition main (fl : Flags) (args : list string) : Go unit :=
  err ← rootCmd_Execute fl args;
  match err with
  | Some _ => os_Exit 1
  | None => mret tt
  end.

End Cobra.
End Cobra.

(** *** [go-selfupdate] with the [flag] package *)

Module FlagMain.
Section FlagMain.
Context {ext : Extern} {keys : ExternKeys}.

(** The flags [-o], [-k] and [-platform] after parsing. *)
Record Flags := mkFlags {
  outputDirFlag : string;
  keyFileFlag : string;
  platformFlag : string
}.

Definition printUsage : Go unit :=
  fmt_Println "" None;;
  fmt_Println "Positional arguments:" None;;
  fmt_Println "	Single platform: go-selfupdate myapp 1.2" None;;
  fmt_Println "	Cross platform: go-selfupdate /tmp/mybinares/ 1.2" None.

Definition createBuildDir (genDir : string) : Go unit :=
  _ ← os_MkdirAll genDir 0o755; mret tt.

Definition ParseRsaPrivateKeyFromPemStr (privPEM : bytes)
  : option rsa_PrivateKey * option error :=
  match pem_Decode privPEM with
  | None =>
      (None, Some (errors_New "failed to parse PEM block containing the key"))
  | Some block =>
      match x509_ParsePKCS1PrivateKey block with
      | inr err => (None, Some err)
      | inl priv => (Some priv, None)
      end
  end.

Definition defaultPlatform (env : gmap string string) : string :=
  let goos := os_Getenv env "GOOS" in
  let goarch := os_Getenv env "GOARCH" in
  if bool_decide (goos <> "") && bool_decide (goarch <> "")
  then goos +:+ "-" +:+ goarch
  else runtime_GOOS +:+ "-" +:+ runtime_GOARCH.

(** The loop over the files of a directory of binaries. *)
Fixpoint main_range (version : Info) (appPath genDir : string)
    (pk : option rsa_PrivateKey) (files : list FileInfo) : Go unit :=
  match files with
  | [] => mret tt
  | file :: rest =>
      CreateUpdate version (filepath_Join [appPath; Name file]) (Name file)
        genDir pk;;
      main_range version appPath genDir pk rest
  end.

(** [main] on parsed flags and the positional arguments.  The pointer
    [keyFileFlag] is never nil, so the key file is always read; the error of
    parsing it is assigned and not looked at. *)
Definition main (fl : Flags) (args : list string) : Go unit :=
  if bool_decide (length args < 2)%nat then
    fmt_Fprintf_Stderr "Usage of %s:" None;;
    printUsage;;
    os_Exit 0
  else
    let platform := platformFlag fl in
    let appPath := nth 0 args "" in
    let version := nth 1 args "" in
    let genDir := outputDirFlag fl in
    r ← ioutil_ReadFile (keyFileFlag fl);
    match r with
    | inr err => panic err
    | inl content =>
        let '(pk, _) := ParseRsaPrivateKeyFromPemStr content in
        createBuildDir genDir;;
        let version := mkInfo version [] None in
        st ← os_Stat appPath;
        match st with
        | inr err => panic err
        | inl fi =>
            files ← (if IsDir fi then
                       r ← ioutil_ReadDir appPath;
                       match r with
                       | inl files => mret (Some files)
                       | inr _ => mret None
                       end
                     else mret None);
            match files with
            | Some files =>
                main_range version appPath genDir pk files;;
                os_Exit 0
            | None => CreateUpdate version appPath platform genDir pk
            end
        end
    end.

End FlagMain.
End FlagMain.

(** ** More inputs to run the program on *)

Module StandinMore.
Import Standin.

(** The packages with a signer that refuses every hash. *)
Definition short_key : Extern := {|
  plat := "linux-amd64";
  sha256_Sum := digest;
  rsa_VerifyPKCS1v15 := verify;
  rsa_SignPKCS1v15 := fun _ _ =>
    inr (errors_New "crypto/rsa: message too long for RSA key size");
  json_Decode := decode table;
  json_MarshalIndent := marshal;
  gzip_NewReader := gunzip;
  gzip_Write := gzip;
  binarydist_Patch := patch;
  binarydist_Diff := diff;
  Format_RFC3339 := format;
  Parse_RFC3339 := parse;
  defaultHTTPRequester := no_network;
  up_CanUpdate_on := fun _ => None;
  up_FromStream_on := from_stream
|}.

Definition private_key : rsa_PrivateKey := mkPrivateKey key 2753.

(** A PEM block is what follows [PEM:], and the one key is spelled [key]. *)
Definition pem (b : bytes) : option bytes :=
  if bool_decide (take 4 b = bytes_of_string "PEM:") then Some (drop 4 b)
  else None.

Definition pkcs1 (b : bytes) : rsa_PrivateKey + error :=
  if bool_decide (b = bytes_of_string "key") then inl private_key
  else inr (errors_New "x509: failed to parse private key").

Definition tools : ExternKeys := {|
  pem_Decode := pem;
  x509_ParsePKCS1PrivateKey := pkcs1;
  runtime_GOOS := "linux";
  runtime_GOARCH := "amd64"
|}.

(** The builder's working directory with the binary [hello] and an empty
    output directory; the same without the binary; and the same with a file
    that holds no key. *)
Definition publishing : gmap string Node :=
  list_to_map
    [(".", Directory 0o755); ("hello", Regular new_binary 0o755);
     ("public", Directory 0o755)].


Definition no_key_in_file : gmap string Node :=
  <["bad.pem" := Regular (bytes_of_string "no key") 0o644]> publishing.

(** The installation in a process that cannot find its own executable. *)
Definition lost : World :=
  mkWorld installed (fun n => List.nth n readings (t0 + 4)) 0 (fun _ => 0) 0
          (inr (errors_New "readlink /proc/self/exe: no such file or directory"))
          [].

(** Updaters whose server has the manifest only: an empty one, version
    1.3, and version 1.3 for an updater with a public key. *)
Definition serves_empty : Updater :=
  createUpdater (Some (server [(api_json, bytes_of_string "{}")])).

Definition serves_13 : Updater :=
  createUpdater (Some (server [(api_json, bytes_of_string "manifest 1.3")])).

Definition keyed_13 : Updater := with_PublicKey key serves_13.

End StandinMore.

(** * Properties *)

(** ** Running a computation step by step *)

Lemma bind_Ret {A B} (m : Go A) (k : A -> Go B) w a w' :
  m w = (Ret a, w') -> (m ≫= k) w = k a w'.
Proof. intros E. unfold mbind, Go_bind. now rewrite E. Qed.

Lemma bind_Panic {A B} (m : Go A) (k : A -> Go B) w v w' :
  m w = (Panic v, w') -> (m ≫= k) w = (Panic v, w').
Proof. intros E. unfold mbind, Go_bind. now rewrite E. Qed.

(** ** 64-bit arithmetic *)

Lemma wrap64_id z : MinInt64 <= z <= MaxInt64 -> wrap64 z = z.
Proof.
  unfold MinInt64, MaxInt64, wrap64. intros Hz.
  rewrite Z.mod_small; lia.
Qed.

(** ** The file system *)

Lemma fs_create_ok f path n f' :
  fs_create f path n = (f', None) -> f' !! filepath_Clean path = Some n.
Proof.
  unfold fs_create. intros E.
  destruct (f !! List.last (walked_dirs path) "") as [[d m|m]|]; try discriminate.
  destruct (may_write m); try discriminate.
  injection E as <-. apply lookup_insert_eq.
Qed.

Lemma fs_write_ok f path data perm f' :
  fs_write f path data perm = (f', None) ->
  exists mode, f' !! filepath_Clean path = Some (Regular data mode).
Proof.
  unfold fs_write. intros E.
  destruct (fs_stat f path) as [[d m|m]|e].
  - destruct (may_write m); try discriminate.
    injection E as <-. exists m. apply lookup_insert_eq.
  - discriminate.
  - destruct (walk f (walked_dirs path)); try discriminate.
    destruct (bool_decide (path = "")); try discriminate.
    exists perm. eapply fs_create_ok, E.
Qed.

Section Scheduler.
Context {ext : Extern}.

Lemma getExecRelativeDir_resolved u dir w filename :
  getTargetAbsoluteDir u w = (Ret filename, w) ->
  getExecRelativeDir u dir w
  = (Ret (filepath_Join [filepath_Dir filename; dir]), w).
Proof. intros E. unfold getExecRelativeDir. now rewrite (bind_Ret _ _ _ _ _ E). Qed.

Lemma getExecRelativeDir_unresolved u dir w v w' :
  getTargetAbsoluteDir u w = (Panic v, w') ->
  getExecRelativeDir u dir w = (Panic v, w').
Proof. intros E. unfold getExecRelativeDir. now rewrite (bind_Panic _ _ _ _ _ E). Qed.

Lemma getTargetAbsoluteDir_cases u w :
  (exists filename, getTargetAbsoluteDir u w = (Ret filename, w)) \/
  (exists v, getTargetAbsoluteDir u w = (Panic v, w)).
Proof.
  unfold getTargetAbsoluteDir. destruct (bool_decide (Target u = "")).
  - unfold mbind, Go_bind, osext_Executable.
    destruct (executable w); cbn; eauto.
  - cbn; eauto.
Qed.

Lemma readTime_returns path w : exists t w', readTime path w = (Ret t, w').
Proof.
  unfold readTime, mbind, Go_bind, ioutil_ReadFile.
  destruct (fs_read (fs w) path) as [p|e].
  - destruct (Parse_RFC3339 (string_of_bytes p)); cbn; eauto.
  - destruct (os_IsNotExist _); cbn; eauto.
Qed.

(** C8, as amended: [NextUpdate] reads the cooldown file with [readTime];
    when the read fails with ENOENT, the error for which [os.IsNotExist]
    holds, the result is the zero instant; when it fails with any other
    error, also where the file is missing because a name on its path is
    taken by a file, or when the content is not an RFC 3339 timestamp, the
    result is the current time plus 1000 hours; [readTime] always returns an
    instant, never an error or a panic. *)
Theorem readTime_fallbacks (u : Updater) (w : World) (filename : string) :
  getTargetAbsoluteDir u w = (Ret filename, w) ->
  let path := filepath_Join [filepath_Dir filename; Dir u +:+ "cktime"] in
  let back_off := (Ret (clock w (clock_reads w) + 1000 * time_Hour), tick w) in
  NextUpdate u w = readTime path w /\
  (fs_read (fs w) path = inr ENOENT -> readTime path w = (Ret time_Zero, w)) /\
  (forall e, fs_read (fs w) path = inr e -> e <> ENOENT ->
     readTime path w = back_off) /\
  (forall p e, fs_read (fs w) path = inl p ->
     Parse_RFC3339 (string_of_bytes p) = inr e ->
     readTime path w = back_off) /\
  (exists t w', readTime path w = (Ret t, w')).
Proof.
  intros Hres path back_off. repeat split.
  - unfold NextUpdate.
    now rewrite (bind_Ret _ _ _ _ _ (getExecRelativeDir_resolved u _ w _ Hres)).
  - intros E. unfold readTime, mbind, Go_bind, ioutil_ReadFile. now rewrite E.
  - intros e E Hne. unfold readTime, mbind, Go_bind, ioutil_ReadFile.
    rewrite E. destruct e; try contradiction; reflexivity.
  - intros p e E HP. unfold readTime, mbind, Go_bind, ioutil_ReadFile.
    rewrite E, HP. reflexivity.
  - apply readTime_returns.
Qed.

(** C4: [WantUpdate] returns false exactly when the current version is
    [dev], or [ForceCheck] is off and [NextUpdate] is strictly after the
    current time; for [dev] it returns false at once, whatever the cooldown
    file holds and whatever [ForceCheck] is. *)
Theorem WantUpdate_false_iff (u : Updater) (w : World) :
  ((exists w', WantUpdate u w = (Ret false, w')) <->
   (CurrentVersion u = "dev" \/
    (ForceCheck u = false /\
     exists next w1, NextUpdate u w = (Ret next, w1) /\
                     clock w1 (clock_reads w1) < next))) /\
  (CurrentVersion u = "dev" -> WantUpdate u w = (Ret false, w)).
Proof.
  unfold WantUpdate. split.
  - destruct (bool_decide_reflect (CurrentVersion u = "dev")) as [Hd|Hd].
    { split; [now left | intros _; eexists; reflexivity]. }
    destruct (ForceCheck u); cbn [negb].
    { split.
      - intros [w' E]. discriminate E.
      - intros [?|[? _]]; [contradiction | discriminate]. }
    unfold mbind, Go_bind, time_Now.
    destruct (NextUpdate u w) as [[next|v|c] w1] eqn:EN.
    + unfold mret, Go_ret, Time_After.
      destruct (Z.ltb_spec (clock w1 (clock_reads w1)) next) as [Hlt|Hge].
      * split; [intros _; right; split; [reflexivity | eauto] |
                intros _; eexists; reflexivity].
      * split; [intros [w' E]; discriminate E |].
        intros [?|[_ (n' & w1' & [= <- <-] & Hlt)]]; [contradiction | lia].
    + split; [intros [w' E]; discriminate E |].
      intros [?|[_ (n' & w1' & E & _)]]; [contradiction | discriminate E].
    + split; [intros [w' E]; discriminate E |].
      intros [?|[_ (n' & w1' & E & _)]]; [contradiction | discriminate E].
  - intros Hd. rewrite bool_decide_eq_true_2 by exact Hd. reflexivity.
Qed.

Lemma writeTime_ok path t w w' :
  writeTime path t w = (Ret true, w') ->
  exists mode, fs w' !! filepath_Clean path
               = Some (Regular (bytes_of_string (Format_RFC3339 t)) mode).
Proof.
  unfold writeTime, mbind, Go_bind, ioutil_WriteFile.
  destruct (fs_write _ _ _ _) as [f [e|]] eqn:E; cbn.
  - intros E'. now inversion E'.
  - intros [= <-]. cbn. eapply fs_write_ok, E.
Qed.

Lemma writeTime_returns path t w : exists b w', writeTime path t w = (Ret b, w').
Proof.
  unfold writeTime, mbind, Go_bind, ioutil_WriteFile.
  destruct (fs_write _ _ _ _) as [f [e|]]; cbn; eauto.
Qed.

(** What [SetUpdateTime] does once the target path is known. *)
Lemma SetUpdateTime_resolved u w filename :
  getTargetAbsoluteDir u w = (Ret filename, w) ->
  SetUpdateTime u w =
  (n ← rand_Intn (int64_add (RandomizeTime u) 1);
   now ← time_Now;
   writeTime (filepath_Join [filepath_Dir filename; Dir u +:+ "cktime"])
     (Time_Add now (int64_add (int64_mul (CheckTime u) time_Hour)
                              (int64_mul n time_Hour)))) w.
Proof.
  intros Hres. unfold SetUpdateTime.
  now rewrite (bind_Ret _ _ _ _ _ (getExecRelativeDir_resolved u _ w _ Hres)).
Qed.

(** C9: with [RandomizeTime <= -1] the argument of [rand.Intn] is not
    positive and [SetUpdateTime] panics, before anything is written; with
    [0 <= RandomizeTime] below the largest [int] it returns. *)
Theorem SetUpdateTime_needs_nonnegative_RandomizeTime (u : Updater) (w : World) :
  MinInt64 <= RandomizeTime u <= MaxInt64 ->
  (RandomizeTime u <= -1 ->
     (exists v, SetUpdateTime u w = (Panic v, w)) /\
     (forall filename, getTargetAbsoluteDir u w = (Ret filename, w) ->
        SetUpdateTime u w
        = (Panic (errors_New "invalid argument to Intn"), w))) /\
  (0 <= RandomizeTime u < MaxInt64 ->
     forall filename, getTargetAbsoluteDir u w = (Ret filename, w) ->
       exists b w', SetUpdateTime u w = (Ret b, w')).
Proof.
  intros Hr. split.
  - intros Hneg.
    assert (Hp : forall filename, getTargetAbsoluteDir u w = (Ret filename, w) ->
       SetUpdateTime u w = (Panic (errors_New "invalid argument to Intn"), w)).
    { intros filename Hres. rewrite (SetUpdateTime_resolved _ _ _ Hres).
      unfold mbind, Go_bind, rand_Intn, int64_add.
      rewrite wrap64_id by (unfold MinInt64, MaxInt64 in *; lia).
      destruct (Z.leb_spec (RandomizeTime u + 1) 0); [reflexivity | lia]. }
    split; [| exact Hp].
    destruct (getTargetAbsoluteDir_cases u w) as [[fn E]|[v E]].
    + eexists. apply (Hp _ E).
    + exists v. unfold SetUpdateTime.
      now rewrite (bind_Panic _ _ _ _ _ (getExecRelativeDir_unresolved u _ w _ _ E)).
  - intros Hpos filename Hres. rewrite (SetUpdateTime_resolved _ _ _ Hres).
    unfold mbind, Go_bind, rand_Intn, int64_add, time_Now.
    rewrite wrap64_id by (unfold MinInt64, MaxInt64 in *; lia).
    destruct (Z.leb_spec (RandomizeTime u + 1) 0); [lia |].
    apply writeTime_returns.
Qed.

(** C6, as amended: for non-negative [CheckTime] c and [RandomizeTime] r
    whose sum in hours fits a 64-bit duration, [SetUpdateTime] at time t
    hands [writeTime] the instant t + (c + k) hours, where k is the draw in
    [[0, r]]; that instant lies in [[t + c h, t + (c + r) h]], it is what the
    cooldown file holds in RFC 3339 text when the write succeeds, and every
    k in [[0, r]], both ends included, is the draw of some random source. *)
Theorem SetUpdateTime_window (u : Updater) (w : World) (filename : string) :
  0 <= CheckTime u -> 0 <= RandomizeTime u ->
  (CheckTime u + RandomizeTime u) * time_Hour <= MaxInt64 ->
  getTargetAbsoluteDir u w = (Ret filename, w) ->
  let t := clock w (clock_reads w) in
  let path := filepath_Join [filepath_Dir filename; Dir u +:+ "cktime"] in
  let k := rand_src w (rand_draws w) mod (RandomizeTime u + 1) in
  let stamp := t + (CheckTime u + k) * time_Hour in
  SetUpdateTime u w = writeTime path stamp (tick (drawn w)) /\
  0 <= k <= RandomizeTime u /\
  t + CheckTime u * time_Hour <= stamp
    <= t + (CheckTime u + RandomizeTime u) * time_Hour /\
  (forall w', SetUpdateTime u w = (Ret true, w') ->
     exists mode, fs w' !! filepath_Clean path
       = Some (Regular (bytes_of_string (Format_RFC3339 stamp)) mode)) /\
  (forall j, 0 <= j <= RandomizeTime u -> rand_src w (rand_draws w) = j ->
     stamp = t + (CheckTime u + j) * time_Hour).
Proof.
  intros Hc Hr Hfit Hres t path k stamp.
  assert (Hk : 0 <= k <= RandomizeTime u).
  { subst k. pose proof (Z.mod_pos_bound (rand_src w (rand_draws w))
                           (RandomizeTime u + 1)). lia. }
  assert (HH : time_Hour = 3600000000000) by reflexivity.
  assert (Hrun : SetUpdateTime u w = writeTime path stamp (tick (drawn w))).
  { rewrite (SetUpdateTime_resolved _ _ _ Hres).
    unfold mbind, Go_bind, rand_Intn, time_Now, int64_add, int64_mul, Time_Add.
    rewrite (wrap64_id (RandomizeTime u + 1))
      by (unfold MinInt64, MaxInt64 in *; lia).
    destruct (Z.leb_spec (RandomizeTime u + 1) 0); [lia |].
    fold k. cbn [clock clock_reads drawn].
    rewrite (wrap64_id (CheckTime u * time_Hour))
      by (unfold MinInt64, MaxInt64 in *; nia).
    rewrite (wrap64_id (k * time_Hour))
      by (unfold MinInt64, MaxInt64 in *; nia).
    rewrite wrap64_id by (unfold MinInt64, MaxInt64 in *; nia).
    subst stamp t. f_equal. lia. }
  split; [exact Hrun |]. split; [exact Hk |]. split; [subst stamp; nia |].
  split.
  - intros w' E. rewrite Hrun in E. eapply writeTime_ok, E.
  - intros j Hj Hraw. subst stamp k. rewrite Hraw.
    rewrite Z.mod_small by lia. reflexivity.
Qed.

End Scheduler.

(** ** The manifest fetch *)

Lemma url_QueryEscape_app a b :
  url_QueryEscape (a +:+ b) = url_QueryEscape a +:+ url_QueryEscape b.
Proof.
  induction a as [|c a IH]; [reflexivity |].
  simpl.
  rewrite IH.
  destruct (shouldEscape c); [destruct (Ascii.eqb c " ") |]; reflexivity.
Qed.

Section Manifest.
Context {ext : Extern}.

Lemma fetch_trace u url w : trace (fetch u url w).2 = trace w ++ [Fetched url].
Proof.
  unfold fetch, call_Fetch, mbind, Go_bind.
  destruct (Requester u) as [rq|]; [| reflexivity].
  destruct (rq (trace w) url) as [[r|] [e|]]; reflexivity.
Qed.

Lemma fetchInfo_trace u w :
  trace (fetchInfo u w).2 = trace w ++ [Fetched (manifest_url u)].
Proof.
  unfold fetchInfo, mbind at 1, Go_bind.
  pose proof (fetch_trace u (manifest_url u) w) as T.
  destruct (fetch u (manifest_url u) w) as [[[r e]|v|c] w1]; try exact T.
  destruct e as [e|]; [exact T |].
  destruct r as [r|]; [| exact T]. unfold mbind, Go_bind. cbn [deref].
  unfold mret at 1, Go_ret at 1.
  destruct (json_Decode r) as [info|e]; [| exact T].
  destruct (_ && _); exact T.
Qed.

(** C5: the one URL [fetchInfo] asks the requester for is [ApiURL], the
    query-escaped [CmdName], a slash, the query-escaped platform and
    [.json]; query escaping turns a plus sign into [%2B]; for [myapp+foo] on
    [linux-amd64] under [http://api.updates.yourdomain.com/] the URL is
    [http://api.updates.yourdomain.com/myapp%2Bfoo/linux-amd64.json]. *)
Theorem fetchInfo_manifest_url (u : Updater) (w : World) :
  trace (fetchInfo u w).2
  = trace w ++ [Fetched (ApiURL u +:+ url_QueryEscape (CmdName u) +:+ "/"
                           +:+ url_QueryEscape plat +:+ ".json")] /\
  (forall a b, url_QueryEscape (a +:+ "+" +:+ b)
               = url_QueryEscape a +:+ "%2B" +:+ url_QueryEscape b) /\
  (ApiURL u = "http://api.updates.yourdomain.com/" ->
   CmdName u = "myapp+foo" -> plat = "linux-amd64" ->
   trace (fetchInfo u w).2 = trace w ++
     [Fetched "http://api.updates.yourdomain.com/myapp%2Bfoo/linux-amd64.json"]).
Proof.
  split; [apply fetchInfo_trace |]. split.
  - intros a b. now rewrite !url_QueryEscape_app.
  - intros Ha Hc Hp. rewrite fetchInfo_trace. unfold manifest_url.
    now rewrite Ha, Hc, Hp.
Qed.

(** C7: once the manifest has been fetched and decoded, [fetchInfo] returns
    an error exactly when the decoded [Version] is not empty and the decoded
    [Sha256] is not 32 bytes long; otherwise it returns the decoded manifest,
    so an empty [Version] is accepted with a [Sha256] of any length. *)
Theorem fetchInfo_rejects_iff (u : Updater) (w w1 : World) (r : Reader)
    (info : Info) :
  fetch u (ApiURL u +:+ url_QueryEscape (CmdName u) +:+ "/"
             +:+ url_QueryEscape plat +:+ ".json") w
  = (Ret (Some r, None), w1) ->
  json_Decode r = inl info ->
  ((exists i e, fetchInfo u w = (Ret (i, Some e), w1)) <->
   (Version info <> "" /\ length (Sha256 info) <> 32%nat)) /\
  (~ (Version info <> "" /\ length (Sha256 info) <> 32%nat) ->
   fetchInfo u w = (Ret (info, None), w1)) /\
  (Version info = "" -> fetchInfo u w = (Ret (info, None), w1)).
Proof.
  intros Hf Hd.
  assert (Hrun : fetchInfo u w =
    if bool_decide (Version info <> "")
       && bool_decide (Z.of_nat (length (Sha256 info)) <> sha256_Size)
    then (Ret (Info_zero, Some (fmt_Errorf
            "bad cmd hash in info. Expected %v got %v"
            [ArgInt sha256_Size; ArgInt (Z.of_nat (length (Sha256 info)))])), w1)
    else (Ret (info, None), w1)).
  { unfold fetchInfo. unfold manifest_url. rewrite (bind_Ret _ _ _ _ _ Hf).
    cbn [deref]. unfold mbind, Go_bind, mret at 1, Go_ret at 1. rewrite Hd.
    destruct (_ && _); reflexivity. }
  assert (Hok : ~ (Version info <> "" /\ length (Sha256 info) <> 32%nat) ->
                fetchInfo u w = (Ret (info, None), w1)).
  { intros Hn. rewrite Hrun.
    destruct (bool_decide_reflect (Version info <> "")) as [Hv|Hv];
      [| reflexivity].
    destruct (bool_decide_reflect
                (Z.of_nat (length (Sha256 info)) <> sha256_Size)) as [Hl|Hl];
      [| reflexivity].
    exfalso. apply Hn. split; [exact Hv |]. unfold sha256_Size in Hl. lia. }
  split; [| split; [exact Hok |]].
  - split.
    + intros (i & e & E).
      destruct (decide (Version info <> "" /\ length (Sha256 info) <> 32%nat))
        as [Hb|Hn]; [exact Hb |].
      rewrite (Hok Hn) in E. discriminate E.
    + intros [Hv Hl]. rewrite Hrun.
      rewrite (bool_decide_eq_true_2 _ Hv).
      rewrite bool_decide_eq_true_2 by (unfold sha256_Size; lia).
      eexists _, _. reflexivity.
  - intros Hv. apply Hok. intros [Hne _]. now apply Hne.
Qed.

End Manifest.

(** ** The update state machine *)

Section UpdateStages.
Context {ext : Extern}.

Lemma Update_install_trace info bin w :
  trace (Update_install info bin w).2 = trace w.
Proof.
  unfold Update_install, up_FromStream, mbind, Go_bind.
  destruct (up_FromStream_on bin w) as [f [err [er|]]]; [reflexivity |].
  destruct err; reflexivity.
Qed.

Lemma fetchBin_trace u info w :
  trace (fetchBin u info w).2 = trace w ++ [Fetched (bin_url u info)].
Proof.
  unfold fetchBin, mbind at 1, Go_bind.
  pose proof (fetch_trace u (bin_url u info) w) as T.
  destruct (fetch u (bin_url u info) w) as [[[r e]|v|c] w1]; try exact T.
  destruct e as [e|]; [exact T |].
  destruct r as [r|]; [| exact T]. unfold mbind, Go_bind. cbn [deref].
  unfold mret at 1, Go_ret at 1.
  destruct (gzip_NewReader r) as [gz|e]; [| exact T].
  destruct (io_ReadAll gz); exact T.
Qed.

Lemma fetchAndVerifyFullBin_trace u info w :
  trace (fetchAndVerifyFullBin u info w).2
  = trace w ++ [Fetched (bin_url u info)].
Proof.
  unfold fetchAndVerifyFullBin, mbind, Go_bind.
  pose proof (fetchBin_trace u info w) as T.
  destruct (fetchBin u info w) as [[[bin e]|v|c] w1]; try exact T.
  destruct e as [e|]; [exact T |].
  destruct (negb (verifySha _ _)); [exact T |].
  destruct (negb (verifySignature _ _ _)); exact T.
Qed.

Lemma Update_full_trace u info w :
  exists tail, full_stage_log tail /\
    trace (Update_full u info w).2
    = trace w ++ Fetched (bin_url u info) :: tail.
Proof.
  unfold Update_full, mbind, Go_bind.
  pose proof (fetchAndVerifyFullBin_trace u info w) as T.
  destruct (fetchAndVerifyFullBin u info w) as [[[bin e]|v|c] w1];
    cbn [snd] in T.
  - destruct e as [e|].
    + destruct (is_ErrHashMismatch e).
      * exists [Logged "update: hash mismatch from full binary" None].
        split; [right; now left |].
        unfold log_Println, mret, Go_ret. cbn [snd trace record].
        rewrite T, <- app_assoc. reflexivity.
      * exists [Logged "update: error fetching full binary," (Some e)].
        split; [right; right; eauto |].
        unfold log_Println, mret, Go_ret. cbn [snd trace record].
        rewrite T, <- app_assoc. reflexivity.
    + exists []. split; [now left |].
      rewrite Update_install_trace, T. reflexivity.
  - exists []. split; [now left | exact T].
  - exists []. split; [now left | exact T].
Qed.

(** [Update] up to the patch stage, when the target opens, the manifest
    names another version and a configured key finds a signature. *)
Lemma Update_reaches_patch_stage u w w1 path old info :
  getTargetAbsoluteDir u w = (Ret path, w) ->
  os_Open path w = (Ret (inl old), w) ->
  fetchInfo u w = (Ret (info, None), w1) ->
  Version info <> "" -> Version info <> CurrentVersion u ->
  ~ (PublicKey u <> None /\ Signature info = None) ->
  Update u w =
  match fetchAndVerifyPatch u info old w1 with
  | (Ret (bin, None), w2) => Update_install info bin w2
  | (Ret (_, Some e), w2) =>
      Update_full u info
        (if is_ErrHashMismatch e
         then record (Logged "update: hash mismatch from patched binary" None) w2
         else if bool_decide (DiffURL u <> "")
         then record (Logged "update: error patching binary," (Some e)) w2
         else w2)
  | (Panic v, w2) => (Panic v, w2)
  | (Exit c, w2) => (Exit c, w2)
  end.
Proof.
  intros Hp Ho Hi Hv Hc Hs. unfold Update.
  rewrite (bind_Ret _ _ _ _ _ Hp), (bind_Ret _ _ _ _ _ Ho),
    (bind_Ret _ _ _ _ _ Hi).
  rewrite (bool_decide_eq_false_2 _ Hv), (bool_decide_eq_false_2 _ Hc),
    (bool_decide_eq_false_2 _ Hs).
  unfold mbind at 1, Go_bind at 1.
  destruct (fetchAndVerifyPatch u info old w1) as [[[bin [e|]]|v|c] w2];
    try reflexivity.
  unfold mbind, Go_bind.
  destruct (is_ErrHashMismatch e); [reflexivity |].
  destruct (bool_decide (DiffURL u <> "")); reflexivity.
Qed.

Lemma fetchAndApplyPatch_trace u info old w :
  trace (fetchAndApplyPatch u info old w).2
  = trace w ++ [Fetched (patch_url u info)].
Proof.
  unfold fetchAndApplyPatch, mbind at 1, Go_bind.
  pose proof (fetch_trace u (patch_url u info) w) as T.
  destruct (fetch u (patch_url u info) w) as [[[r e]|v|c] w1]; try exact T.
  destruct e as [e|]; [exact T |].
  destruct r as [r|]; exact T.
Qed.

Lemma fetchAndVerifyPatch_trace u info old w :
  trace (fetchAndVerifyPatch u info old w).2
  = trace w ++ [Fetched (patch_url u info)].
Proof.
  unfold fetchAndVerifyPatch, mbind, Go_bind.
  pose proof (fetchAndApplyPatch_trace u info old w) as T.
  destruct (fetchAndApplyPatch u info old w) as [[[bin e]|v|c] w1]; try exact T.
  destruct e as [e|]; [exact T |].
  destruct (negb (verifySha _ _)); [exact T |].
  destruct (negb (verifySignature _ _ _)); exact T.
Qed.

(** A candidate with the manifest's hash that fails the signature check
    makes every other candidate with that hash fail it too: the signature is
    checked against the hash alone. *)
Lemma verifySignature_by_hash pk bin bin' sha sig :
  verifySha bin sha = true -> verifySha bin' sha = true ->
  verifySignature pk bin' sig = verifySignature pk bin sig.
Proof.
  unfold verifySha, bytes_Equal, verifySignature.
  intros E1%bool_decide_eq_true E2%bool_decide_eq_true.
  destruct pk; [| reflexivity]. now rewrite E1, E2.
Qed.

(** C1, as amended: when the patched candidate has the manifest's hash but
    fails the signature check, [Update] goes on to the full download as for
    any other error of the patch stage: the full-binary URL is fetched next,
    and [Update] returns the error of that stage, which is
    [ErrSignatureMismatch] whenever the downloaded binary has the manifest's
    hash; no result without an error is possible. *)
Theorem Update_patch_signature_mismatch_falls_back
    (u : Updater) (w w1 w2 : World) (path : string) (old : Reader)
    (info : Info) (bin : bytes) :
  getTargetAbsoluteDir u w = (Ret path, w) ->
  os_Open path w = (Ret (inl old), w) ->
  fetchInfo u w = (Ret (info, None), w1) ->
  Version info <> "" -> Version info <> CurrentVersion u ->
  ~ (PublicKey u <> None /\ Signature info = None) ->
  fetchAndApplyPatch u info old w1 = (Ret (bin, None), w2) ->
  verifySha bin (Sha256 info) = true ->
  verifySignature (PublicKey u) bin (Signature info) = false ->
  let w2' := if bool_decide (DiffURL u <> "")
             then record (Logged "update: error patching binary,"
                                 (Some ErrSignatureMismatch)) w2
             else w2 in
  (exists tail,
     trace (Update u w).2
     = trace w2' ++ Fetched (BinURL u +:+ url_QueryEscape (CmdName u) +:+ "/"
                               +:+ url_QueryEscape (Version info) +:+ "/"
                               +:+ url_QueryEscape plat +:+ ".gz") :: tail) /\
  (forall b e w3, fetchAndVerifyFullBin u info w2' = (Ret (b, Some e), w3) ->
     (Update u w).1 = Ret (Info_zero, Some e)) /\
  (forall bin' w3, fetchBin u info w2' = (Ret (bin', None), w3) ->
     verifySha bin' (Sha256 info) = true ->
     (Update u w).1 = Ret (Info_zero, Some ErrSignatureMismatch)) /\
  (forall i w3, Update u w <> (Ret (i, None), w3)).
Proof.
  intros Hp Ho Hi Hv Hc Hs Ha Hsha Hsig w2'.
  assert (Hpatch : fetchAndVerifyPatch u info old w1
                   = (Ret ([], Some ErrSignatureMismatch), w2)).
  { unfold fetchAndVerifyPatch. rewrite (bind_Ret _ _ _ _ _ Ha).
    now rewrite Hsha, Hsig. }
  assert (Hrun : Update u w = Update_full u info w2').
  { rewrite (Update_reaches_patch_stage _ _ _ _ _ _ Hp Ho Hi Hv Hc Hs), Hpatch.
    reflexivity. }
  assert (Hfull : forall b e w3,
    fetchAndVerifyFullBin u info w2' = (Ret (b, Some e), w3) ->
    (Update u w).1 = Ret (Info_zero, Some e)).
  { intros b e w3 E. rewrite Hrun. unfold Update_full.
    rewrite (bind_Ret _ _ _ _ _ E). unfold mbind, Go_bind.
    destruct (is_ErrHashMismatch e); reflexivity. }
  assert (Hnever : forall b w3,
    fetchAndVerifyFullBin u info w2' <> (Ret (b, None), w3)).
  { intros b w3. unfold fetchAndVerifyFullBin, mbind, Go_bind.
    destruct (fetchBin u info w2') as [[[bin' [e|]]|v|c] w4]; try discriminate.
    destruct (verifySha bin' (Sha256 info)) eqn:Hsha'; [| discriminate].
    rewrite (verifySignature_by_hash _ _ _ _ _ Hsha Hsha'), Hsig. discriminate. }
  repeat split.
  - rewrite Hrun. destruct (Update_full_trace u info w2') as (tail & _ & T).
    exists tail. exact T.
  - exact Hfull.
  - intros bin' w3 E Hsha'. apply (Hfull [] _ w3).
    unfold fetchAndVerifyFullBin. rewrite (bind_Ret _ _ _ _ _ E).
    rewrite Hsha'. cbn [negb].
    now rewrite (verifySignature_by_hash _ _ _ _ _ Hsha Hsha'), Hsig.
  - intros i w3. rewrite Hrun. unfold Update_full, mbind, Go_bind.
    pose proof (Hnever) as Hn.
    destruct (fetchAndVerifyFullBin u info w2') as [[[b [e|]]|v|c] w4];
      try discriminate.
    + destruct (is_ErrHashMismatch e); discriminate.
    + exfalso. now apply (Hn b w4).
Qed.

(** C2, as amended: with an empty [DiffURL] the patch stage is still run
    whenever the manifest names another version and is not stopped for a
    missing signature (no public key is configured, or the manifest has a
    signature): right after the manifest, [Update] fetches the patch URL
    built on the empty base.  What the empty
    [DiffURL] turns off is the log line about an error while patching.  The
    full-binary fetch follows exactly when the patch stage returned an
    error. *)
Theorem Update_empty_DiffURL_runs_patch_stage
    (u : Updater) (w w1 : World) (path : string) (old : Reader) (info : Info) :
  DiffURL u = "" ->
  getTargetAbsoluteDir u w = (Ret path, w) ->
  os_Open path w = (Ret (inl old), w) ->
  fetchInfo u w = (Ret (info, None), w1) ->
  Version info <> "" -> Version info <> CurrentVersion u ->
  ~ (PublicKey u <> None /\ Signature info = None) ->
  exists rest,
    trace (Update u w).2
    = trace w1 ++ Fetched (url_QueryEscape (CmdName u) +:+ "/"
                             +:+ url_QueryEscape (CurrentVersion u) +:+ "/"
                             +:+ url_QueryEscape (Version info) +:+ "/"
                             +:+ url_QueryEscape plat) :: rest /\
    (forall e, Logged "update: error patching binary," e ∉ rest) /\
    ((exists b e w2, fetchAndVerifyPatch u info old w1 = (Ret (b, Some e), w2))
     <-> exists pre tail, rest = pre ++ Fetched
           (BinURL u +:+ url_QueryEscape (CmdName u) +:+ "/"
              +:+ url_QueryEscape (Version info) +:+ "/"
              +:+ url_QueryEscape plat +:+ ".gz") :: tail).
Proof.
  intros Hd Hp Ho Hi Hv Hc Hs.
  rewrite (Update_reaches_patch_stage _ _ _ _ _ _ Hp Ho Hi Hv Hc Hs).
  pose proof (fetchAndVerifyPatch_trace u info old w1) as T.
  unfold patch_url in T. rewrite Hd in T. cbn [String.append] in T.
  rewrite (bool_decide_eq_false_2 (DiffURL u <> ""))
    by (intros Hn; now apply Hn).
  destruct (fetchAndVerifyPatch u info old w1) as [[[bin [e|]]|v|c] w2];
    cbn [snd] in T.
  - set (w2' := if is_ErrHashMismatch e then _ else w2).
    destruct (Update_full_trace u info w2') as (tail & Htail & TF).
    exists ((if is_ErrHashMismatch e
             then [Logged "update: hash mismatch from patched binary" None]
             else []) ++ Fetched (bin_url u info) :: tail).
    split; [| split].
    + rewrite TF. subst w2'.
      destruct (is_ErrHashMismatch e); cbn [record trace];
        rewrite T, <- ?app_assoc; reflexivity.
    + intros e' Hin. apply elem_of_app in Hin as [Hin|Hin].
      * destruct (is_ErrHashMismatch e).
        -- apply list_elem_of_singleton in Hin. discriminate.
        -- now apply elem_of_nil in Hin.
      * apply elem_of_cons in Hin as [Hin|Hin]; [discriminate |].
        destruct Htail as [->|[->|[e'' ->]]].
        -- now apply elem_of_nil in Hin.
        -- apply list_elem_of_singleton in Hin. discriminate.
        -- apply list_elem_of_singleton in Hin. discriminate.
    + split; [intros _; eexists _, tail; reflexivity | intros _; eauto].
  - exists []. split; [| split].
    + rewrite Update_install_trace. exact T.
    + intros e' Hin. now apply elem_of_nil in Hin.
    + split; [intros (b & e & w3 & [=]) |].
      intros (pre & tail & E). now destruct pre.
  - exists []. split; [exact T | split].
    + intros e' Hin. now apply elem_of_nil in Hin.
    + split; [intros (b & e & w3 & [=]) |].
      intros (pre & tail & E). now destruct pre.
  - exists []. split; [exact T | split].
    + intros e' Hin. now apply elem_of_nil in Hin.
    + split; [intros (b & e & w3 & [=]) |].
      intros (pre & tail & E). now destruct pre.
Qed.

(** C10: [BackgroundRun] drops what [SetUpdateTime] returns: once the state
    directory is there, an update is wanted and the engine can update,
    [BackgroundRun] is [Update] run after [SetUpdateTime], whether the
    cooldown file was written or not. *)
Theorem BackgroundRun_ignores_SetUpdateTime_result
    (u : Updater) (w w1 w2 w3 : World) (dir : string) (written : bool) :
  getExecRelativeDir u (Dir u) w = (Ret dir, w) ->
  os_MkdirAll dir 0o777 w = (Ret None, w1) ->
  WantUpdate u w1 = (Ret true, w2) ->
  up_CanUpdate w2 = (Ret None, w2) ->
  SetUpdateTime u w2 = (Ret written, w3) ->
  BackgroundRun u w = Update u w3.
Proof.
  intros Hd Hm Hw Hc Hs. unfold BackgroundRun.
  rewrite (bind_Ret _ _ _ _ _ Hd), (bind_Ret _ _ _ _ _ Hm),
    (bind_Ret _ _ _ _ _ Hw), (bind_Ret _ _ _ _ _ Hc), (bind_Ret _ _ _ _ _ Hs).
  reflexivity.
Qed.

End UpdateStages.


(** ** The program on concrete inputs *)

Section Runs.
Import Standin.
#[local] Existing Instance packages.

Lemma readTime_fallbacks_witness :
  getTargetAbsoluteDir (createUpdater None) fresh
    = (Ret "/opt/app/hello", fresh) /\
  NextUpdate (createUpdater None) fresh = (Ret time_Zero, fresh) /\
  NextUpdate (createUpdater None) cktime_is_dir
    = (Ret (t0 + 1000 * time_Hour), tick cktime_is_dir) /\
  NextUpdate (createUpdater None) cktime_garbled
    = (Ret (t0 + 1000 * time_Hour), tick cktime_garbled).
Proof.
  split; [reflexivity |]. split; [| split].
  - destruct (readTime_fallbacks (ext:=packages) (createUpdater None) fresh
                "/opt/app/hello" eq_refl) as (E & Hmissing & _).
    rewrite E. apply Hmissing. vm_compute. reflexivity.
  - destruct (readTime_fallbacks (ext:=packages) (createUpdater None) cktime_is_dir
                "/opt/app/hello" eq_refl) as (E & _ & Hother & _).
    rewrite E. apply (Hother EISDIR); [vm_compute; reflexivity | discriminate].
  - destruct (readTime_fallbacks (ext:=packages) (createUpdater None) cktime_garbled
                "/opt/app/hello" eq_refl) as (E & _ & _ & Hparse & _).
    rewrite E.
    apply (Hparse (bytes_of_string "soon")
                  (errors_New "parsing time: cannot parse"));
      vm_compute; reflexivity.
Defined.

(** C8, as stated, fails: where the name of the state directory is taken by
    a file, the cooldown file does not exist, and [NextUpdate] is not the
    zero instant but the current time plus 1000 hours: the error of
    [ReadFile] is ENOTDIR, for which [os.IsNotExist] is false. *)
Lemma NextUpdate_missing_file_backs_off :
  fs state_dir_is_file !! "/opt/app/update/cktime" = None /\
  fs_read (fs state_dir_is_file) "/opt/app/update/cktime" = inr ENOTDIR /\
  os_IsNotExist (Some (PathError "open" "/opt/app/update/cktime" ENOTDIR))
    = false /\
  NextUpdate (createUpdater None) state_dir_is_file
    = (Ret (t0 + 1000 * time_Hour), tick state_dir_is_file) /\
  t0 + 1000 * time_Hour <> time_Zero.
Proof.
  split; [vm_compute; reflexivity |]. split; [vm_compute; reflexivity |].
  split; [reflexivity |]. split; [reflexivity |]. vm_compute. discriminate.
Qed.

Lemma WantUpdate_false_iff_witness :
  (exists w', WantUpdate (createUpdater None) cooling = (Ret false, w')) /\
  WantUpdate (with_ForceCheck true
                (with_CurrentVersion "dev" (createUpdater None))) cooling
    = (Ret false, cooling) /\
  ~ (exists w', WantUpdate (with_ForceCheck true (createUpdater None)) cooling
                = (Ret false, w')).
Proof.
  split; [| split].
  - apply (proj1 (WantUpdate_false_iff (ext:=packages) (createUpdater None) cooling)).
    right. split; [reflexivity |].
    exists (t0 + 3600 * second), cooling.
    split; [reflexivity | vm_compute; reflexivity].
  - apply (proj2 (WantUpdate_false_iff (ext:=packages) _ cooling)). reflexivity.
  - intros Hex.
    apply (proj1 (WantUpdate_false_iff (ext:=packages)
                    (with_ForceCheck true (createUpdater None)) cooling)) in Hex.
    destruct Hex as [Hd|[Hf _]]; discriminate.
Defined.

Lemma SetUpdateTime_needs_nonnegative_RandomizeTime_witness :
  MinInt64 <= RandomizeTime (with_times 0 (-1) (createUpdater None))
    <= MaxInt64 /\
  SetUpdateTime (with_times 0 (-1) (createUpdater None)) fresh
    = (Panic (errors_New "invalid argument to Intn"), fresh) /\
  exists written w',
    SetUpdateTime (with_times 0 0 (createUpdater None)) fresh
    = (Ret written, w').
Proof.
  split; [vm_compute; split; discriminate |]. split.
  - assert (Hr : MinInt64 <= RandomizeTime
                   (with_times 0 (-1) (createUpdater None)) <= MaxInt64)
      by (vm_compute; split; discriminate).
    destruct (SetUpdateTime_needs_nonnegative_RandomizeTime (ext:=packages)
                (with_times 0 (-1) (createUpdater None)) fresh Hr) as [Hneg _].
    apply (proj2 (Hneg ltac:(vm_compute; discriminate)) "/opt/app/hello").
    reflexivity.
  - assert (Hr : MinInt64 <= RandomizeTime
                   (with_times 0 0 (createUpdater None)) <= MaxInt64)
      by (vm_compute; split; discriminate).
    destruct (SetUpdateTime_needs_nonnegative_RandomizeTime (ext:=packages)
                (with_times 0 0 (createUpdater None)) fresh Hr) as [_ Hpos].
    apply (Hpos ltac:(vm_compute; split; [discriminate | reflexivity])
                "/opt/app/hello").
    reflexivity.
Defined.

Lemma SetUpdateTime_window_witness :
  (0 <= CheckTime (with_times 100 100 (createUpdater None)) /\
   0 <= RandomizeTime (with_times 100 100 (createUpdater None)) /\
   (100 + 100) * time_Hour <= MaxInt64) /\
  SetUpdateTime (with_times 100 100 (createUpdater None)) draw_37
    = writeTime "/opt/app/update/cktime" (t0 + 137 * time_Hour)
                (tick (drawn draw_37)) /\
  fs (SetUpdateTime (with_times 100 100 (createUpdater None)) draw_37).2
     !! "/opt/app/update/cktime"
    = Some (Regular (bytes_of_string (Format_RFC3339 (t0 + 137 * time_Hour)))
                    0o644).
Proof.
  assert (Hc : 0 <= CheckTime (with_times 100 100 (createUpdater None)))
    by (vm_compute; discriminate).
  assert (Hr : 0 <= RandomizeTime (with_times 100 100 (createUpdater None)))
    by (vm_compute; discriminate).
  assert (Hfit : (CheckTime (with_times 100 100 (createUpdater None))
                  + RandomizeTime (with_times 100 100 (createUpdater None)))
                 * time_Hour <= MaxInt64)
    by (vm_compute; discriminate).
  split; [repeat split; assumption |].
  destruct (SetUpdateTime_window (ext:=packages)
              (with_times 100 100 (createUpdater None))
              draw_37 "/opt/app/hello" Hc Hr Hfit eq_refl)
    as (Hrun & _ & _ & _ & _).
  split; [exact Hrun |]. vm_compute. reflexivity.
Defined.

(** C6, as stated, fails: with [CheckTime] 2562048 and [RandomizeTime] 0 the
    product with [time.Hour] wraps around, and the cooldown written at [t0]
    is some 292 years before [t0], outside [[t0 + c h, t0 + (c + r) h]]. *)
Lemma SetUpdateTime_window_overflow :
  0 <= CheckTime far_check /\ 0 <= RandomizeTime far_check /\
  SetUpdateTime far_check fresh
    = writeTime "/opt/app/update/cktime" (t0 - 9223371273709551616)
                (tick (drawn fresh)) /\
  (SetUpdateTime far_check fresh).1 = Ret true /\
  (NextUpdate far_check (SetUpdateTime far_check fresh).2).1
    = Ret (54676628726 * second) /\
  ~ (t0 + CheckTime far_check * time_Hour <= t0 - 9223371273709551616
       <= t0 + (CheckTime far_check + RandomizeTime far_check) * time_Hour) /\
  ~ (t0 + CheckTime far_check * time_Hour <= 54676628726 * second).
Proof.
  split; [vm_compute; discriminate |]. split; [vm_compute; discriminate |].
  split; [reflexivity |]. split; [vm_compute; reflexivity |].
  split; [vm_compute; reflexivity |]. split.
  - intros [Hlo _]. vm_compute in Hlo. now apply Hlo.
  - intros Hlo. vm_compute in Hlo. now apply Hlo.
Qed.

Lemma fetchInfo_manifest_url_witness :
  trace (fetchInfo (createUpdaterWithEscapedCharacters (Some (server [])))
                   first_run).2
  = [Fetched "http://api.updates.yourdomain.com/myapp%2Bfoo/linux-amd64.json"].
Proof.
  exact (proj2 (proj2 (fetchInfo_manifest_url (ext:=packages)
                         (createUpdaterWithEscapedCharacters (Some (server [])))
                         first_run))
           eq_refl eq_refl eq_refl).
Defined.

Lemma fetchInfo_rejects_iff_witness :
  fetchInfo (createUpdater (Some (server
               [(api_json, bytes_of_string "manifest odd")]))) first_run
    = (Ret (odd, None), record (Fetched api_json) first_run) /\
  exists i e,
    fetchInfo (createUpdater (Some (server
                 [(api_json, bytes_of_string "manifest short")]))) first_run
    = (Ret (i, Some e), record (Fetched api_json) first_run).
Proof.
  split.
  - apply (proj2 (proj2 (fetchInfo_rejects_iff (ext:=packages)
             (createUpdater (Some (server
                [(api_json, bytes_of_string "manifest odd")])))
             first_run (record (Fetched api_json) first_run)
             (ReaderOf (bytes_of_string "manifest odd")) odd
             ltac:(vm_compute; reflexivity) eq_refl))).
    reflexivity.
  - apply (proj1 (fetchInfo_rejects_iff (ext:=packages)
             (createUpdater (Some (server
                [(api_json, bytes_of_string "manifest short")])))
             first_run (record (Fetched api_json) first_run)
             (ReaderOf (bytes_of_string "manifest short")) short13
             ltac:(vm_compute; reflexivity) eq_refl)).
    split; vm_compute; discriminate.
Defined.

Lemma BackgroundRun_ignores_SetUpdateTime_result_witness :
  SetUpdateTime (createUpdater None) (tick cktime_read_only)
    = (Ret false, tick (drawn (tick cktime_read_only))) /\
  BackgroundRun (createUpdater None) cktime_read_only
    = Update (createUpdater None) (tick (drawn (tick cktime_read_only))).
Proof.
  split; [reflexivity |].
  apply (BackgroundRun_ignores_SetUpdateTime_result (ext:=packages)
           (createUpdater None)
           cktime_read_only cktime_read_only (tick cktime_read_only)
           (tick (drawn (tick cktime_read_only))) "/opt/app/update" false);
    reflexivity.
Defined.

Lemma Update_patch_signature_mismatch_falls_back_witness :
  (verifySha new_binary (Sha256 forged13) = true /\
   verifySignature (PublicKey forged_full) new_binary (Signature forged13)
     = false) /\
  (Update forged_full first_run).1
    = Ret (Info_zero, Some ErrSignatureMismatch) /\
  exists tail, trace (Update forged_full first_run).2
    = [Fetched api_json; Fetched diff_13;
       Logged "update: error patching binary," (Some ErrSignatureMismatch);
       Fetched bin_13] ++ tail.
Proof.
  split; [split; vm_compute; reflexivity |].
  destruct (Update_patch_signature_mismatch_falls_back (ext:=packages)
              forged_full first_run
              (record (Fetched api_json) first_run)
              (record (Fetched diff_13) (record (Fetched api_json) first_run))
              "/opt/app/hello" (ReaderOf old_binary) forged13 new_binary
              eq_refl eq_refl eq_refl
              ltac:(discriminate) ltac:(discriminate)
              ltac:(intros [_ Hsig]; discriminate Hsig)
              eq_refl eq_refl eq_refl)
    as ((tail & Htrace) & _ & Hsame & _).
  split.
  - apply (Hsame new_binary
             (record (Fetched bin_13)
                (record (Logged "update: error patching binary,"
                                (Some ErrSignatureMismatch))
                   (record (Fetched diff_13)
                      (record (Fetched api_json) first_run)))));
      [reflexivity | vm_compute; reflexivity].
  - exists tail. exact Htrace.
Defined.

(** C1, as stated, fails: the patched candidate has the manifest's hash and
    fails the signature check, and [Update] still asks for the full binary;
    as the server has none, the error returned is the one of that fetch, not
    [ErrSignatureMismatch]. *)
Lemma Update_patch_signature_mismatch_not_fatal :
  fetchAndApplyPatch forged_patch_only forged13 (ReaderOf old_binary)
      (record (Fetched api_json) first_run)
    = (Ret (new_binary, None),
       record (Fetched diff_13) (record (Fetched api_json) first_run)) /\
  verifySha new_binary (Sha256 forged13) = true /\
  verifySignature (PublicKey forged_patch_only) new_binary
                  (Signature forged13) = false /\
  (Update forged_patch_only first_run).1
    = Ret (Info_zero, Some (errors_New "Bad status code: 404")) /\
  trace (Update forged_patch_only first_run).2
    = [Fetched api_json; Fetched diff_13;
       Logged "update: error patching binary," (Some ErrSignatureMismatch);
       Fetched bin_13;
       Logged "update: error fetching full binary,"
              (Some (errors_New "Bad status code: 404"))].
Proof. split; [reflexivity |]. repeat split; vm_compute; reflexivity. Qed.

Lemma Update_empty_DiffURL_runs_patch_stage_witness :
  DiffURL no_diff_url_404 = "" /\
  exists rest,
    trace (Update no_diff_url_404 first_run).2
    = [Fetched api_json; Fetched "myapp/1.2/1.3/linux-amd64"] ++ rest /\
    forall e, Logged "update: error patching binary," e ∉ rest.
Proof.
  split; [reflexivity |].
  destruct (Update_empty_DiffURL_runs_patch_stage (ext:=packages)
              no_diff_url_404 first_run
              (record (Fetched api_json) first_run)
              "/opt/app/hello" (ReaderOf old_binary) info13
              eq_refl eq_refl eq_refl eq_refl
              ltac:(discriminate) ltac:(discriminate)
              ltac:(intros [Hk _]; now apply Hk))
    as (rest & Htrace & Hlog & _).
  exists rest. split; [exact Htrace | exact Hlog].
Defined.

(** C2, as stated, fails: [DiffURL] is empty, and [Update] asks the requester
    for the patch under the relative URL, applies it and installs the
    result; the full binary is never fetched. *)
Lemma Update_empty_DiffURL_fetches_patch :
  DiffURL no_diff_url = "" /\
  (Update no_diff_url first_run).1 = Ret (info13, None) /\
  trace (Update no_diff_url first_run).2
    = [Fetched api_json; Fetched "myapp/1.2/1.3/linux-amd64"] /\
  fs (Update no_diff_url first_run).2 !! "/opt/app/hello"
    = Some (Regular new_binary 0o755).
Proof. repeat split; vm_compute; reflexivity. Qed.

(** C3 does not hold of the code: the results of the two [WriteFile] calls
    for the archive and for the patch are dropped.  When the name of the
    version is taken by a file in the output directory, [CreateUpdate]
    returns normally, has written the manifest, and there is no
    [public/1.0/linux-amd64.gz].  When release 0.9 is there with its archive
    and the name [1.0] is taken by a file inside it, [CreateUpdate] returns
    normally and there is no patch [public/0.9/1.0/linux-amd64]. *)
Theorem CreateUpdate_drops_write_errors :
  (let done := CreateUpdate (mkInfo "1.0" [] None) "hello" "linux-amd64"
                 "public" None (builder_world version_name_taken) in
   done.1 = Ret tt /\
   fs_read (fs done.2) "public/linux-amd64.json"
     = inl (bytes_of_string "manifest 1.0") /\
   fs_stat (fs done.2) "public/1.0/linux-amd64.gz" = inr ENOTDIR) /\
  (let done := CreateUpdate (mkInfo "1.0" [] None) "hello" "linux-amd64"
                 "public" None (builder_world patch_dir_taken) in
   fs_read patch_dir_taken "public/0.9/linux-amd64.gz"
     = inl (gzip old_binary) /\
   done.1 = Ret tt /\
   fs_read (fs done.2) "public/1.0/linux-amd64.gz" = inl (gzip new_binary) /\
   fs_stat (fs done.2) "public/0.9/1.0/linux-amd64" = inr ENOTDIR).
Proof. repeat split; vm_compute; reflexivity. Qed.

End Runs.

(** * Further properties of the updater *)

Section UpdateMore.
Context {ext : Extern}.

(** Every stage of [Update] before the installation leaves the world as it
    was, but for the fetch it records. *)
Lemma fetch_world u url w : (fetch u url w).2 = record (Fetched url) w.
Proof.
  unfold fetch, call_Fetch, mbind, Go_bind.
  destruct (Requester u) as [rq|]; [| reflexivity].
  destruct (rq (trace w) url) as [[r|] [e|]]; reflexivity.
Qed.

Lemma fetchInfo_world u w :
  (fetchInfo u w).2 = record (Fetched (manifest_url u)) w.
Proof.
  unfold fetchInfo, mbind at 1, Go_bind.
  pose proof (fetch_world u (manifest_url u) w) as T.
  destruct (fetch u (manifest_url u) w) as [[[r e]|v|c] w1]; try exact T.
  destruct e as [e|]; [exact T |].
  destruct r as [r|]; [| exact T]. unfold mbind, Go_bind. cbn [deref].
  unfold mret at 1, Go_ret at 1.
  destruct (json_Decode r) as [info|e]; [| exact T].
  destruct (_ && _); exact T.
Qed.

Lemma fetchAndApplyPatch_world u info old w :
  (fetchAndApplyPatch u info old w).2 = record (Fetched (patch_url u info)) w.
Proof.
  unfold fetchAndApplyPatch, mbind at 1, Go_bind.
  pose proof (fetch_world u (patch_url u info) w) as T.
  destruct (fetch u (patch_url u info) w) as [[[r e]|v|c] w1]; try exact T.
  destruct e as [e|]; [exact T |].
  destruct r as [r|]; exact T.
Qed.

Lemma fetchAndVerifyPatch_world u info old w :
  (fetchAndVerifyPatch u info old w).2 = record (Fetched (patch_url u info)) w.
Proof.
  unfold fetchAndVerifyPatch, mbind, Go_bind.
  pose proof (fetchAndApplyPatch_world u info old w) as T.
  destruct (fetchAndApplyPatch u info old w) as [[[bin e]|v|c] w1]; try exact T.
  destruct e as [e|]; [exact T |].
  destruct (negb (verifySha _ _)); [exact T |].
  destruct (negb (verifySignature _ _ _)); exact T.
Qed.

Lemma fetchBin_world u info w :
  (fetchBin u info w).2 = record (Fetched (bin_url u info)) w.
Proof.
  unfold fetchBin, mbind at 1, Go_bind.
  pose proof (fetch_world u (bin_url u info) w) as T.
  destruct (fetch u (bin_url u info) w) as [[[r e]|v|c] w1]; try exact T.
  destruct e as [e|]; [exact T |].
  destruct r as [r|]; [| exact T]. unfold mbind, Go_bind. cbn [deref].
  unfold mret at 1, Go_ret at 1.
  destruct (gzip_NewReader r) as [gz|e]; [| exact T].
  destruct (io_ReadAll gz); exact T.
Qed.

Lemma fetchAndVerifyFullBin_world u info w :
  (fetchAndVerifyFullBin u info w).2 = record (Fetched (bin_url u info)) w.
Proof.
  unfold fetchAndVerifyFullBin, mbind, Go_bind.
  pose proof (fetchBin_world u info w) as T.
  destruct (fetchBin u info w) as [[[bin e]|v|c] w1]; try exact T.
  destruct e as [e|]; [exact T |].
  destruct (negb (verifySha _ _)); [exact T |].
  destruct (negb (verifySignature _ _ _)); exact T.
Qed.

(** What the two verifying stages hand over without an error has been
    checked against the manifest. *)
Lemma fetchAndVerifyPatch_checked u info old w bin w' :
  fetchAndVerifyPatch u info old w = (Ret (bin, None), w') ->
  verifySha bin (Sha256 info) = true /\
  verifySignature (PublicKey u) bin (Signature info) = true.
Proof.
  unfold fetchAndVerifyPatch, mbind, Go_bind.
  destruct (fetchAndApplyPatch u info old w) as [[[b [e|]]|v|c] w1];
    try discriminate.
  destruct (verifySha b (Sha256 info)) eqn:Hs; [| discriminate].
  destruct (verifySignature (PublicKey u) b (Signature info)) eqn:Hg;
    [| discriminate].
  cbn. intros [= <- _]. now split.
Qed.

Lemma fetchAndVerifyFullBin_checked u info w bin w' :
  fetchAndVerifyFullBin u info w = (Ret (bin, None), w') ->
  verifySha bin (Sha256 info) = true /\
  verifySignature (PublicKey u) bin (Signature info) = true.
Proof.
  unfold fetchAndVerifyFullBin, mbind, Go_bind.
  destruct (fetchBin u info w) as [[[b [e|]]|v|c] w1]; try discriminate.
  destruct (verifySha b (Sha256 info)) eqn:Hs; [| discriminate].
  destruct (verifySignature (PublicKey u) b (Signature info)) eqn:Hg;
    [| discriminate].
  cbn. intros [= <- _]. now split.
Qed.

Lemma fetchInfo_accepts u w info w1 :
  fetchInfo u w = (Ret (info, None), w1) ->
  Version info <> "" -> length (Sha256 info) = 32%nat.
Proof.
  unfold fetchInfo, mbind at 1, Go_bind.
  destruct (fetch u (manifest_url u) w) as [[[r [e|]]|v|c] w0];
    try discriminate.
  destruct r as [r|]; [| discriminate]. unfold mbind, Go_bind. cbn [deref].
  unfold mret at 1, Go_ret at 1.
  destruct (json_Decode r) as [i|e]; [| discriminate].
  destruct (bool_decide_reflect (Version i <> "")) as [Hv|Hv]; cbn [andb].
  - destruct (bool_decide_reflect
                (Z.of_nat (length (Sha256 i)) <> sha256_Size)) as [Hl|Hl];
      [discriminate |].
    intros [= <- _] _. unfold sha256_Size in Hl. lia.
  - intros [= <- _] Hne. contradiction.
Qed.

Lemma os_Open_world path w : exists r, os_Open path w = (Ret r, w).
Proof.
  unfold os_Open. destruct (fs_stat (fs w) path) as [[d m|m]|e];
    [destruct (may_read m) | destruct (may_read m) |]; eauto.
Qed.

Lemma Update_install_world info bin w :
  (Update_install info bin w).2 = set_fs (up_FromStream_on bin w).1 w.
Proof.
  unfold Update_install, up_FromStream, mbind, Go_bind.
  destruct (up_FromStream_on bin w) as [f [err [er|]]]; [reflexivity |].
  destruct err; reflexivity.
Qed.

Lemma Update_install_returns info bin w :
  (Update_install info bin w).1 = Ret (info, None) /\
    (up_FromStream_on bin w).2 = (None, None) \/
  exists e, (Update_install info bin w).1 = Ret (Info_zero, Some e).
Proof.
  unfold Update_install, up_FromStream, mbind, Go_bind.
  destruct (up_FromStream_on bin w) as [f [err [er|]]]; [right; eauto |].
  destruct err; [right; eauto | left; split; reflexivity].
Qed.

(** The full-download stage either installs a checked binary or leaves all
    files alone and returns an error or panics. *)
Lemma Update_full_cases u info w :
  (exists bin w2, fs w2 = fs w /\
     verifySha bin (Sha256 info) = true /\
     verifySignature (PublicKey u) bin (Signature info) = true /\
     Update_full u info w = Update_install info bin w2) \/
  (fs (Update_full u info w).2 = fs w /\
   ((exists e, (Update_full u info w).1 = Ret (Info_zero, Some e)) \/
    (exists v, (Update_full u info w).1 = Panic v))).
Proof.
  unfold Update_full, mbind, Go_bind.
  pose proof (fetchAndVerifyFullBin_world u info w) as W.
  destruct (fetchAndVerifyFullBin u info w) as [[[bin [e|]]|v|c] w1] eqn:E;
    cbn [snd] in W; subst w1.
  - right. destruct (is_ErrHashMismatch e); cbn; eauto.
  - left. exists bin, (record (Fetched (bin_url u info)) w).
    destruct (fetchAndVerifyFullBin_checked _ _ _ _ _ E) as [Hs Hg]. auto.
  - right. cbn. eauto.
  - exfalso. revert E. unfold fetchAndVerifyFullBin, mbind, Go_bind.
    destruct (fetchBin u info w) as [[[b [e|]]|v|c'] w1] eqn:EB;
      try discriminate.
    + destruct (negb _); [discriminate |]. destruct (negb _); discriminate.
    + revert EB. unfold fetchBin, mbind at 1, Go_bind.
      destruct (fetch u (bin_url u info) w) as [[[r [e|]]|v|c''] w0] eqn:EF;
        try discriminate.
      * destruct r as [r|]; [| discriminate]. unfold mbind, Go_bind.
        cbn [deref]. unfold mret at 1, Go_ret at 1.
        destruct (gzip_NewReader r) as [gz|e]; [| discriminate].
        destruct (io_ReadAll gz); discriminate.
      * revert EF. unfold fetch, call_Fetch, mbind, Go_bind.
        destruct (Requester u) as [rq|]; [| discriminate].
        destruct (rq (trace w) (bin_url u info)) as [[r|] [e|]]; discriminate.
Qed.

Lemma Update_full_quiet_or_installs u info w :
  (exists bin w2, fs w2 = fs w /\
     verifySha bin (Sha256 info) = true /\
     verifySignature (PublicKey u) bin (Signature info) = true /\
     Update_full u info w = Update_install info bin w2) \/
  (fs (Update_full u info w).2 = fs w /\
   forall i e, (Update_full u info w).1 = Ret (i, e) -> i = Info_zero).
Proof.
  destruct (Update_full_cases u info w) as [Hin|[Hfs [[e He]|[v Hv]]]];
    [now left | right | right]; (split; [exact Hfs |]); intros i e' E.
  - rewrite He in E. now injection E as <- _.
  - rewrite Hv in E. discriminate E.
Qed.

(** How a run of [Update] ends: without touching a file and without a
    manifest in its result, or in the installation of a binary that passed
    both checks against the manifest just fetched. *)
Lemma Update_cases u w :
  (fs (Update u w).2 = fs w /\
   forall i e, (Update u w).1 = Ret (i, e) -> i = Info_zero) \/
  (exists info bin w1 w2,
     fetchInfo u w = (Ret (info, None), w1) /\
     Version info <> "" /\ Version info <> CurrentVersion u /\
     ~ (PublicKey u <> None /\ Signature info = None) /\
     fs w2 = fs w /\
     verifySha bin (Sha256 info) = true /\
     verifySignature (PublicKey u) bin (Signature info) = true /\
     Update u w = Update_install info bin w2).
Proof.
  destruct (getTargetAbsoluteDir_cases u w) as [[path Hp]|[v Hp]].
  2:{ left. unfold Update. rewrite (bind_Panic _ _ _ _ _ Hp).
      split; [reflexivity | discriminate]. }
  destruct (os_Open_world path w) as [[old|err] Ho].
  2:{ left. unfold Update.
      rewrite (bind_Ret _ _ _ _ _ Hp), (bind_Ret _ _ _ _ _ Ho).
      split; [reflexivity | now intros i e [= <- _]]. }
  pose proof (fetchInfo_world u w) as W1.
  destruct (fetchInfo u w) as [[[info [e|]]|v|c] w1] eqn:Hi;
    cbn [snd] in W1.
  - left. unfold Update.
    rewrite (bind_Ret _ _ _ _ _ Hp), (bind_Ret _ _ _ _ _ Ho),
      (bind_Ret _ _ _ _ _ Hi).
    split; [now rewrite W1 | now intros i e' [= <- _]].
  - destruct (decide (Version info = "")) as [Hv|Hv].
    { left. unfold Update.
      rewrite (bind_Ret _ _ _ _ _ Hp), (bind_Ret _ _ _ _ _ Ho),
        (bind_Ret _ _ _ _ _ Hi), (bool_decide_eq_true_2 _ Hv).
      split; [now rewrite W1 | now intros i e' [= <- _]]. }
    destruct (decide (Version info = CurrentVersion u)) as [Hc|Hc].
    { left. unfold Update.
      rewrite (bind_Ret _ _ _ _ _ Hp), (bind_Ret _ _ _ _ _ Ho),
        (bind_Ret _ _ _ _ _ Hi), (bool_decide_eq_false_2 _ Hv),
        (bool_decide_eq_true_2 _ Hc).
      split; [now rewrite W1 | now intros i e' [= <- _]]. }
    destruct (decide (PublicKey u <> None /\ Signature info = None))
      as [Hs|Hs].
    { left. unfold Update.
      rewrite (bind_Ret _ _ _ _ _ Hp), (bind_Ret _ _ _ _ _ Ho),
        (bind_Ret _ _ _ _ _ Hi), (bool_decide_eq_false_2 _ Hv),
        (bool_decide_eq_false_2 _ Hc), (bool_decide_eq_true_2 _ Hs).
      split; [now rewrite W1 | now intros i e' [= <- _]]. }
    rewrite (Update_reaches_patch_stage _ _ _ _ _ _ Hp Ho Hi Hv Hc Hs).
    pose proof (fetchAndVerifyPatch_world u info old w1) as W2.
    destruct (fetchAndVerifyPatch u info old w1) as [[[bin [e|]]|v|c] w2]
      eqn:Hpatch; cbn [snd] in W2.
    + set (w2' := if is_ErrHashMismatch e then _ else _).
      assert (Hfs : fs w2' = fs w).
      { subst w2'. destruct (is_ErrHashMismatch e);
          [| destruct (bool_decide (DiffURL u <> ""))];
          rewrite W2, W1; reflexivity. }
      destruct (Update_full_quiet_or_installs u info w2')
        as [(b & w3 & F3 & Hsha & Hsig & Hrun)|[Hq Hz]].
      * right. exists info, b, w1, w3. rewrite Hrun.
        repeat split; try assumption. now rewrite F3.
      * left. split; [now rewrite Hq | exact Hz].
    + right. exists info, bin, w1, w2.
      destruct (fetchAndVerifyPatch_checked _ _ _ _ _ _ Hpatch) as [Hsha Hsig].
      repeat split; try assumption. now rewrite W2, W1.
    + left. split; [now rewrite W2, W1 | discriminate].
    + left. split; [now rewrite W2, W1 | discriminate].
  - left. unfold Update.
    rewrite (bind_Ret _ _ _ _ _ Hp), (bind_Ret _ _ _ _ _ Ho),
      (bind_Panic _ _ _ _ _ Hi).
    split; [now rewrite W1 | discriminate].
  - left. unfold Update.
    rewrite (bind_Ret _ _ _ _ _ Hp), (bind_Ret _ _ _ _ _ Ho).
    unfold mbind, Go_bind. rewrite Hi.
    split; [now rewrite W1 | discriminate].
Qed.

(** X1: the files change during [Update] only through [up.FromStream], and
    that is called only with bytes that have the hash of the manifest just
    fetched and pass the signature check; in every other run the file system
    after [Update] is the one before. *)
Theorem Update_changes_files_only_by_verified_install (u : Updater) (w : World) :
  fs (Update u w).2 = fs w \/
  exists info bin w1 w2,
    fetchInfo u w = (Ret (info, None), w1) /\
    fs w2 = fs w /\
    verifySha bin (Sha256 info) = true /\
    verifySignature (PublicKey u) bin (Signature info) = true /\
    fs (Update u w).2 = (up_FromStream_on bin w2).1.
Proof.
  destruct (Update_cases u w)
    as [[Hq _]|(info & bin & w1 & w2 & Hi & _ & _ & _ & F & Hs & Hg & Hrun)].
  - now left.
  - right. exists info, bin, w1, w2. repeat split; try assumption.
    rewrite Hrun, Update_install_world. reflexivity.
Qed.

(** X2: when [Update] returns a manifest with a version and no error, that
    manifest is the one fetched, its version is not the current one, its hash
    has 32 bytes, a configured key found a signature, and [up.FromStream]
    ran without error on bytes that passed the hash and the signature
    check. *)
Theorem Update_success_means_verified_install
    (u : Updater) (w w' : World) (i : Info) :
  Update u w = (Ret (i, None), w') ->
  Version i <> "" ->
  exists bin w1 w2,
    fetchInfo u w = (Ret (i, None), w1) /\
    Version i <> CurrentVersion u /\
    length (Sha256 i) = 32%nat /\
    (PublicKey u <> None -> Signature i <> None) /\
    fs w2 = fs w /\
    verifySha bin (Sha256 i) = true /\
    verifySignature (PublicKey u) bin (Signature i) = true /\
    up_FromStream_on bin w2 = (fs w', (None, None)).
Proof.
  intros E Hv.
  destruct (Update_cases u w)
    as [[_ Hz]|(info & bin & w1 & w2 & Hi & Hver & Hc & Hs & F & Hsha & Hsig
                & Hrun)].
  - rewrite E in Hz. specialize (Hz i None eq_refl). subst i. now elim Hv.
  - rewrite Hrun in E.
    destruct (Update_install_returns info bin w2) as [[Hr Hup]|[e He]].
    + rewrite E in Hr. cbn [fst] in Hr. injection Hr as <-.
      exists bin, w1, w2. repeat split; try assumption.
      * eapply fetchInfo_accepts; eassumption.
      * intros Hk Hn. apply Hs. now split.
      * pose proof (Update_install_world i bin w2) as W. rewrite E in W.
        cbn [snd] in W. subst w'. cbn [fs set_fs].
        destruct (up_FromStream_on bin w2) as [f errs]. cbn in *. now subst.
    + rewrite E in He. discriminate He.
Qed.

(** X3: whenever [Update] returns an error, the manifest it returns with it
    is the empty one. *)
Theorem Update_error_returns_empty_Info
    (u : Updater) (w w' : World) (i : Info) (e : error) :
  Update u w = (Ret (i, Some e), w') -> i = Info_zero.
Proof.
  intros E.
  destruct (Update_cases u w)
    as [[_ Hz]|(info & bin & w1 & w2 & _ & _ & _ & _ & _ & _ & _ & Hrun)].
  - rewrite E in Hz. apply (Hz i (Some e) eq_refl).
  - rewrite Hrun in E.
    destruct (Update_install_returns info bin w2) as [[Hr _]|[e' He]].
    + rewrite E in Hr. discriminate Hr.
    + rewrite E in He. now injection He as <- _.
Qed.

Lemma fetched_app a b : fetched (a ++ b) = fetched a ++ fetched b.
Proof. unfold fetched. apply omap_app. Qed.

(** X4: [Update] asks the requester for at most three URLs and always in the
    same order: the manifest, then the patch from the current version to the
    manifest's version, then the full binary of the manifest's version; it
    stops after any of them. *)
Theorem Update_fetch_order (u : Updater) (w : World) :
  exists evs,
    trace (Update u w).2 = trace w ++ evs /\
    (fetched evs = [] \/
     fetched evs = [manifest_url u] \/
     exists info w1,
       fetchInfo u w = (Ret (info, None), w1) /\
       (fetched evs = [manifest_url u; patch_url u info] \/
        fetched evs = [manifest_url u; patch_url u info; bin_url u info])).
Proof.
  destruct (getTargetAbsoluteDir_cases u w) as [[path Hp]|[v Hp]].
  2:{ exists []. unfold Update. rewrite (bind_Panic _ _ _ _ _ Hp).
      split; [now rewrite app_nil_r | now left]. }
  destruct (os_Open_world path w) as [[old|err] Ho].
  2:{ exists []. unfold Update.
      rewrite (bind_Ret _ _ _ _ _ Hp), (bind_Ret _ _ _ _ _ Ho).
      split; [now rewrite app_nil_r | now left]. }
  pose proof (fetchInfo_world u w) as W1.
  assert (Hone : forall o, Update u w = (o, record (Fetched (manifest_url u)) w)
            -> exists evs, trace (Update u w).2 = trace w ++ evs /\
                 (fetched evs = [] \/ fetched evs = [manifest_url u] \/
                  exists info w1, fetchInfo u w = (Ret (info, None), w1) /\
                    (fetched evs = [manifest_url u; patch_url u info] \/
                     fetched evs
                     = [manifest_url u; patch_url u info; bin_url u info]))).
  { intros o E. exists [Fetched (manifest_url u)]. rewrite E.
    split; [reflexivity | right; now left]. }
  destruct (fetchInfo u w) as [[[info [e|]]|v|c] w1] eqn:Hi;
    cbn [snd] in W1; subst w1.
  - eapply Hone. unfold Update.
    now rewrite (bind_Ret _ _ _ _ _ Hp), (bind_Ret _ _ _ _ _ Ho),
      (bind_Ret _ _ _ _ _ Hi).
  - destruct (decide (Version info = "")) as [Hv|Hv].
    { eapply Hone. unfold Update.
      now rewrite (bind_Ret _ _ _ _ _ Hp), (bind_Ret _ _ _ _ _ Ho),
        (bind_Ret _ _ _ _ _ Hi), (bool_decide_eq_true_2 _ Hv). }
    destruct (decide (Version info = CurrentVersion u)) as [Hc|Hc].
    { eapply Hone. unfold Update.
      now rewrite (bind_Ret _ _ _ _ _ Hp), (bind_Ret _ _ _ _ _ Ho),
        (bind_Ret _ _ _ _ _ Hi), (bool_decide_eq_false_2 _ Hv),
        (bool_decide_eq_true_2 _ Hc). }
    destruct (decide (PublicKey u <> None /\ Signature info = None))
      as [Hs|Hs].
    { eapply Hone. unfold Update.
      now rewrite (bind_Ret _ _ _ _ _ Hp), (bind_Ret _ _ _ _ _ Ho),
        (bind_Ret _ _ _ _ _ Hi), (bool_decide_eq_false_2 _ Hv),
        (bool_decide_eq_false_2 _ Hc), (bool_decide_eq_true_2 _ Hs). }
    rewrite (Update_reaches_patch_stage _ _ _ _ _ _ Hp Ho Hi Hv Hc Hs).
    pose proof (fetchAndVerifyPatch_world u info old
                  (record (Fetched (manifest_url u)) w)) as W2.
    destruct (fetchAndVerifyPatch u info old _) as [[[bin [e|]]|v|c] w2]
      eqn:Hpatch; cbn [snd] in W2; subst w2.
    + set (w2' := if is_ErrHashMismatch e then _ else _).
      destruct (Update_full_trace u info w2') as (tail & Htail & T).
      assert (Hw2' : exists logs, trace w2' = trace w ++
                       [Fetched (manifest_url u); Fetched (patch_url u info)]
                       ++ logs /\ fetched logs = []).
      { subst w2'. destruct (is_ErrHashMismatch e);
          [| destruct (bool_decide (DiffURL u <> ""))];
          cbn [record trace]; rewrite <- ?app_assoc;
          eexists; (split; [reflexivity |]); reflexivity. }
      destruct Hw2' as (logs & Hl & Hfl).
      exists ([Fetched (manifest_url u); Fetched (patch_url u info)]
              ++ logs ++ Fetched (bin_url u info) :: tail).
      split.
      * rewrite T, Hl, <- !app_assoc. reflexivity.
      * right; right. exists info, (record (Fetched (manifest_url u)) w).
        split; [reflexivity |]. right.
        rewrite !fetched_app, Hfl.
        change (fetched (Fetched (bin_url u info) :: tail))
          with (bin_url u info :: fetched tail).
        destruct Htail as [->|[->|[e' ->]]]; reflexivity.
    + exists [Fetched (manifest_url u); Fetched (patch_url u info)].
      split.
      * rewrite Update_install_trace. cbn [record trace].
        now rewrite <- app_assoc.
      * right; right. exists info, (record (Fetched (manifest_url u)) w).
        split; [reflexivity | now left].
    + exists [Fetched (manifest_url u); Fetched (patch_url u info)].
      split; [cbn [snd record trace]; now rewrite <- app_assoc |].
      right; right. exists info, (record (Fetched (manifest_url u)) w).
      split; [reflexivity | now left].
    + exists [Fetched (manifest_url u); Fetched (patch_url u info)].
      split; [cbn [snd record trace]; now rewrite <- app_assoc |].
      right; right. exists info, (record (Fetched (manifest_url u)) w).
      split; [reflexivity | now left].
  - eapply Hone. unfold Update.
    now rewrite (bind_Ret _ _ _ _ _ Hp), (bind_Ret _ _ _ _ _ Ho),
      (bind_Panic _ _ _ _ _ Hi).
  - eapply Hone. unfold Update.
    rewrite (bind_Ret _ _ _ _ _ Hp), (bind_Ret _ _ _ _ _ Ho).
    unfold mbind, Go_bind. now rewrite Hi.
Qed.

(** X5: when the manifest has no version, or the current one, [Update]
    returns the empty manifest without error after that single fetch: no
    patch, no full binary, no log line, no file touched. *)
Theorem Update_nothing_to_install
    (u : Updater) (w w1 : World) (path : string) (old : Reader) (info : Info) :
  getTargetAbsoluteDir u w = (Ret path, w) ->
  os_Open path w = (Ret (inl old), w) ->
  fetchInfo u w = (Ret (info, None), w1) ->
  Version info = "" \/ Version info = CurrentVersion u ->
  Update u w = (Ret (Info_zero, None), record (Fetched (manifest_url u)) w).
Proof.
  intros Hp Ho Hi Hv.
  pose proof (fetchInfo_world u w) as W1. rewrite Hi in W1. cbn [snd] in W1.
  subst w1. unfold Update.
  rewrite (bind_Ret _ _ _ _ _ Hp), (bind_Ret _ _ _ _ _ Ho),
    (bind_Ret _ _ _ _ _ Hi).
  destruct (bool_decide_reflect (Version info = "")) as [|Hne];
    [reflexivity |].
  destruct Hv as [Hv|Hv]; [contradiction |].
  now rewrite (bool_decide_eq_true_2 _ Hv).
Qed.

(** X6: with a public key configured, a manifest for another version whose
    signature is nil makes [Update] return the error about the missing
    signature right after the manifest fetch, before anything else is
    fetched; a signature that is present but empty is not missing: the patch
    stage is run. *)
Theorem Update_missing_signature
    (u : Updater) (w w1 : World) (path : string) (old : Reader) (info : Info) :
  getTargetAbsoluteDir u w = (Ret path, w) ->
  os_Open path w = (Ret (inl old), w) ->
  fetchInfo u w = (Ret (info, None), w1) ->
  Version info <> "" -> Version info <> CurrentVersion u ->
  PublicKey u <> None ->
  (Signature info = None ->
   Update u w
   = (Ret (Info_zero, Some (fmt_Errorf
        "update: configured with public key but version info had no signature"
        [])),
      record (Fetched (manifest_url u)) w)) /\
  (Signature info = Some [] ->
   exists rest, trace (Update u w).2
     = trace w ++ Fetched (manifest_url u) :: Fetched (patch_url u info)
                                              :: rest).
Proof.
  intros Hp Ho Hi Hv Hc Hk.
  pose proof (fetchInfo_world u w) as W1. rewrite Hi in W1. cbn [snd] in W1.
  subst w1. split.
  - intros Hs. unfold Update.
    rewrite (bind_Ret _ _ _ _ _ Hp), (bind_Ret _ _ _ _ _ Ho),
      (bind_Ret _ _ _ _ _ Hi), (bool_decide_eq_false_2 _ Hv),
      (bool_decide_eq_false_2 _ Hc).
    now rewrite bool_decide_eq_true_2 by (split; assumption).
  - intros Hs.
    assert (Hn : ~ (PublicKey u <> None /\ Signature info = None))
      by (rewrite Hs; intros [_ [=]]).
    rewrite (Update_reaches_patch_stage _ _ _ _ _ _ Hp Ho Hi Hv Hc Hn).
    pose proof (fetchAndVerifyPatch_world u info old
                  (record (Fetched (manifest_url u)) w)) as W2.
    destruct (fetchAndVerifyPatch u info old _) as [[[bin [e|]]|v|c] w2];
      cbn [snd] in W2; subst w2.
    + set (w2' := if is_ErrHashMismatch e then _ else _).
      destruct (Update_full_trace u info w2') as (tail & _ & T).
      rewrite T. subst w2'.
      destruct (is_ErrHashMismatch e);
        [| destruct (bool_decide (DiffURL u <> ""))];
        cbn [record trace]; rewrite <- ?app_assoc; eexists; reflexivity.
    + rewrite Update_install_trace. cbn [record trace].
      rewrite <- app_assoc. now exists [].
    + cbn [snd record trace]. rewrite <- app_assoc. now exists [].
    + cbn [snd record trace]. rewrite <- app_assoc. now exists [].
Qed.

(** X7: when the patch stage returns an error, whatever it is, the result of
    [Update] is decided by the full download alone: if that fails too,
    [Update] returns the error of the full download, never the one of the
    patch stage, and no file is touched; if it succeeds the downloaded
    binary is what [up.FromStream] gets. *)
Theorem Update_patch_failure_falls_back
    (u : Updater) (w w1 w2 : World) (path : string) (old : Reader)
    (info : Info) (b : bytes) (e1 : error) :
  getTargetAbsoluteDir u w = (Ret path, w) ->
  os_Open path w = (Ret (inl old), w) ->
  fetchInfo u w = (Ret (info, None), w1) ->
  Version info <> "" -> Version info <> CurrentVersion u ->
  ~ (PublicKey u <> None /\ Signature info = None) ->
  fetchAndVerifyPatch u info old w1 = (Ret (b, Some e1), w2) ->
  let w2' :=
    if is_ErrHashMismatch e1
    then record (Logged "update: hash mismatch from patched binary" None) w2
    else if bool_decide (DiffURL u <> "")
    then record (Logged "update: error patching binary," (Some e1)) w2
    else w2 in
  (forall b2 e2 w3,
     fetchAndVerifyFullBin u info w2' = (Ret (b2, Some e2), w3) ->
     (Update u w).1 = Ret (Info_zero, Some e2) /\
     fs (Update u w).2 = fs w) /\
  (forall bin w3,
     fetchAndVerifyFullBin u info w2' = (Ret (bin, None), w3) ->
     fs (Update u w).2 = (up_FromStream_on bin w3).1 /\
     ((up_FromStream_on bin w3).2 = (None, None) ->
      (Update u w).1 = Ret (info, None))).
Proof.
  intros Hp Ho Hi Hv Hc Hs Hpatch w2'.
  rewrite (Update_reaches_patch_stage _ _ _ _ _ _ Hp Ho Hi Hv Hc Hs), Hpatch.
  fold w2'.
  assert (Hfs : fs w2' = fs w).
  { pose proof (fetchInfo_world u w) as W1. rewrite Hi in W1.
    pose proof (fetchAndVerifyPatch_world u info old w1) as W2.
    rewrite Hpatch in W2. cbn [snd] in *. subst w2'.
    destruct (is_ErrHashMismatch e1);
      [| destruct (bool_decide (DiffURL u <> ""))];
      rewrite W2, W1; reflexivity. }
  split.
  - intros b2 e2 w3 E.
    pose proof (fetchAndVerifyFullBin_world u info w2') as W3.
    rewrite E in W3. cbn [snd] in W3.
    unfold Update_full. rewrite (bind_Ret _ _ _ _ _ E).
    unfold mbind, Go_bind.
    destruct (is_ErrHashMismatch e2); cbn; (split; [reflexivity |]);
      now rewrite W3.
  - intros bin w3 E. unfold Update_full. rewrite (bind_Ret _ _ _ _ _ E).
    split; [now rewrite Update_install_world |].
    intros Hup. unfold Update_install, up_FromStream, mbind, Go_bind.
    destruct (up_FromStream_on bin w3) as [f errs]. cbn in Hup. subst errs.
    reflexivity.
Qed.

(** X8: with a requester configured, [fetch] returns either a reader or an
    error, never both and never neither: an error of the requester drops the
    reader that came with it, and a nil reader without error becomes the
    error that a non-nil ReadCloser was expected. *)
Theorem fetch_reader_xor_error
    (u : Updater) (rq : Fetch) (url : string) (w : World) :
  Requester u = Some rq ->
  exists r e,
    fetch u url w = (Ret (r, e), record (Fetched url) w) /\
    (r = None <-> e <> None) /\
    (forall e', (rq (trace w) url).2 = Some e' -> e = Some e') /\
    (rq (trace w) url = (None, None) ->
     e = Some (fmt_Errorf "Fetch was expected to return non-nil ReadCloser"
                          [])) /\
    (forall r', rq (trace w) url = (Some r', None) -> r = Some r').
Proof.
  intros Hr. unfold fetch, call_Fetch, mbind, Go_bind. rewrite Hr.
  destruct (rq (trace w) url) as [[r|] [e|]]; cbn;
    eexists _, _; (split; [reflexivity |]);
    (split; [split; [discriminate || (intros _; discriminate)
                    | (intros Hn; now elim Hn) || reflexivity
                      || discriminate] |]);
    repeat split; intros; congruence.
Qed.









(** X10: [UpdateAvailable] touches no file and asks for nothing but the
    manifest; a non-empty version it returns without error is the version of
    a manifest that was fetched and accepted with a 32-byte hash, and is
    never the current version. *)
Theorem UpdateAvailable_reports_other_versions (u : Updater) (w : World) :
  fs (UpdateAvailable u w).2 = fs w /\
  (trace (UpdateAvailable u w).2 = trace w \/
   trace (UpdateAvailable u w).2 = trace w ++ [Fetched (manifest_url u)]) /\
  (forall v w', UpdateAvailable u w = (Ret (v, None), w') -> v <> "" ->
     v <> CurrentVersion u /\
     exists info, fetchInfo u w = (Ret (info, None), w') /\
       Version info = v /\ length (Sha256 info) = 32%nat).
Proof.
  unfold UpdateAvailable.
  destruct (getTargetAbsoluteDir_cases u w) as [[path Hp]|[v Hp]].
  2:{ rewrite (bind_Panic _ _ _ _ _ Hp).
      split; [reflexivity |]. split; [now left | discriminate]. }
  rewrite (bind_Ret _ _ _ _ _ Hp).
  destruct (os_Open_world path w) as [[old|err] Ho];
    rewrite (bind_Ret _ _ _ _ _ Ho).
  2:{ split; [reflexivity |]. split; [now left |].
      intros v w' [= <- _]. }
  pose proof (fetchInfo_world u w) as W1.
  unfold mbind, Go_bind.
  destruct (fetchInfo u w) as [[[info [e|]]|v|c] w1] eqn:Hi;
    cbn [snd] in W1; subst w1.
  - split; [reflexivity |]. split; [now right | discriminate].
  - destruct (bool_decide_reflect (Version info = CurrentVersion u)) as [Hc|Hc].
    + split; [reflexivity |]. split; [now right |].
      intros v w' [= <- _] Hne. now elim Hne.
    + split; [reflexivity |]. split; [now right |].
      intros v w' [= <- <-] Hne. split; [exact Hc |].
      exists info. split; [reflexivity |]. split; [reflexivity |].
      eapply fetchInfo_accepts; eassumption.
  - split; [reflexivity |]. split; [now right | discriminate].
  - split; [reflexivity |]. split; [now right | discriminate].
Qed.

End UpdateMore.

(** * Further properties of the scheduler *)

(** ** Files that are written, removed and made *)

Lemma walk_insert_keep (f : gmap string Node) dirs k n :
  walk f dirs = None ->
  (forall m, f !! k <> Some (Directory m)) ->
  walk (<[k:=n]> f) dirs = None.
Proof.
  intros Hw Hk. induction dirs as [|d ds IH]; [reflexivity |].
  cbn [walk] in *.
  destruct (f !! d) as [[data m|m]|] eqn:Ed; try discriminate.
  assert (d <> k) by (intros ->; now apply (Hk m)).
  rewrite lookup_insert_ne by congruence. rewrite Ed.
  destruct (may_search m); [now apply IH | discriminate].
Qed.

Lemma fs_stat_found f path n :
  fs_stat f path = inl n ->
  path <> "" /\ walk f (walked_dirs path) = None /\
  f !! filepath_Clean path = Some n.
Proof.
  unfold fs_stat. destruct (bool_decide_reflect (path = "")); [discriminate |].
  destruct (walk f (walked_dirs path)); [discriminate |].
  destruct (f !! filepath_Clean path); [| discriminate].
  now intros [= ->].
Qed.

Lemma fs_stat_missing f path e :
  fs_stat f path = inr e -> walk f (walked_dirs path) = None -> path <> "" ->
  f !! filepath_Clean path = None.
Proof.
  unfold fs_stat. intros E Hw Hp.
  rewrite bool_decide_eq_false_2 in E by exact Hp. rewrite Hw in E.
  now destruct (f !! filepath_Clean path).
Qed.

(** What [WriteFile] wrote is what [ReadFile] reads, when the file may be
    read: a new file has the permissions asked for, an old one keeps its
    own. *)
Lemma fs_write_then_read f path data perm f' :
  fs_write f path data perm = (f', None) ->
  may_read perm = true ->
  (forall d m, f !! filepath_Clean path = Some (Regular d m) ->
               may_read m = true) ->
  fs_read f' path = inl data.
Proof.
  unfold fs_write. intros E Hperm Hold.
  destruct (fs_stat f path) as [[d m|m]|e] eqn:Es.
  - destruct (fs_stat_found _ _ _ Es) as (Hp & Hw & Hl).
    destruct (may_write m); [| discriminate]. injection E as <-.
    unfold fs_read, fs_stat. rewrite (bool_decide_eq_false_2 _ Hp).
    rewrite walk_insert_keep by (try exact Hw; intros m'; now rewrite Hl).
    rewrite lookup_insert_eq. now rewrite (Hold _ _ Hl).
  - discriminate.
  - destruct (walk f (walked_dirs path)) eqn:Hw; [discriminate |].
    destruct (bool_decide_reflect (path = "")) as [|Hp]; [discriminate |].
    pose proof (fs_stat_missing _ _ _ Es Hw Hp) as Hl.
    unfold fs_create in E.
    destruct (f !! List.last (walked_dirs path) "") as [[?|m]|];
      try discriminate.
    destruct (may_write m); [| discriminate]. injection E as <-.
    unfold fs_read, fs_stat. rewrite (bool_decide_eq_false_2 _ Hp).
    rewrite walk_insert_keep by (try exact Hw; intros m'; now rewrite Hl).
    rewrite lookup_insert_eq. now rewrite Hperm.
Qed.




Lemma only_new_dirs_refl f perm : only_new_dirs f f perm.
Proof. intros k. now left. Qed.

Lemma only_new_dirs_trans f g h perm :
  only_new_dirs f g perm -> only_new_dirs g h perm -> only_new_dirs f h perm.
Proof.
  intros H1 H2 k. destruct (H1 k) as [E1|[E1 E1']], (H2 k) as [E2|[E2 E2']].
  - left. congruence.
  - right. split; congruence.
  - right. split; congruence.
  - congruence.
Qed.

Lemma fs_mkdir_only_new_dirs f path perm f' e :
  fs_mkdir f path perm = (f', e) -> only_new_dirs f f' perm.
Proof.
  unfold fs_mkdir. intros E.
  destruct (bool_decide (path = ""));
    [injection E as <- _; apply only_new_dirs_refl |].
  destruct (walk f (walked_dirs path));
    [injection E as <- _; apply only_new_dirs_refl |].
  destruct (f !! filepath_Clean path) eqn:El;
    [injection E as <- _; apply only_new_dirs_refl |].
  unfold fs_create in E.
  destruct (f !! List.last (walked_dirs path) "") as [[?|m]|];
    try (injection E as <- _; apply only_new_dirs_refl).
  destruct (may_write m); [| injection E as <- _; apply only_new_dirs_refl].
  injection E as <- _. intros k.
  destruct (decide (k = filepath_Clean path)) as [->|Hne].
  - right. now rewrite lookup_insert_eq.
  - left. now rewrite lookup_insert_ne by congruence.
Qed.

Lemma mkdir_each_only_new_dirs dirs perm : forall f f' e,
  mkdir_each f dirs perm = (f', e) -> only_new_dirs f f' perm.
Proof.
  induction dirs as [|d ds IH]; intros f f' e E; cbn [mkdir_each] in E.
  - injection E as <- _. apply only_new_dirs_refl.
  - destruct (f !! d) as [[?|m]|].
    + injection E as <- _. apply only_new_dirs_refl.
    + eapply IH, E.
    + destruct (fs_mkdir f d perm) as [g [e'|]] eqn:Em.
      * injection E as <- _. eapply fs_mkdir_only_new_dirs, Em.
      * eapply only_new_dirs_trans;
          [eapply fs_mkdir_only_new_dirs, Em | eapply IH, E].
Qed.

Lemma fs_mkdirall_only_new_dirs f path perm f' e :
  fs_mkdirall f path perm = (f', e) -> only_new_dirs f f' perm.
Proof.
  unfold fs_mkdirall. destruct (bool_decide (path = "")).
  - intros [= <- _]. apply only_new_dirs_refl.
  - apply mkdir_each_only_new_dirs.
Qed.

Section SchedulerMore.
Context {ext : Extern}.

Lemma readTime_parsed path w p t :
  fs_read (fs w) path = inl p ->
  Parse_RFC3339 (string_of_bytes p) = inl t ->
  readTime path w = (Ret t, w).
Proof.
  intros Hr Hp. unfold readTime, mbind, Go_bind, ioutil_ReadFile.
  now rewrite Hr, Hp.
Qed.


Lemma string_of_bytes_of_string s : string_of_bytes (bytes_of_string s) = s.
Proof. apply String.string_of_list_byte_of_string. Qed.

Lemma writeTime_then_read path t w w' :
  writeTime path t w = (Ret true, w') ->
  (forall d m, fs w !! filepath_Clean path = Some (Regular d m) ->
               may_read m = true) ->
  fs_read (fs w') path = inl (bytes_of_string (Format_RFC3339 t)).
Proof.
  unfold writeTime, mbind, Go_bind, ioutil_WriteFile.
  destruct (fs_write _ _ _ _) as [f [e|]] eqn:E; cbn.
  - intros E'. now inversion E'.
  - intros [= <-] Hold. cbn [fs set_fs].
    eapply fs_write_then_read; [exact E | reflexivity | exact Hold].
Qed.

(** X11: what [writeTime] has written, [readTime] reads back: after a write
    that succeeded, on a file that may be read, [readTime] returns the
    instant that the RFC 3339 text of the written instant parses to, and
    reads no clock. *)
Theorem writeTime_then_readTime
    (path : string) (t t' : Time) (w w' : World) :
  writeTime path t w = (Ret true, w') ->
  Parse_RFC3339 (Format_RFC3339 t) = inl t' ->
  (forall d m, fs w !! filepath_Clean path = Some (Regular d m) ->
               may_read m = true) ->
  readTime path w' = (Ret t', w').
Proof.
  intros Hw Hparse Hold. eapply readTime_parsed.
  - eapply writeTime_then_read; eassumption.
  - now rewrite string_of_bytes_of_string.
Qed.





Lemma NextUpdate_resolved u w filename :
  getTargetAbsoluteDir u w = (Ret filename, w) ->
  NextUpdate u w
  = readTime (filepath_Join [filepath_Dir filename; Dir u +:+ "cktime"]) w.
Proof.
  intros Hres. unfold NextUpdate.
  now rewrite (bind_Ret _ _ _ _ _ (getExecRelativeDir_resolved u _ w _ Hres)).
Qed.


Lemma readTime_world path w :
  fs (readTime path w).2 = fs w /\ trace (readTime path w).2 = trace w /\
  rand_draws (readTime path w).2 = rand_draws w /\
  executable (readTime path w).2 = executable w.
Proof.
  unfold readTime, mbind, Go_bind, ioutil_ReadFile.
  destruct (fs_read (fs w) path) as [p|e].
  - destruct (Parse_RFC3339 (string_of_bytes p)); cbn; auto.
  - destruct (os_IsNotExist _); cbn; auto.
Qed.

(** [WantUpdate] only reads: the cooldown file and the clock. *)
Lemma WantUpdate_world u w :
  fs (WantUpdate u w).2 = fs w /\ trace (WantUpdate u w).2 = trace w /\
  rand_draws (WantUpdate u w).2 = rand_draws w /\
  executable (WantUpdate u w).2 = executable w.
Proof.
  unfold WantUpdate.
  destruct (bool_decide (CurrentVersion u = "dev")); [cbn; auto |].
  destruct (ForceCheck u); cbn [negb]; [cbn; auto |].
  destruct (getTargetAbsoluteDir_cases u w) as [[fn Hres]|[v Hres]].
  - unfold mbind, Go_bind. rewrite (NextUpdate_resolved _ _ _ Hres).
    pose proof (readTime_world
      (filepath_Join [filepath_Dir fn; Dir u +:+ "cktime"]) w) as Hw.
    destruct (readTime_returns
      (filepath_Join [filepath_Dir fn; Dir u +:+ "cktime"]) w) as (t & w1 & E).
    rewrite E in *. cbn [snd] in Hw. unfold time_Now, mret, Go_ret.
    destruct (Time_After _ _); cbn; exact Hw.
  - unfold mbind, Go_bind, NextUpdate.
    rewrite (bind_Panic _ _ _ _ _
               (getExecRelativeDir_unresolved u _ w _ _ Hres)).
    cbn; auto.
Qed.


Lemma only_new_dirs_added f f' perm :
  only_new_dirs f f' perm -> only_dirs_added f f'.
Proof. intros H k. destruct (H k) as [E | [E E']]; eauto. Qed.

Lemma os_MkdirAll_world path perm w :
  exists o, (os_MkdirAll path perm w).1 = Ret o /\
    only_new_dirs (fs w) (fs (os_MkdirAll path perm w).2) perm /\
    trace (os_MkdirAll path perm w).2 = trace w /\
    rand_draws (os_MkdirAll path perm w).2 = rand_draws w /\
    executable (os_MkdirAll path perm w).2 = executable w.
Proof.
  unfold os_MkdirAll.
  destruct (fs_mkdirall (fs w) path perm) as [f [e|]] eqn:E; cbn;
    eexists; (split; [reflexivity |]);
    (split; [eapply fs_mkdirall_only_new_dirs, E | auto]).
Qed.

(** X14: when no update is wanted, because the version is [dev] or because
    the cooldown has not ended, [BackgroundRun] returns the empty manifest
    without error, asks the requester for nothing, draws no random number,
    and leaves every file as it was: at most the state directory and its
    parents are new, whatever permissions they got. *)
Theorem BackgroundRun_idle
    (u : Updater) (w w1 w2 : World) (filename : string) :
  getTargetAbsoluteDir u w = (Ret filename, w) ->
  os_MkdirAll (filepath_Join [filepath_Dir filename; Dir u]) 0o777 w
    = (Ret None, w1) ->
  WantUpdate u w1 = (Ret false, w2) ->
  BackgroundRun u w = (Ret (Info_zero, None), w2) /\
  trace w2 = trace w /\ rand_draws w2 = rand_draws w /\
  only_dirs_added (fs w) (fs w2).
Proof.
  intros Hres Hm Hw. split.
  - unfold BackgroundRun.
    rewrite (bind_Ret _ _ _ _ _ (getExecRelativeDir_resolved u _ w _ Hres)),
      (bind_Ret _ _ _ _ _ Hm), (bind_Ret _ _ _ _ _ Hw). reflexivity.
  - destruct (os_MkdirAll_world
                (filepath_Join [filepath_Dir filename; Dir u]) 0o777 w)
      as (o & _ & Hd & Ht & Hr & _).
    rewrite Hm in *. cbn [snd] in *.
    destruct (WantUpdate_world u w1) as (Hf2 & Ht2 & Hr2 & _).
    rewrite Hw in *. cbn [snd] in *.
    repeat split; [congruence | congruence |].
    rewrite Hf2. now apply only_new_dirs_added with (perm := 0o777).
Qed.





End SchedulerMore.

(** * URLs *)

Lemma upperhex_not_sep n : is_sep (upperhex n) = false.
Proof.
  unfold upperhex. generalize (N.to_nat n). intros k.
  do 16 (destruct k as [|k]; [reflexivity |]). now destruct k.
Qed.

Lemma shouldEscape_sep c : is_sep c = true -> shouldEscape c = true.
Proof. unfold is_sep. intros ->%Ascii.eqb_eq. reflexivity. Qed.

Lemma url_QueryEscape_no_sep s : has_sep (url_QueryEscape s) = false.
Proof.
  induction s as [|c r IH]; [reflexivity |]. cbn [url_QueryEscape].
  destruct (shouldEscape c) eqn:Hc.
  - destruct (Ascii.eqb c " "); cbn [has_sep]; rewrite ?upperhex_not_sep, IH;
      reflexivity.
  - cbn [has_sep]. rewrite IH.
    destruct (is_sep c) eqn:Hs; [| reflexivity].
    rewrite (shouldEscape_sep _ Hs) in Hc. discriminate.
Qed.

Lemma upperhex_inj n m :
  (n < 16)%N -> (m < 16)%N -> upperhex n = upperhex m -> n = m.
Proof.
  intros Hn Hm E. apply N2Nat.inj.
  assert (Ha : (N.to_nat n < 16)%nat) by lia.
  assert (Hb : (N.to_nat m < 16)%nat) by lia.
  unfold upperhex in E. revert E Ha Hb.
  generalize (N.to_nat m). generalize (N.to_nat n). intros a b E Ha Hb.
  do 16 (destruct a as [|a];
         [do 16 (destruct b as [|b]; [first [reflexivity | discriminate E] |]);
          lia |]).
  lia.
Qed.

Lemma hex_digits_inj c1 c2 :
  upperhex (N.shiftr (N_of_ascii c1) 4) = upperhex (N.shiftr (N_of_ascii c2) 4) ->
  upperhex (N.land (N_of_ascii c1) 15) = upperhex (N.land (N_of_ascii c2) 15) ->
  c1 = c2.
Proof.
  intros Hhi Hlo.
  pose proof (N_ascii_bounded c1) as B1. pose proof (N_ascii_bounded c2) as B2.
  assert (S1 : forall x, N.shiftr x 4 = (x / 16)%N)
    by (intros x; now rewrite N.shiftr_div_pow2).
  assert (L1 : forall x, N.land x 15 = (x mod 16)%N)
    by (intros x; change 15%N with (N.ones 4); now rewrite N.land_ones).
  rewrite !S1 in Hhi. rewrite !L1 in Hlo.
  apply upperhex_inj in Hhi;
    [| apply N.Div0.div_lt_upper_bound; lia
     | apply N.Div0.div_lt_upper_bound; lia].
  apply upperhex_inj in Hlo; [| apply N.mod_lt; lia | apply N.mod_lt; lia].
  rewrite <- (ascii_N_embedding c1), <- (ascii_N_embedding c2). f_equal.
  rewrite (N.div_mod (N_of_ascii c1) 16), (N.div_mod (N_of_ascii c2) 16) by lia.
  now rewrite Hhi, Hlo.
Qed.

(** Two strings with the same query escape are the same string. *)
Lemma url_QueryEscape_inj a : forall b,
  url_QueryEscape a = url_QueryEscape b -> a = b.
Proof.
  induction a as [|c1 r1 IH]; intros [|c2 r2]; cbn [url_QueryEscape].
  - reflexivity.
  - destruct (shouldEscape c2); [destruct (Ascii.eqb c2 " ") |]; discriminate.
  - destruct (shouldEscape c1); [destruct (Ascii.eqb c1 " ") |]; discriminate.
  - destruct (shouldEscape c1) eqn:H1, (shouldEscape c2) eqn:H2.
    + destruct (Ascii.eqb c1 " ") eqn:S1, (Ascii.eqb c2 " ") eqn:S2.
      * apply Ascii.eqb_eq in S1, S2. intros [= E]. subst.
        f_equal. now apply IH.
      * discriminate.
      * discriminate.
      * intros [= Hhi Hlo E]. f_equal; [| now apply IH].
        now apply hex_digits_inj.
    + destruct (Ascii.eqb c1 " "); intros [= <- E]; discriminate H2.
    + destruct (Ascii.eqb c2 " "); intros [= -> E]; discriminate H1.
    + intros [= -> E]. f_equal. now apply IH.
Qed.

Lemma string_app_inv_head (p x y : string) : p +:+ x = p +:+ y -> x = y.
Proof.
  induction p as [|c p IH]; [trivial |]. cbn. intros [= E]. now apply IH.
Qed.

(** Where neither [a] nor [a'] holds a slash, the first slash splits. *)
Lemma split_at_first_sep a : forall a' r r',
  has_sep a = false -> has_sep a' = false ->
  a +:+ "/" +:+ r = a' +:+ "/" +:+ r' -> a = a' /\ r = r'.
Proof.
  induction a as [|c a IH]; intros [|c' a'] r r' Ha Ha'; simpl.
  - intros [= E]. now split.
  - intros [= <- _]. simpl in Ha'. discriminate.
  - intros [= -> _]. simpl in Ha. discriminate.
  - intros [= -> E]. simpl in Ha, Ha'.
    apply orb_false_iff in Ha as [_ Ha]. apply orb_false_iff in Ha' as [_ Ha'].
    destruct (IH a' r r' Ha Ha' E) as [-> ->]. now split.
Qed.

Section Urls.
Context {ext : Extern}.

(** X17: the URLs name what is fetched without ambiguity.  Under one
    [DiffURL], two patch URLs are equal only for the same command name, the
    same current version and the same new version; under one [BinURL], two
    full-binary URLs are equal only for the same command name and version;
    under one [ApiURL], two manifest URLs only for the same command name.
    No name or version can slip a path separator into its URL. *)
Theorem urls_name_one_release (u u' : Updater) (info info' : Info) :
  (DiffURL u = DiffURL u' -> patch_url u info = patch_url u' info' ->
   CmdName u = CmdName u' /\ CurrentVersion u = CurrentVersion u' /\
   Version info = Version info') /\
  (BinURL u = BinURL u' -> bin_url u info = bin_url u' info' ->
   CmdName u = CmdName u' /\ Version info = Version info') /\
  (ApiURL u = ApiURL u' -> manifest_url u = manifest_url u' ->
   CmdName u = CmdName u') /\
  has_sep (url_QueryEscape (CmdName u)) = false /\
  has_sep (url_QueryEscape (CurrentVersion u)) = false /\
  has_sep (url_QueryEscape (Version info)) = false.
Proof.
  pose proof url_QueryEscape_no_sep as N.
  split; [| split; [| split; [| repeat split; apply N]]].
  - intros Hb E. unfold patch_url in E. rewrite Hb in E.
    apply string_app_inv_head in E.
    apply split_at_first_sep in E as [E1 E]; try apply N.
    apply split_at_first_sep in E as [E2 E]; try apply N.
    apply split_at_first_sep in E as [E3 _]; try apply N.
    repeat split; now apply url_QueryEscape_inj.
  - intros Hb E. unfold bin_url in E. rewrite Hb in E.
    apply string_app_inv_head in E.
    apply split_at_first_sep in E as [E1 E]; try apply N.
    apply split_at_first_sep in E as [E2 _]; try apply N.
    split; now apply url_QueryEscape_inj.
  - intros Hb E. unfold manifest_url in E. rewrite Hb in E.
    apply string_app_inv_head in E.
    apply split_at_first_sep in E as [E1 _]; try apply N.
    now apply url_QueryEscape_inj.
Qed.

End Urls.

(** * Paths *)

Lemma string_app_nil (b : string) : "" +:+ b = b.
Proof. reflexivity. Qed.

Lemma string_app_cons c (a b : string) : String c a +:+ b = String c (a +:+ b).
Proof. reflexivity. Qed.

Lemma string_app_assoc (a b c : string) : (a +:+ b) +:+ c = a +:+ b +:+ c.
Proof.
  induction a as [|x a IH]; [reflexivity |].
  now rewrite !string_app_cons, IH.
Qed.

Lemma string_app_length (a b : string) :
  String.length (a +:+ b) = (String.length a + String.length b)%nat.
Proof.
  induction a as [|x a IH]; [reflexivity |].
  rewrite string_app_cons. simpl. now rewrite IH.
Qed.

Lemma has_sep_app a b : has_sep (a +:+ b) = has_sep a || has_sep b.
Proof.
  induction a as [|x a IH]; [reflexivity |].
  rewrite string_app_cons. simpl. now rewrite IH, orb_assoc.
Qed.

Lemma split_sep_cons s : exists x xs, split_sep s = x :: xs.
Proof.
  induction s as [|c r (x & xs & IH)]; simpl; [now eexists _, _ |].
  destruct (is_sep c); [now eexists _, _ |]. rewrite IH. now eexists _, _.
Qed.

Lemma split_sep_app a b :
  split_sep (a +:+ "/" +:+ b) = split_sep a ++ split_sep b.
Proof.
  induction a as [|c a IH]; [reflexivity |].
  rewrite string_app_cons. simpl.
  destruct (is_sep c); [now rewrite IH |].
  rewrite IH. destruct (split_sep_cons a) as (x & xs & ->). reflexivity.
Qed.

Lemma split_sep_name e : has_sep e = false -> split_sep e = [e].
Proof.
  induction e as [|c e IH]; simpl; [reflexivity |].
  intros [Hc He]%orb_false_iff. rewrite Hc, (IH He). reflexivity.
Qed.

Lemma clean_elems_app rooted xs : forall st,
  exists st', forall ys,
    clean_elems rooted st (xs ++ ys) = clean_elems rooted st' ys.
Proof.
  induction xs as [|x xs IH]; intros st; [now exists st |].
  simpl. destruct (bool_decide (x = "" \/ x = ".")); [apply IH |].
  destruct (bool_decide (x = "..")); [| apply IH].
  destruct st as [|top below]; [destruct rooted; apply IH |].
  destruct (bool_decide (top = "..")); apply IH.
Qed.

Lemma clean_elems_name rooted st e :
  is_name e -> clean_elems rooted st [e] = rev st ++ [e].
Proof.
  intros (_ & H0 & H1 & H2). simpl.
  rewrite bool_decide_eq_false_2 by (intros [?|?]; contradiction).
  rewrite bool_decide_eq_false_2 by assumption. reflexivity.
Qed.

Lemma concat_snoc l e :
  exists a, ends_dir a /\ String.concat "/" (l ++ [e]) = a +:+ e.
Proof.
  induction l as [|x l (a & Ha & IH)]; [exists ""; split; [now left | reflexivity] |].
  exists (x +:+ "/" +:+ a). split.
  - right. destruct Ha as [-> | [a0 ->]].
    + exists x. reflexivity.
    + exists (x +:+ "/" +:+ a0). now rewrite !string_app_assoc.
  - change ((x :: l) ++ [e]) with (x :: (l ++ [e])).
    destruct (l ++ [e]) as [|y ys] eqn:E; [now destruct l |].
    change (String.concat "/" (x :: y :: ys))
      with (x +:+ "/" +:+ String.concat "/" (y :: ys)).
    rewrite IH. now rewrite !string_app_assoc.
Qed.

Lemma render_snoc rooted l e :
  exists a, ends_dir a /\ render rooted (l ++ [e]) = a +:+ e.
Proof.
  destruct (concat_snoc l e) as (a & Ha & E). unfold render.
  destruct rooted.
  - exists ("/" +:+ a). split; [| now rewrite E].
    right. destruct Ha as [-> | [a0 ->]]; [now exists "" | now exists ("/" +:+ a0)].
  - exists a. split; [assumption |].
    destruct (l ++ [e]) eqn:E'; [now destruct l | assumption].
Qed.

(** Cleaning keeps a last element that is a name. *)
Lemma filepath_Clean_snoc a e :
  ends_dir a -> is_name e ->
  exists a', ends_dir a' /\ filepath_Clean (a +:+ e) = a' +:+ e.
Proof.
  intros Ha He. unfold filepath_Clean, path_elems.
  generalize (is_rooted (a +:+ e)). intros r.
  destruct Ha as [-> | [a0 ->]].
  - rewrite string_app_nil, (split_sep_name e) by apply He.
    rewrite clean_elems_name by assumption. apply render_snoc.
  - rewrite string_app_assoc, split_sep_app, (split_sep_name e) by apply He.
    destruct (clean_elems_app r (split_sep a0) []) as [st' ->].
    rewrite clean_elems_name by assumption. apply render_snoc.
Qed.

Lemma filepath_Join_snoc e : is_name e -> forall l,
  exists a, ends_dir a /\ filepath_Join (l ++ [e]) = a +:+ e.
Proof.
  intros He. induction l as [|x l IH].
  - simpl. rewrite bool_decide_eq_false_2 by apply He.
    apply (filepath_Clean_snoc "" e); [now left | assumption].
  - change ((x :: l) ++ [e]) with (x :: (l ++ [e])).
    cbn [filepath_Join]. destruct (bool_decide (x = "")); [apply IH |].
    destruct (concat_snoc (x :: l) e) as (a & Ha & E).
    change ((x :: l) ++ [e]) with (x :: (l ++ [e])) in E. rewrite E.
    now apply filepath_Clean_snoc.
Qed.

Lemma ends_dir_tail c a : ends_dir (String c a) -> ends_dir a.
Proof.
  intros [E | [[|c0 a0] E]]; [discriminate | |].
  - rewrite string_app_nil in E. injection E as _ ->. now left.
  - rewrite string_app_cons in E. injection E as _ ->. right. now exists a0.
Qed.

Lemma ends_dir_has_sep c a y : ends_dir (String c a) -> has_sep (String c a +:+ y) = true.
Proof.
  intros [E | [a0 E]]; [discriminate |]. rewrite E, string_app_assoc, !has_sep_app.
  simpl. now rewrite orb_true_r.
Qed.

(** What follows the last separator is the same in equal strings. *)
Lemma last_name_eq a : forall b x y,
  ends_dir a -> ends_dir b -> has_sep x = false -> has_sep y = false ->
  a +:+ x = b +:+ y -> x = y.
Proof.
  induction a as [|c a IH]; intros [|d b] x y Ha Hb Hx Hy E.
  - assumption.
  - rewrite string_app_nil in E. rewrite E in Hx.
    now rewrite ends_dir_has_sep in Hx.
  - rewrite string_app_nil in E. rewrite <- E in Hy.
    now rewrite ends_dir_has_sep in Hy.
  - rewrite !string_app_cons in E. injection E as _ E.
    apply (IH b x y); try assumption;
      [apply (ends_dir_tail c), Ha | apply (ends_dir_tail d), Hb].
Qed.

(** Two joined paths whose last elements are different names are different
    keys of the file system. *)
Lemma key_last_name l l' e e' :
  is_name e -> is_name e' -> e <> e' ->
  filepath_Clean (filepath_Join (l ++ [e]))
  <> filepath_Clean (filepath_Join (l' ++ [e'])).
Proof.
  intros He He' Hne E.
  destruct (filepath_Join_snoc e He l) as (a & Ha & Ea).
  destruct (filepath_Join_snoc e' He' l') as (b & Hb & Eb).
  rewrite Ea, Eb in E.
  destruct (filepath_Clean_snoc a e Ha He) as (a' & Ha' & Ea').
  destruct (filepath_Clean_snoc b e' Hb He') as (b' & Hb' & Eb').
  rewrite Ea', Eb' in E.
  apply Hne. apply (last_name_eq a' b' e e' Ha' Hb'); [apply He | apply He' | exact E].
Qed.

Lemma is_name_ext p s :
  has_sep p = false -> has_sep s = false -> (3 <= String.length s)%nat ->
  is_name (p +:+ s).
Proof.
  intros Hp Hs Hl. split; [now rewrite has_sep_app, Hp, Hs |].
  repeat split; intros E; apply (f_equal String.length) in E;
    rewrite string_app_length in E; simpl in E; lia.
Qed.

(** * The builder *)

Lemma bind_Ret_inv {A B} (m : Go A) (k : A -> Go B) w b w' :
  (m ≫= k) w = (Ret b, w') ->
  exists a w1, m w = (Ret a, w1) /\ k a w1 = (Ret b, w').
Proof.
  unfold mbind, Go_bind. destruct (m w) as [[a|v|c] w1]; try discriminate.
  intros E. now exists a, w1.
Qed.

Lemma keeps_ret {A} k n (a : A) : keeps k n (mret a).
Proof. now intros w H. Qed.

Lemma keeps_panic {A} k n v : keeps k n (@panic A v).
Proof. now intros w H. Qed.

Lemma keeps_Exit {A} k n c : keeps k n (@os_Exit A c).
Proof. now intros w H. Qed.

Lemma keeps_bind {A B} k n (m : Go A) (f : A -> Go B) :
  keeps k n m -> (forall a, keeps k n (f a)) -> keeps k n (m ≫= f).
Proof.
  intros Hm Hf w H. unfold mbind, Go_bind.
  specialize (Hm w H). destruct (m w) as [[a|v|c] w1]; try exact Hm.
  now apply Hf.
Qed.

Lemma keeps_Println k n text err : keeps k n (fmt_Println text err).
Proof. now intros w H. Qed.

Lemma keeps_Fprintf k n text err : keeps k n (fmt_Fprintf_Stderr text err).
Proof. now intros w H. Qed.

Lemma keeps_ReadFile k n path : keeps k n (ioutil_ReadFile path).
Proof.
  intros w H. unfold ioutil_ReadFile. now destruct (fs_read (fs w) path).
Qed.

Lemma keeps_ReadDir k n path : keeps k n (ioutil_ReadDir path).
Proof.
  intros w H. unfold ioutil_ReadDir. now destruct (fs_readdir (fs w) path).
Qed.

Lemma keeps_Open k n path : keeps k n (os_Open path).
Proof. intros w H. destruct (os_Open_world path w) as [r ->]. exact H. Qed.

Lemma only_new_dirs_keeps f f' perm k n :
  only_new_dirs f f' perm -> f !! k = Some n -> f' !! k = Some n.
Proof. intros O H. destruct (O k) as [E | [E _]]; congruence. Qed.

Lemma keeps_MkdirAll k n path perm : keeps k n (os_MkdirAll path perm).
Proof.
  intros w H. unfold os_MkdirAll.
  destruct (fs_mkdirall (fs w) path perm) as [f' e] eqn:E.
  apply fs_mkdirall_only_new_dirs in E.
  destruct e; simpl; eapply only_new_dirs_keeps; eauto.
Qed.

Lemma keeps_Mkdir k n path perm : keeps k n (os_Mkdir path perm).
Proof.
  intros w H. unfold os_Mkdir.
  destruct (fs_mkdir (fs w) path perm) as [f' e] eqn:E.
  apply fs_mkdir_only_new_dirs in E.
  destruct e; simpl; eapply only_new_dirs_keeps; eauto.
Qed.

(** [WriteFile] changes the node of its own path at most. *)
Lemma fs_write_frame f path data perm f' e k :
  fs_write f path data perm = (f', e) -> k <> filepath_Clean path ->
  f' !! k = f !! k.
Proof.
  unfold fs_write, fs_create. intros E Hk.
  repeat match type of E with
         | context [match ?x with _ => _ end] => destruct x
         | context [if ?x then _ else _] => destruct x
         end;
    injection E as <- _; rewrite ?lookup_insert_ne by congruence; reflexivity.
Qed.

Lemma keeps_WriteFile k n path data perm :
  k <> filepath_Clean path -> keeps k n (ioutil_WriteFile path data perm).
Proof.
  intros Hk w H. unfold ioutil_WriteFile.
  destruct (fs_write (fs w) path data perm) as [f' e] eqn:E.
  apply fs_write_frame with (k := k) in E; [| assumption].
  destruct e; simpl; congruence.
Qed.


Section BuilderProps.
Context {ext : Extern}.

Lemma keeps_newGzReader k n r : keeps k n (newGzReader r).
Proof. intros w H. unfold newGzReader. now destruct (gzip_NewReader r). Qed.

(** The patch loop leaves alone whatever its patch files do not overwrite. *)
Lemma keeps_CreateUpdate_range k n version platform genDir files :
  (forall d, k <> filepath_Clean
                    (filepath_Join [genDir; d; Version version; platform])) ->
  keeps k n (CreateUpdate_range version platform genDir files).
Proof.
  intros Hk. induction files as [|file rest IH]; [apply keeps_ret |].
  cbn [CreateUpdate_range].
  destruct (negb (IsDir file)); [exact IH |].
  destruct (bool_decide (Name file = Version version)); [exact IH |].
  apply keeps_bind; [apply keeps_Mkdir | intros _].
  apply keeps_bind; [apply keeps_Open | intros [old | _]]; [| exact IH].
  apply keeps_bind; [apply keeps_Open | intros [newF | err]].
  - apply keeps_bind; [apply keeps_newGzReader | intros ar].
    apply keeps_bind; [apply keeps_newGzReader | intros br].
    destruct (binarydist_Diff ar br) as [patch | err]; [| apply keeps_panic].
    apply keeps_bind; [apply keeps_WriteFile, Hk | intros _]. exact IH.
  - apply keeps_bind; [apply keeps_Fprintf | intros _]. apply keeps_Exit.
Qed.

Lemma GenerateSha256_readable path w src :
  fs_read (fs w) path = inl src ->
  GenerateSha256 path w = (Ret (sha256_Sum src), w).
Proof.
  intros E. unfold GenerateSha256, mbind, Go_bind, ioutil_ReadFile.
  now rewrite E.
Qed.

Lemma GenerateSha256_unreadable path w e :
  fs_read (fs w) path = inr e ->
  GenerateSha256 path w
  = (Ret (sha256_Sum []),
     record (Printed "" (Some (PathError "open" path e))) w).
Proof.
  intros E. unfold GenerateSha256, mbind, Go_bind, ioutil_ReadFile.
  now rewrite E.
Qed.

(** The names of the manifest and of the archive are names, and differ from
    each other and from the name of a patch. *)
Lemma manifest_key_apart platform genDir :
  is_name platform ->
  (forall l, filepath_Clean (filepath_Join [genDir; platform +:+ ".json"])
             <> filepath_Clean (filepath_Join (l ++ [platform +:+ ".gz"]))) /\
  (forall l, filepath_Clean (filepath_Join [genDir; platform +:+ ".json"])
             <> filepath_Clean (filepath_Join (l ++ [platform]))).
Proof.
  intros Hp. pose proof Hp as (Hs & _).
  assert (Hj : is_name (platform +:+ ".json"))
    by (apply is_name_ext; [assumption | reflexivity | simpl; lia]).
  assert (Hg : is_name (platform +:+ ".gz"))
    by (apply is_name_ext; [assumption | reflexivity | simpl; lia]).
  split; intros l.
  - apply (key_last_name [genDir] l); try assumption.
    intros E%string_app_inv_head. discriminate.
  - apply (key_last_name [genDir] l); try assumption.
    intros E%(f_equal String.length). rewrite string_app_length in E.
    simpl in E. lia.
Qed.

Lemma CreateUpdate_manifest_kept
    (version : Info) (path platform genDir : string)
    (pk : option rsa_PrivateKey) (src : bytes) (w w' : World) :
  is_name platform ->
  fs_read (fs w) path = inl src ->
  CreateUpdate version path platform genDir pk w = (Ret tt, w') ->
  exists c mode,
    signed_Info version (sha256_Sum src) pk = inl c /\
    fs w' !! filepath_Clean (filepath_Join [genDir; platform +:+ ".json"])
      = Some (Regular (json_MarshalIndent c).1 mode).
Proof.
  intros Hp Hsrc H. unfold CreateUpdate in H.
  rewrite (bind_Ret _ _ _ _ _ (GenerateSha256_readable _ _ _ Hsrc)) in H.
  apply bind_Ret_inv in H as (c & w1 & Hc & H).
  assert (Hsig : signed_Info version (sha256_Sum src) pk = inl c /\ w1 = w).
  { unfold signed_Info. destruct pk as [key|].
    - destruct (rsa_SignPKCS1v15 key (sha256_Sum src)); [| discriminate].
      now injection Hc as <- <-.
    - now injection Hc as <- <-. }
  destruct Hsig as [Hsig ->]. exists c.
  destruct (json_MarshalIndent c) as [b merr].
  apply bind_Ret_inv in H as ([] & w2 & Hpr & H).
  apply bind_Ret_inv in H as (err & w3 & Hw & H).
  destruct err as [e|]; [discriminate |].
  unfold ioutil_WriteFile in Hw.
  destruct (fs_write (fs w2) (filepath_Join [genDir; platform +:+ ".json"])
              b 0o755) as [f1 [e|]] eqn:Ew; [discriminate |].
  injection Hw as <-.
  destruct (fs_write_ok _ _ _ _ _ Ew) as [mode Hm]. exists mode.
  split; [exact Hsig |].
  destruct (manifest_key_apart platform genDir Hp) as [Kgz Kpatch].
  match type of H with
  | ?rest _ = _ =>
      assert (K : keeps (filepath_Clean
                           (filepath_Join [genDir; platform +:+ ".json"]))
                    (Regular b mode) rest)
  end.
  { apply keeps_bind; [apply keeps_MkdirAll | intros _].
    apply keeps_bind; [apply keeps_ReadFile | intros [f|e]];
      [| apply keeps_panic].
    apply keeps_bind;
      [apply keeps_WriteFile, (Kgz [genDir; Version version]) | intros _].
    apply keeps_bind; [apply keeps_ReadDir | intros r].
    apply keeps_bind.
    - destruct r; [apply keeps_ret |].
      apply keeps_bind; [apply keeps_Println | intros; apply keeps_ret].
    - intros files. apply keeps_CreateUpdate_range.
      intros d. apply (Kpatch [genDir; d; Version version]). }
  specialize (K (set_fs f1 w2) Hm). rewrite H in K. exact K.
Qed.

(** X18: when [CreateUpdate] returns normally for a source it could read and
    a platform that is a plain name, the manifest [<genDir>/<platform>.json]
    holds the encoding of the entry for this version with the SHA-256 of
    the source, signed when a key was given: neither the archive nor any
    patch written afterwards takes its place. *)
Theorem CreateUpdate_leaves_manifest
    (version : Info) (path platform genDir : string)
    (pk : option rsa_PrivateKey) (src : bytes) (w w' : World) :
  is_name platform ->
  fs_read (fs w) path = inl src ->
  CreateUpdate version path platform genDir pk w = (Ret tt, w') ->
  exists c mode,
    signed_Info version (sha256_Sum src) pk = inl c /\
    fs w' !! filepath_Clean (filepath_Join [genDir; platform +:+ ".json"])
      = Some (Regular (json_MarshalIndent c).1 mode).
Proof. apply CreateUpdate_manifest_kept. Qed.

(** X19: what the builder publishes, the updater accepts.  When
    [CreateUpdate] has returned normally and a requester serves the bytes
    of [<genDir>/<platform>.json] under the manifest URL, then, with a JSON
    codec that decodes what it encoded and a 32-byte SHA-256,
    [GetNextVersion] returns without error the entry of the published
    version, with the hash of the source the builder read. *)
Theorem published_manifest_is_accepted
    (version : Info) (path platform genDir : string)
    (pk : option rsa_PrivateKey) (src : bytes) (wb wb' : World)
    (body : bytes) (mode : Z) (u : Updater) (rq : Fetch) (w : World) :
  is_name platform ->
  fs_read (fs wb) path = inl src ->
  CreateUpdate version path platform genDir pk wb = (Ret tt, wb') ->
  fs wb' !! filepath_Clean (filepath_Join [genDir; platform +:+ ".json"])
    = Some (Regular body mode) ->
  (forall c, signed_Info version (sha256_Sum src) pk = inl c ->
             json_Decode (ReaderOf (json_MarshalIndent c).1) = inl c) ->
  length (sha256_Sum src) = 32%nat ->
  Requester u = Some rq ->
  rq (trace w) (manifest_url u) = (Some (ReaderOf body), None) ->
  exists c,
    signed_Info version (sha256_Sum src) pk = inl c /\
    Version c = Version version /\ Sha256 c = sha256_Sum src /\
    GetNextVersion u w
      = (Ret (c, None), record (Fetched (manifest_url u)) w).
Proof.
  intros Hp Hsrc Hrun Hbody Hcodec Hlen Hrq Hserve.
  destruct (CreateUpdate_manifest_kept _ _ _ _ _ _ _ _ Hp Hsrc Hrun)
    as (c & mode' & Hc & Hm).
  rewrite Hbody in Hm. injection Hm as -> _.
  exists c. split; [exact Hc |].
  assert (Hv : Version c = Version version /\ Sha256 c = sha256_Sum src).
  { unfold signed_Info in Hc. destruct pk as [key|].
    - destruct (rsa_SignPKCS1v15 key (sha256_Sum src)); [| discriminate].
      now injection Hc as <-.
    - now injection Hc as <-. }
  destruct Hv as [Hv Hs]. split; [exact Hv |]. split; [exact Hs |].
  unfold GetNextVersion, fetchInfo, fetch, call_Fetch, mbind, Go_bind.
  rewrite Hrq, Hserve.
  cbn [deref mret Go_ret]. rewrite (Hcodec c Hc), Hs, Hlen.
  rewrite andb_comm. reflexivity.
Qed.



(** X21: a key that fails to sign stops [CreateUpdate] before it writes:
    the call panics with the signing error and no file has changed. *)
Theorem CreateUpdate_signing_failure_writes_nothing
    (version : Info) (path platform genDir : string)
    (k : rsa_PrivateKey) (err : error) (w : World) :
  rsa_SignPKCS1v15 k
    (sha256_Sum match fs_read (fs w) path with inl b => b | inr _ => [] end)
    = inr err ->
  (CreateUpdate version path platform genDir (Some k) w).1 = Panic err /\
  fs (CreateUpdate version path platform genDir (Some k) w).2 = fs w.
Proof.
  intros Hs. unfold CreateUpdate.
  destruct (fs_read (fs w) path) as [src | e] eqn:E.
  - rewrite (bind_Ret _ _ _ _ _ (GenerateSha256_readable _ _ _ E)).
    unfold mbind, Go_bind. now rewrite Hs.
  - rewrite (bind_Ret _ _ _ _ _ (GenerateSha256_unreadable _ _ _ E)).
    unfold mbind, Go_bind. now rewrite Hs.
Qed.

End BuilderProps.

(** * The command-line tools *)

Section CliProps.
Context {ext : Extern} {keys : ExternKeys}.

Lemma ioutil_ReadFile_world path w :
  exists r, ioutil_ReadFile path w = (Ret r, w).
Proof.
  unfold ioutil_ReadFile. destruct (fs_read (fs w) path); now eexists.
Qed.

Lemma validatePrivateKey_world fl w :
  exists r, Cobra.validatePrivateKey fl w = (Ret r, w).
Proof.
  unfold Cobra.validatePrivateKey.
  destruct (bool_decide (Cobra.keyFile fl = "")); [now eexists |].
  destruct (ioutil_ReadFile_world (Cobra.keyFile fl) w) as [r E].
  rewrite (bind_Ret _ _ _ _ _ E).
  destruct r as [content | err]; [| now eexists].
  destruct (Cobra.parseRsaPrivateKeyFromPemStr content) as [key [err|]];
    now eexists.
Qed.

(** X22: the cobra tool never reports a key it could not use.  When the
    file given with [--key] cannot be read or holds no key, the whole run
    is the run without [--key]: the same files are written, unsigned, and
    the same result is returned. *)
Theorem Cobra_unusable_key_is_ignored
    (fl : Cobra.Flags) (args : list string) (w : World) (e : error) :
  (Cobra.validatePrivateKey fl w).1 = Ret (None, Some e) ->
  Cobra.rootCmd_Execute fl args w
  = Cobra.rootCmd_Execute
      (Cobra.mkFlags "" (Cobra.outputDir fl) (Cobra.platform fl)) args w.
Proof.
  intros H. destruct (validatePrivateKey_world fl w) as [r E].
  rewrite E in H. cbn [fst] in H. injection H as ->.
  destruct args as [|appPath [|appVersion [|? ?]]]; try reflexivity.
  assert (Hpre : Cobra.PreRunE fl w
                 = Cobra.PreRunE
                     (Cobra.mkFlags "" (Cobra.outputDir fl) (Cobra.platform fl))
                     w).
  { unfold Cobra.PreRunE. rewrite (bind_Ret _ _ _ _ _ E). reflexivity. }
  unfold Cobra.rootCmd_Execute. unfold mbind at 1 3, Go_bind at 1 3.
  rewrite Hpre. reflexivity.
Qed.

(** X23: the [flag] tool cannot run without [-k].  With the flag left at
    its default, the empty name, and two positional arguments or more,
    [main] panics on reading the key file: nothing is published, no
    directory is made, nothing is printed. *)
Theorem FlagMain_needs_key_file
    (fl : FlagMain.Flags) (args : list string) (w : World) :
  FlagMain.keyFileFlag fl = "" ->
  (2 <= length args)%nat ->
  FlagMain.main fl args w = (Panic (PathError "open" "" ENOENT), w).
Proof.
  intros Hk Hn. unfold FlagMain.main.
  rewrite bool_decide_eq_false_2 by lia. rewrite Hk. reflexivity.
Qed.

End CliProps.

(** * The path of the executable *)

Section Unresolved.
Context {ext : Extern}.

(** X24: when no [Target] is set and [osext.Executable] fails, every method
    that needs the path panics with that error before it does anything:
    [BackgroundRun], [Update], [UpdateAvailable], [NextUpdate],
    [SetUpdateTime] and [ClearUpdateState].  [WantUpdate] panics too, but
    only when it has to read the cooldown: it still answers false for the
    version [dev] and true under [ForceCheck]. *)
Theorem unresolved_executable_panics (u : Updater) (w : World) (err : error) :
  Target u = "" ->
  executable w = inr err ->
  BackgroundRun u w = (Panic err, w) /\
  Update u w = (Panic err, w) /\
  UpdateAvailable u w = (Panic err, w) /\
  NextUpdate u w = (Panic err, w) /\
  SetUpdateTime u w = (Panic err, w) /\
  ClearUpdateState u w = (Panic err, w) /\
  (CurrentVersion u = "dev" -> WantUpdate u w = (Ret false, w)) /\
  (CurrentVersion u <> "dev" -> ForceCheck u = true ->
   WantUpdate u w = (Ret true, w)) /\
  (CurrentVersion u <> "dev" -> ForceCheck u = false ->
   WantUpdate u w = (Panic err, w)).
Proof.
  intros Ht He.
  assert (Hres : getTargetAbsoluteDir u w = (Panic err, w)).
  { unfold getTargetAbsoluteDir. rewrite bool_decide_eq_true_2 by assumption.
    unfold mbind, Go_bind, osext_Executable. now rewrite He. }
  assert (Hrel : forall dir, getExecRelativeDir u dir w = (Panic err, w)).
  { intros dir. now apply getExecRelativeDir_unresolved. }
  assert (Hnext : NextUpdate u w = (Panic err, w)).
  { unfold NextUpdate. now rewrite (bind_Panic _ _ _ _ _ (Hrel _)). }
  repeat split.
  - unfold BackgroundRun. now rewrite (bind_Panic _ _ _ _ _ (Hrel _)).
  - unfold Update. now rewrite (bind_Panic _ _ _ _ _ Hres).
  - unfold UpdateAvailable. now rewrite (bind_Panic _ _ _ _ _ Hres).
  - exact Hnext.
  - unfold SetUpdateTime. now rewrite (bind_Panic _ _ _ _ _ (Hrel _)).
  - unfold ClearUpdateState. now rewrite (bind_Panic _ _ _ _ _ (Hrel _)).
  - intros Hd. unfold WantUpdate.
    rewrite bool_decide_eq_true_2 by assumption. reflexivity.
  - intros Hd Hf. unfold WantUpdate.
    rewrite bool_decide_eq_false_2 by assumption. rewrite Hf. reflexivity.
  - intros Hd Hf. unfold WantUpdate.
    rewrite bool_decide_eq_false_2 by assumption. rewrite Hf. cbn [negb].
    apply bind_Panic. now apply bind_Panic.
Qed.

End Unresolved.

(** * The delta update *)

Section DeltaUpdate.
Context {ext : Extern}.

(** X25: the delta update.  When the requester answers the patch URL with a
    reader, [binarydist.Patch] turns the old binary and that reader into
    bytes without error, and these bytes have the hash of the manifest and
    pass the signature check, then [Update] hands exactly these bytes to
    [up.FromStream] and never asks for the full binary: the manifest and
    the patch are the only fetches, nothing is logged, and the manifest is
    returned when [up.FromStream] reports no error. *)
Theorem Update_installs_verified_patch
    (u : Updater) (w w1 : World) (path : string) (old r : Reader)
    (info : Info) (rq : Fetch) (bin : bytes) :
  getTargetAbsoluteDir u w = (Ret path, w) ->
  os_Open path w = (Ret (inl old), w) ->
  fetchInfo u w = (Ret (info, None), w1) ->
  Version info <> "" -> Version info <> CurrentVersion u ->
  ~ (PublicKey u <> None /\ Signature info = None) ->
  Requester u = Some rq ->
  rq (trace w1) (patch_url u info) = (Some r, None) ->
  binarydist_Patch old r = (bin, None) ->
  verifySha bin (Sha256 info) = true ->
  verifySignature (PublicKey u) bin (Signature info) = true ->
  let w2 := record (Fetched (patch_url u info)) w1 in
  trace (Update u w).2
    = trace w ++ [Fetched (manifest_url u); Fetched (patch_url u info)] /\
  fs (Update u w).2 = (up_FromStream_on bin w2).1 /\
  ((up_FromStream_on bin w2).2 = (None, None) ->
   (Update u w).1 = Ret (info, None)).
Proof.
  intros Hp Ho Hi Hv Hc Hs Hrq Hserve Hpatch Hsha Hsig w2.
  assert (Hpv : fetchAndVerifyPatch u info old w1 = (Ret (bin, None), w2)).
  { unfold fetchAndVerifyPatch, fetchAndApplyPatch, fetch, call_Fetch,
      mbind, Go_bind.
    rewrite Hrq, Hserve. cbn [deref mret Go_ret].
    rewrite Hpatch, Hsha, Hsig. reflexivity. }
  assert (HU : Update u w = Update_install info bin w2).
  { unfold Update.
    rewrite (bind_Ret _ _ _ _ _ Hp), (bind_Ret _ _ _ _ _ Ho),
      (bind_Ret _ _ _ _ _ Hi), (bool_decide_eq_false_2 _ Hv),
      (bool_decide_eq_false_2 _ Hc), (bool_decide_eq_false_2 _ Hs),
      (bind_Ret _ _ _ _ _ Hpv). reflexivity. }
  rewrite HU. split; [| split].
  - rewrite Update_install_trace. subst w2. cbn [trace record].
    pose proof (fetchInfo_trace u w) as T. rewrite Hi in T. cbn [snd] in T.
    rewrite T, <- app_assoc. reflexivity.
  - now rewrite Update_install_world.
  - intros Hup. unfold Update_install, up_FromStream, mbind, Go_bind.
    destruct (up_FromStream_on bin w2) as [f errs]. cbn in Hup. subst errs.
    reflexivity.
Qed.

End DeltaUpdate.

(** * Runs of the further properties *)

Section RunsMore.
Import Standin StandinMore.
#[local] Existing Instance packages.

Lemma from_fst {A B} (p : A * B) (a : A) : p.1 = a -> p = (a, p.2).
Proof. destruct p. simpl. now intros ->. Qed.

Lemma Update_success_means_verified_install_witness :
  exists bin w1 w2,
    fetchInfo no_diff_url first_run = (Ret (info13, None), w1) /\
    Version info13 <> CurrentVersion no_diff_url /\
    length (Sha256 info13) = 32%nat /\
    (PublicKey no_diff_url <> None -> Signature info13 <> None) /\
    fs w2 = fs first_run /\
    verifySha bin (Sha256 info13) = true /\
    verifySignature (PublicKey no_diff_url) bin (Signature info13) = true /\
    up_FromStream_on bin w2
      = (fs (Update no_diff_url first_run).2, (None, None)).
Proof.
  apply (Update_success_means_verified_install (ext:=packages)
           no_diff_url first_run (Update no_diff_url first_run).2 info13).
  - apply from_fst. vm_compute. reflexivity.
  - discriminate.
Defined.

Lemma Update_error_returns_empty_Info_witness :
  exists e w',
    Update no_diff_url_404 first_run = (Ret (Info_zero, Some e), w').
Proof.
  assert (H : exists i e w',
             Update no_diff_url_404 first_run = (Ret (i, Some e), w')).
  { eexists _, _, _. apply from_fst. vm_compute. reflexivity. }
  destruct H as (i & e & w' & H).
  rewrite (Update_error_returns_empty_Info (ext:=packages) _ _ _ _ _ H) in H.
  now exists e, w'.
Defined.

Lemma Update_nothing_to_install_witness :
  Update serves_empty first_run
  = (Ret (Info_zero, None), record (Fetched (manifest_url serves_empty)) first_run).
Proof.
  apply (Update_nothing_to_install (ext:=packages) serves_empty first_run
           (record (Fetched api_json) first_run) "/opt/app/hello"
           (ReaderOf old_binary) Info_zero).
  - reflexivity.
  - reflexivity.
  - reflexivity.
  - left. reflexivity.
Defined.

Lemma Update_missing_signature_witness :
  Update keyed_13 first_run
  = (Ret (Info_zero, Some (fmt_Errorf
       "update: configured with public key but version info had no signature"
       [])),
     record (Fetched (manifest_url keyed_13)) first_run).
Proof.
  apply (Update_missing_signature (ext:=packages) keyed_13 first_run
           (record (Fetched api_json) first_run) "/opt/app/hello"
           (ReaderOf old_binary) info13).
  - reflexivity.
  - reflexivity.
  - reflexivity.
  - discriminate.
  - discriminate.
  - discriminate.
  - reflexivity.
Defined.

Lemma Update_patch_failure_falls_back_witness :
  (Update no_diff_url_404 first_run).1
    = Ret (Info_zero, Some (errors_New "Bad status code: 404")) /\
  fs (Update no_diff_url_404 first_run).2 = fs first_run.
Proof.
  apply (proj1 (Update_patch_failure_falls_back (ext:=packages)
                  no_diff_url_404 first_run
                  (record (Fetched api_json) first_run)
                  (record (Fetched "myapp/1.2/1.3/linux-amd64")
                     (record (Fetched api_json) first_run))
                  "/opt/app/hello" (ReaderOf old_binary) info13 []
                  (errors_New "Bad status code: 404")
                  eq_refl eq_refl eq_refl
                  ltac:(discriminate) ltac:(discriminate)
                  ltac:(intros [H _]; now apply H) eq_refl)
           [] (errors_New "Bad status code: 404")
           (record (Fetched bin_13)
              (record (Fetched "myapp/1.2/1.3/linux-amd64")
                 (record (Fetched api_json) first_run)))).
  reflexivity.
Defined.

Lemma fetch_reader_xor_error_witness :
  exists r e,
    fetch serves_13 api_json first_run
      = (Ret (r, e), record (Fetched api_json) first_run) /\
    (r = None <-> e <> None).
Proof.
  destruct (fetch_reader_xor_error (ext:=packages) serves_13
              (server [(api_json, bytes_of_string "manifest 1.3")])
              api_json first_run eq_refl) as (r & e & H & Hx & _).
  now exists r, e.
Defined.



Lemma UpdateAvailable_reports_other_versions_witness :
  fs (UpdateAvailable serves_13 first_run).2 = fs first_run /\
  "1.3" <> CurrentVersion serves_13.
Proof.
  destruct (UpdateAvailable_reports_other_versions (ext:=packages)
              serves_13 first_run) as (Hfs & _ & Hv).
  split; [exact Hfs |].
  apply (Hv "1.3" (UpdateAvailable serves_13 first_run).2).
  - apply from_fst. vm_compute. reflexivity.
  - discriminate.
Defined.



Lemma writeTime_then_readTime_witness :
  readTime "/opt/app/update/cktime"
    (writeTime "/opt/app/update/cktime" t0 fresh).2
  = (Ret t0, (writeTime "/opt/app/update/cktime" t0 fresh).2).
Proof.
  apply (writeTime_then_readTime (ext:=packages) "/opt/app/update/cktime"
           t0 t0 fresh).
  - apply from_fst. vm_compute. reflexivity.
  - vm_compute. reflexivity.
  - intros d m H. vm_compute in H. discriminate.
Defined.



Lemma BackgroundRun_idle_witness :
  BackgroundRun (with_CurrentVersion "dev" (createUpdater None)) first_run
    = (Ret (Info_zero, None),
       (os_MkdirAll "/opt/app/update" 0o777 first_run).2) /\
  fs first_run !! "/opt/app/update" = None /\
  only_dirs_added (fs first_run)
    (fs (os_MkdirAll "/opt/app/update" 0o777 first_run).2).
Proof.
  destruct (BackgroundRun_idle (ext:=packages)
              (with_CurrentVersion "dev" (createUpdater None)) first_run
              (os_MkdirAll "/opt/app/update" 0o777 first_run).2
              (os_MkdirAll "/opt/app/update" 0o777 first_run).2
              "/opt/app/hello" eq_refl
              ltac:(apply from_fst; vm_compute; reflexivity) eq_refl)
    as (H & _ & _ & Hd).
  split; [exact H |]. split; [vm_compute; reflexivity | exact Hd].
Defined.



Lemma urls_name_one_release_witness :
  patch_url (createUpdater None) info13
  <> patch_url (with_CurrentVersion "1.1" (createUpdater None)) info13.
Proof.
  intros E.
  destruct (proj1 (urls_name_one_release (ext:=packages) (createUpdater None)
                     (with_CurrentVersion "1.1" (createUpdater None))
                     info13 info13) eq_refl E) as (_ & H & _).
  discriminate H.
Defined.

Lemma is_name_platform : is_name "linux-amd64".
Proof. repeat split; discriminate. Qed.

Lemma CreateUpdate_leaves_manifest_witness :
  exists c mode,
    signed_Info info13 (digest new_binary) None = inl c /\
    fs (CreateUpdate info13 "hello" "linux-amd64" "public" None
          (builder_world publishing)).2 !! "public/linux-amd64.json"
      = Some (Regular (marshal c).1 mode).
Proof.
  apply (CreateUpdate_leaves_manifest (ext:=packages) info13 "hello"
           "linux-amd64" "public" None new_binary (builder_world publishing)).
  - exact is_name_platform.
  - vm_compute. reflexivity.
  - apply from_fst. vm_compute. reflexivity.
Defined.


Lemma CreateUpdate_signing_failure_writes_nothing_witness :
  (CreateUpdate (ext:=short_key) info13 "hello" "linux-amd64" "public"
     (Some private_key) (builder_world publishing)).1
    = Panic (errors_New "crypto/rsa: message too long for RSA key size") /\
  fs (CreateUpdate (ext:=short_key) info13 "hello" "linux-amd64" "public"
        (Some private_key) (builder_world publishing)).2
    = fs (builder_world publishing).
Proof.
  apply (CreateUpdate_signing_failure_writes_nothing (ext:=short_key)).
  reflexivity.
Defined.

Lemma published_manifest_is_accepted_witness :
  exists c,
    signed_Info info13 (digest new_binary) None = inl c /\
    Version c = "1.3" /\ Sha256 c = digest new_binary /\
    GetNextVersion serves_13 first_run
      = (Ret (c, None), record (Fetched (manifest_url serves_13)) first_run).
Proof.
  apply (published_manifest_is_accepted (ext:=packages) info13 "hello"
           "linux-amd64" "public" None new_binary (builder_world publishing)
           (CreateUpdate info13 "hello" "linux-amd64" "public" None
              (builder_world publishing)).2
           (bytes_of_string "manifest 1.3") 0o755 serves_13
           (server [(api_json, bytes_of_string "manifest 1.3")]) first_run).
  - exact is_name_platform.
  - vm_compute. reflexivity.
  - apply from_fst. vm_compute. reflexivity.
  - vm_compute. reflexivity.
  - intros c [= <-]. vm_compute. reflexivity.
  - vm_compute. reflexivity.
  - reflexivity.
  - vm_compute. reflexivity.
Defined.

Lemma Cobra_unusable_key_is_ignored_witness :
  Cobra.rootCmd_Execute (keys:=tools)
    (Cobra.mkFlags "bad.pem" "public" "linux-amd64") ["hello"; "1.3"]
    (builder_world no_key_in_file)
  = Cobra.rootCmd_Execute (keys:=tools)
      (Cobra.mkFlags "" "public" "linux-amd64") ["hello"; "1.3"]
      (builder_world no_key_in_file).
Proof.
  apply (Cobra_unusable_key_is_ignored (ext:=packages) (keys:=tools)
           (Cobra.mkFlags "bad.pem" "public" "linux-amd64") ["hello"; "1.3"]
           (builder_world no_key_in_file)
           (fmt_Errorf "failed to parse private key bad.pem: %w"
              [ArgErr (Some (errors_New
                 "failed to parse PEM block containing the key"))])).
  vm_compute. reflexivity.
Defined.

Lemma FlagMain_needs_key_file_witness :
  FlagMain.main (keys:=tools) (FlagMain.mkFlags "public" "" "linux-amd64")
    ["hello"; "1.3"] (builder_world publishing)
  = (Panic (PathError "open" "" ENOENT), builder_world publishing).
Proof.
  apply (FlagMain_needs_key_file (ext:=packages) (keys:=tools)).
  - reflexivity.
  - simpl. lia.
Defined.

Lemma unresolved_executable_panics_witness :
  BackgroundRun serves_13 lost
    = (Panic (errors_New "readlink /proc/self/exe: no such file or directory"),
       lost) /\
  WantUpdate (with_ForceCheck true serves_13) lost = (Ret true, lost).
Proof.
  destruct (unresolved_executable_panics (ext:=packages) serves_13 lost
              (errors_New "readlink /proc/self/exe: no such file or directory")
              eq_refl eq_refl) as (Hb & _).
  split; [exact Hb |].
  destruct (unresolved_executable_panics (ext:=packages)
              (with_ForceCheck true serves_13) lost
              (errors_New "readlink /proc/self/exe: no such file or directory")
              eq_refl eq_refl) as (_ & _ & _ & _ & _ & _ & _ & Hf & _).
  apply Hf; [discriminate | reflexivity].
Defined.

Lemma Update_installs_verified_patch_witness :
  trace (Update no_diff_url first_run).2
    = trace first_run
      ++ [Fetched (manifest_url no_diff_url);
          Fetched (patch_url no_diff_url info13)] /\
  (Update no_diff_url first_run).1 = Ret (info13, None).
Proof.
  destruct (Update_installs_verified_patch (ext:=packages) no_diff_url
              first_run (record (Fetched api_json) first_run)
              "/opt/app/hello" (ReaderOf old_binary)
              (ReaderOf (delta_magic ++ new_binary)) info13
              (server [(api_json, bytes_of_string "manifest 1.3");
                       ("myapp/1.2/1.3/linux-amd64",
                        delta_magic ++ new_binary)])
              new_binary
              eq_refl eq_refl eq_refl ltac:(discriminate) ltac:(discriminate)
              ltac:(intros [H _]; now apply H) eq_refl eq_refl eq_refl
              ltac:(vm_compute; reflexivity) eq_refl)
    as (Ht & _ & Hr).
  split; [exact Ht |]. apply Hr. vm_compute. reflexivity.
Defined.

End RunsMore.
